(** * Reduction of a CCD science frame: [reduce_science_frame] of [science.py]

    The development embeds the single function of [src/science.py] together
    with the parts of NumPy and of [astropy.io.fits] it relies on:

    - [F4]: IEEE-754 binary32 arithmetic (['f4'], the dtype every frame is
      converted to), through the executable specification of the standard
      library ([SpecFloat], precision 24, maximal exponent 128);
    - [Numpy]: n-dimensional arrays in row-major order and the broadcasting
      rule of the in-place operators ([a -= b], [a /= b], [a *= scalar]);
    - [Fits]: headers as ordered card lists with the update rule of
      [header[key] = value], header/data units, files and the file store;
    - the function itself, statement by statement, in a state and error
      monad over the file store.

    The definitions come first, the properties after them. *)

From Stdlib Require Import ZArith Bool Lia.
From Stdlib Require Import Floats.SpecFloat.
From stdpp Require Import base tactics option list strings gmap.

Local Open Scope Z_scope.

(** ** Binary32 arithmetic *)

Module F4.

Definition prec : Z := 24.
Definition emax : Z := 128.

(** A binary32 value; [S754_finite s m e] stands for [(-1)^s * m * 2^e]. *)
Definition f4 : Type := spec_float.

(** The datum is one of the format: a finite one has a mantissa of 24
    digits, or fewer at the least exponent -149, and an exponent of at
    most 104. *)
Definition valid (x : f4) : bool := valid_binary prec emax x.

Definition sub (x y : f4) : f4 := SFsub prec emax x y.
Definition mul (x y : f4) : f4 := SFmul prec emax x y.
Definition div (x y : f4) : f4 := SFdiv prec emax x y.

Definition zero : f4 := S754_zero false.
Definition one : f4 := S754_finite false 8388608 (-23).
Definition two : f4 := S754_finite false 8388608 (-22).
Definition nan : f4 := S754_nan.

(** Conversion of an integer (round to nearest, ties to even). *)
Definition of_Z (z : Z) : f4 := binary_normalize prec emax z 0 false.

(** Conversion of an integer to binary64 (a Python [int] as a C double). *)
Definition f8_of_Z (z : Z) : spec_float := binary_normalize 53 1024 z 0 false.

(** Conversion of a binary64 value (a Python [float]). *)
Definition of_f8 (x : spec_float) : f4 :=
  match x with
  | S754_finite s m e => binary_round prec emax s m e
  | _ => x
  end.

Definition is_zero (x : f4) : bool :=
  match x with S754_zero _ => true | _ => false end.

(** Neither an infinity nor a NaN. *)
Definition is_finite (x : f4) : bool :=
  match x with S754_zero _ | S754_finite _ _ _ => true | _ => false end.

Definition sign (x : f4) : bool :=
  match x with
  | S754_zero s | S754_infinity s | S754_finite s _ _ => s
  | S754_nan => false
  end.

(** Equality of values: the same datum, or two zeros of either sign
    ([-0.0 == 0.0] in IEEE-754). *)
Definition same_value (x y : f4) : Prop :=
  x = y \/ (is_zero x = true /\ is_zero y = true).

(** Zero, or a normal number whose double is finite. *)
Definition doubles (t : f4) : bool :=
  match t with
  | S754_zero _ => true
  | S754_finite _ m e =>
      (Zpos (digits2_pos m) =? 24) && (-149 <=? e) && (e + 1 <=? 104)
  | _ => false
  end.

(** The exact product of two finite numbers is not below the normal range:
    [m * 2^e] with [m] of [n] digits is at least [2^(n-1+e)], and the least
    normal number is [2^(-126)]. *)
Definition no_underflow (d t : f4) : bool :=
  match d, t with
  | S754_finite _ md ed, S754_finite _ mt et =>
      -149 <=? Zpos (digits2_pos (md * mt)) + (ed + et) - 24
  | _, _ => true
  end.

End F4.

(** ** NumPy arrays *)

Module Numpy.

Record ndarray (A : Type) := NdArray { shape : list nat; data : list A }.
Arguments NdArray {A} _ _.
Arguments shape {A} _.
Arguments data {A} _.

(** Number of elements of a shape. *)
Definition size (s : list nat) : nat := foldr Nat.mul 1%nat s.

(** The buffer holds exactly the elements of the shape. *)
Definition well_formed {A} (a : ndarray A) : bool :=
  Nat.eqb (length (data a)) (size (shape a)).

(** [compat_rev sb sa]: shapes given innermost axis first; every axis of
    [sb] is 1 or the axis of [sa] at the same position from the right, and
    [sb] has no more axes than [sa]. *)
Fixpoint compat_rev (sb sa : list nat) : bool :=
  match sb, sa with
  | [], _ => true
  | _ :: _, [] => false
  | m :: sb', n :: sa' => (Nat.eqb m n || Nat.eqb m 1) && compat_rev sb' sa'
  end.

(** An operand of shape [sb] can be used by an in-place operator on an
    array of shape [sa]: the broadcast of the two shapes is [sa]. *)
Definition broadcastable (sb sa : list nat) : bool :=
  compat_rev (rev sb) (rev sa).

(** [k] consecutive blocks of [sz] elements. *)
Fixpoint chunks {A} (k sz : nat) (l : list A) : list (list A) :=
  match k with
  | O => []
  | S k' => take sz l :: chunks k' sz (drop sz l)
  end.

(** Buffer of the operand stretched to shape [sa] (shapes outermost axis
    first): a missing leading axis and an axis of length 1 are repeated. *)
Fixpoint expand {A} (sa sb : list nat) (db : list A) : list A :=
  match sa with
  | [] => db
  | n :: sa' =>
      if Nat.ltb (length sb) (length sa) then
        concat (replicate n (expand sa' sb db))
      else
        match sb with
        | [] => db
        | m :: sb' =>
            if Nat.eqb m n then
              concat (map (expand sa' sb') (chunks n (size sb') db))
            else
              concat (replicate n (expand sa' sb' db))
        end
  end.

(** [a op= b]: [None] is NumPy's [ValueError] (operands could not be
    broadcast together, non-broadcastable output operand). *)
Definition inplace {A} (op : A -> A -> A) (a b : ndarray A)
  : option (ndarray A) :=
  if broadcastable (shape b) (shape a) then
    Some (NdArray (shape a)
            (zip_with op (data a) (expand (shape a) (shape b) (data b))))
  else None.

(** [a op= t] for a scalar [t]. *)
Definition inplace_scalar {A} (op : A -> A -> A) (a : ndarray A) (t : A)
  : ndarray A :=
  NdArray (shape a) (map (fun x => op x t) (data a)).

Definition astype {A B} (f : A -> B) (a : ndarray A) : ndarray B :=
  NdArray (shape a) (map f (data a)).

End Numpy.

(** ** Exceptions and results *)

Inductive exn :=
| FileNotFoundError (path : string)   (* no file at this path, or no directory
                                         to write the path in *)
| PermissionError (path : string)     (* the directory of the path cannot be
                                         written *)
| OSError (path : string)             (* not a FITS container; no space left on
                                         the device *)
| IndexError                          (* no data in the primary or first extension unit *)
| KeyError (key : string)             (* keyword not found in the header *)
| TypeError                           (* operand that is not a number; data block
                                         shorter than the shape asks for *)
| ValueError                          (* operands could not be broadcast together;
                                         header value that is not printable ASCII *)
| DetectorError (msg : string).       (* raised by the cosmic-ray detector *)

Definition result (A : Type) : Type := exn + A.

#[global] Instance result_ret : MRet result := fun _ x => inr x.
#[global] Instance result_bind : MBind result := fun _ _ f m =>
  match m with inl e => inl e | inr x => f x end.

(** ** FITS headers, units, files *)

Module Fits.
Import Numpy.

Inductive hvalue :=
| VStr (s : string)
| VInt (z : Z)
| VFloat (x : spec_float)   (* a binary64 value *)
| VBool (b : bool).

Record card := Card { keyword : string; value : hvalue; comment : string }.

(** The cards of a header in file order, each standing for its 80-column
    record. Two kinds of cards of a FITS header are not part of it: the
    structural cards ([SIMPLE], [BITPIX], [NAXIS], [EXTEND], [BSCALE],
    [BZERO], ...), which a unit derives from its data when it is built and
    written, and the blank cards, which only pad the header and of which an
    update may use one up. See [plain] below. *)
Definition Header : Type := list card.

Definition has_key (k : string) (c : card) : bool := String.eqb (keyword c) k.

(** The first card with keyword [k]. *)
Definition card_of (h : Header) (k : string) : option card :=
  List.find (has_key k) h.

(** [header[k]]: the value of the first card with keyword [k]. *)
Definition getitem (h : Header) (k : string) : option hvalue :=
  value <$> card_of h k.

Definition commentary (k : string) : bool :=
  String.eqb k "COMMENT" || String.eqb k "HISTORY" || String.eqb k "".

(** Replaces value (and comment, when one is given) of the first card with
    keyword [k]. *)
Fixpoint update_first (h : Header) (k : string) (v : hvalue) (c : option string)
  : Header :=
  match h with
  | [] => []
  | x :: h' =>
      if has_key k x then Card k v (default (comment x) c) :: h'
      else x :: update_first h' k v c
  end.

(** Inserts [x] after the last card with keyword [k]. *)
Fixpoint insert_after_last (h : Header) (k : string) (x : card) : Header :=
  match h with
  | [] => []
  | y :: h' =>
      if existsb (has_key k) h' then y :: insert_after_last h' k x
      else if has_key k y then y :: x :: h'
      else y :: h'
  end.

(** Inserts [x] after the last card that is not a commentary card, that
    is, before the commentary cards that end the header
    ([Header.append]). *)
Fixpoint insert_after_keywords (h : Header) (x : card) : Header :=
  match h with
  | [] => [x]
  | y :: h' =>
      if forallb (fun c => commentary (keyword c)) h then x :: h
      else y :: insert_after_keywords h' x
  end.

(** Printable ASCII, codes 32 to 126: what a header record can hold. *)
Fixpoint printable (s : string) : bool :=
  match s with
  | EmptyString => true
  | String a s' =>
      (32 <=? Ascii.N_of_ascii a)%N && (Ascii.N_of_ascii a <=? 126)%N
      && printable s'
  end.

(** A value that a card accepts: a string of printable characters, a
    finite number, a boolean. *)
Definition value_ok (v : hvalue) : bool :=
  match v with
  | VStr s => printable s
  | VFloat (S754_nan | S754_infinity _) => false
  | _ => true
  end.

(** The header after [header[k] = v] or [header[k] = (v, c)]
    ([Header._update]): a commentary keyword adds a card, after the last card
    of that keyword or at the end; any other keyword updates its first card
    when there is one, and otherwise adds a card after the last card that is
    not a commentary card. *)
Definition update (h : Header) (k : string) (v : hvalue) (c : option string)
  : Header :=
  if commentary k then
    if existsb (has_key k) h then insert_after_last h k (Card k v (default "" c))
    else h ++ [Card k v (default "" c)]
  else
    if existsb (has_key k) h then update_first h k v c
    else insert_after_keywords h (Card k v (default "" c)).

(** [header[k] = v] and [header[k] = (v, c)]: [ValueError] for a value or a
    comment that a card does not accept. *)
Definition setitem (h : Header) (k : string) (v : hvalue) (c : option string)
  : result Header :=
  if value_ok v && printable (default "" c) then inr (update h k v c)
  else inl ValueError.

Inductive int_dtype := UInt8 | Int16 | Int32 | Int64.
Inductive dtype := Float32 | IntType (d : int_dtype).

(** Pixel data of a unit, by dtype. *)
Inductive image :=
| ImgF4 (a : ndarray F4.f4)
| ImgInt (d : int_dtype) (a : ndarray Z).

Definition image_dtype (i : image) : dtype :=
  match i with ImgF4 _ => Float32 | ImgInt d _ => IntType d end.

Definition image_shape (i : image) : list nat :=
  match i with ImgF4 a => shape a | ImgInt _ a => shape a end.

(** The stored pixels decode: one per element of the shape, each a
    binary32 datum. *)
Definition image_ok (i : image) : bool :=
  match i with
  | ImgF4 a => well_formed a && forallb F4.valid (data a)
  | ImgInt _ a => well_formed a
  end.

(** [.astype('f4')] *)
Definition astype_f4 (i : image) : ndarray F4.f4 :=
  match i with
  | ImgF4 a => a
  | ImgInt _ a => astype F4.of_Z a
  end.

Record HDU := MkHDU { hdu_header : Header; hdu_data : option image }.

(** [fits.PrimaryHDU(data=d, header=h)] keeps the cards of a copy of [h]. *)
Definition PrimaryHDU (d : ndarray F4.f4) (h : Header) : HDU :=
  MkHDU h (Some (ImgF4 d)).

(** [fits.ImageHDU(data=d, name=n)] records the name in [EXTNAME]. *)
Definition ImageHDU (d : image) (n : string) : result HDU :=
  h ← setitem [] "EXTNAME" (VStr n) (Some "extension name");
  mret (MkHDU h (Some d)).

Definition hdu_name (u : HDU) : option string :=
  match getitem (hdu_header u) "EXTNAME" with
  | Some (VStr n) => Some n
  | _ => None
  end.

(** What a path holds: a FITS container (primary unit and extensions) or
    anything else. *)
Inductive file :=
| FitsFile (hdul : list HDU)
| OtherFile.

(** The file store: the files, and the paths that cannot be written
    because their directory does not exist. *)
Record store := Store { files : gmap string file; locked : gset string }.

(** What can go wrong while a file is written: the directory refuses the
    write, and nothing is changed; or the device fills up after the file
    that was at the path has been removed, and [left] is what stays at the
    path (a partial file, or nothing). *)
Inductive write_fault :=
| NoPermission
| NoSpace (left : option file).

(** The medium: for a path and the units to write there, the fault that the
    write meets, if any. *)
Definition device : Type := string -> list HDU -> option write_fault.

End Fits.

Import Numpy Fits.

(** ** The state and error monad *)

Definition M (A : Type) : Type := store -> result A * store.

#[global] Instance M_ret : MRet M := fun _ x w => (inr x, w).
#[global] Instance M_bind : MBind M := fun _ _ f m w =>
  match m w with
  | (inl e, w') => (inl e, w')
  | (inr x, w') => f x w'
  end.
#[global] Instance M_fmap : FMap M := fun _ _ f m w =>
  match m w with
  | (inl e, w') => (inl e, w')
  | (inr x, w') => (inr (f x), w')
  end.

Definition raise {A} (e : exn) : M A := fun w => (inl e, w).

Definition lift {A} (r : result A) : M A := fun w => (r, w).

(** ** [astropy.io.fits] convenience functions *)

Definition fits_open (path : string) : M (list HDU) := fun w =>
  match files w !! path with
  | None => (inl (FileNotFoundError path), w)
  | Some OtherFile | Some (FitsFile []) => (inl (OSError path), w)
  | Some (FitsFile hdul) => (inr hdul, w)
  end.

(** The data block of a unit read as an array: [TypeError] when the block
    is too short for the shape. *)
Definition decoded (path : string) (i : image) : M image :=
  if image_ok i then mret i else raise TypeError.

(** [fits.getdata(path)]: the data of the primary unit, or of the first
    extension when the primary unit has none. *)
Definition getdata (path : string) : M image :=
  hdul ← fits_open path;
  match hdu_data <$> hdul !! 0%nat with
  | Some (Some i) => decoded path i
  | _ =>
      match hdu_data <$> hdul !! 1%nat with
      | Some (Some i) => decoded path i
      | _ => raise IndexError
      end
  end.

(** [fits.getheader(path)]: the header of the primary unit. *)
Definition getheader (path : string) : M Header :=
  hdul ← fits_open path;
  match hdul !! 0%nat with
  | Some u => mret (hdu_header u)
  | None => raise (OSError path)
  end.

(** [fits.HDUList(hdul).writeto(path, overwrite=True)] on the medium [dev]:
    the file that is at the path is removed, then the units are written
    one after the other. *)
Definition writeto (dev : device) (hdul : list HDU) (path : string) : M unit :=
  fun w =>
    if decide (path ∈ locked w) then (inl (FileNotFoundError path), w)
    else
      match dev path hdul with
      | None =>
          (inr tt, Store (<[path := FitsFile hdul]> (files w)) (locked w))
      | Some NoPermission => (inl (PermissionError path), w)
      | Some (NoSpace (Some f)) =>
          (inl (OSError path), Store (<[path := f]> (files w)) (locked w))
      | Some (NoSpace None) =>
          (inl (OSError path), Store (delete path (files w)) (locked w))
      end.

(** ** The in-place arithmetic of the calibration *)

(** [a -= b] and [a /= b] on ['f4'] arrays. *)
Definition isub (a b : ndarray F4.f4) : result (ndarray F4.f4) :=
  match inplace F4.sub a b with Some r => inr r | None => inl ValueError end.

Definition idiv (a b : ndarray F4.f4) : result (ndarray F4.f4) :=
  match inplace F4.div a b with Some r => inr r | None => inl ValueError end.

(** The binary32 scalar a header value contributes to an ['f4'] operation;
    a Python [int] becomes a binary64 value first. *)
Definition scalar_f4 (v : hvalue) : result F4.f4 :=
  match v with
  | VInt z => inr (F4.of_f8 (F4.f8_of_Z z))
  | VFloat x => inr (F4.of_f8 x)
  | VBool b => inr (if b then F4.one else F4.zero)
  | VStr _ => inl TypeError
  end.

(** [a *= v] for a header value [v]. *)
Definition imul_value (a : ndarray F4.f4) (v : hvalue) : result (ndarray F4.f4) :=
  t ← scalar_f4 v; mret (inplace_scalar F4.mul a t).

(** [sciHeader[k]] *)
Definition header_getitem (h : Header) (k : string) : result hvalue :=
  match getitem h k with Some v => inr v | None => inl (KeyError k) end.

(** ** [reduce_science_frame] *)

(** Lines 42 to 54: the frames are read and the science frame is corrected
    in place. The value is the science array as it stands before line 57,
    with the science header. *)
Definition corrected_frame
    (science_filename median_bias_filename median_flat_filename
       median_dark_filename : string)
  : M (ndarray F4.f4 * Header) :=
  bias ← astype_f4 <$> getdata median_bias_filename;
  flat ← astype_f4 <$> getdata median_flat_filename;
  dark ← astype_f4 <$> getdata median_dark_filename;
  sci ← astype_f4 <$> getdata science_filename;
  sciHeader ← getheader science_filename;
  sci ← lift (isub sci bias);
  exptime ← lift (header_getitem sciHeader "EXPTIME");
  dark ← lift (imul_value dark exptime);
  sci ← lift (isub sci dark);
  sci ← lift (idiv sci flat);
  mret (sci, sciHeader).

(** [mask.astype('uint8')] *)
Definition mask_uint8 (mask : ndarray bool) : image :=
  ImgInt UInt8 (astype (fun b : bool => if b then 1 else 0) mask).

(** Lines 60 to 63: the provenance entries set on the header of the
    primary unit. *)
Definition annotate (h : Header)
    (median_bias_filename median_flat_filename median_dark_filename : string)
  : result Header :=
  h ← setitem h "COMMENT" (VStr "Reduced science image") None;
  h ← setitem h "BIASFILE" (VStr median_bias_filename)
        (Some "Bias image used to subtract bias level");
  h ← setitem h "DARKFILE" (VStr median_dark_filename)
        (Some "Dark image used to subtract dark current");
  setitem h "FLATFILE" (VStr median_flat_filename)
    (Some "Flat image used for FPN correction").

(** Lines 59 to 65: the two units of the output file. *)
Definition output_hdul
    (reduced_science : ndarray F4.f4) (mask : ndarray bool) (sciHeader : Header)
    (median_bias_filename median_flat_filename median_dark_filename : string)
  : result (list HDU) :=
  let sci_hdu := PrimaryHDU reduced_science sciHeader in
  header ← annotate (hdu_header sci_hdu) median_bias_filename
             median_flat_filename median_dark_filename;
  let sci_hdu := MkHDU header (hdu_data sci_hdu) in
  mask_hdu ← ImageHDU (mask_uint8 mask) "COSMICRAY_MASK";
  mret [sci_hdu; mask_hdu].

Section Reduce.

(** [astroscrappy.detect_cosmics]: an image to a boolean mask and a cleaned
    image, or an exception. *)
Variable detect_cosmics :
  ndarray F4.f4 -> result (ndarray bool * ndarray F4.f4).

(** The medium the output file is written on. *)
Variable dev : device.

Definition reduce_science_frame
    (science_filename median_bias_filename median_flat_filename
       median_dark_filename reduced_science_filename : string)
  : M (ndarray F4.f4) :=
  '(sci, sciHeader) ← corrected_frame science_filename median_bias_filename
                        median_flat_filename median_dark_filename;
  '(mask, reduced_science) ← lift (detect_cosmics sci);
  hdul ← lift (output_hdul reduced_science mask sciHeader median_bias_filename
                 median_flat_filename median_dark_filename);
  writeto dev hdul reduced_science_filename;;
  mret reduced_science.

End Reduce.

(** ** Vocabulary of the statements *)

(** The four frames and the science header as lines 42 to 46 read them. *)
Record frames := Frames {
  f_sci : image; f_bias : image; f_dark : image; f_flat : image;
  f_header : Header
}.

Definition loaded (w : store) (sci_fn bias_fn flat_fn dark_fn : string)
    (fr : frames) : Prop :=
  getdata bias_fn w = (inr (f_bias fr), w) /\
  getdata flat_fn w = (inr (f_flat fr), w) /\
  getdata dark_fn w = (inr (f_dark fr), w) /\
  getdata sci_fn w = (inr (f_sci fr), w) /\
  getheader sci_fn w = (inr (f_header fr), w).

(** Line 51 on frames already read: the dark frame scaled by the exposure
    time, which line 52 subtracts. *)
Definition dark_contribution (fr : frames) : result (ndarray F4.f4) :=
  exptime ← header_getitem (f_header fr) "EXPTIME";
  imul_value (astype_f4 (f_dark fr)) exptime.

(** Lines 48 to 54 on frames already read. *)
Definition arithmetic (fr : frames) : result (ndarray F4.f4 * Header) :=
  sci ← isub (astype_f4 (f_sci fr)) (astype_f4 (f_bias fr));
  dark ← dark_contribution fr;
  sci ← isub sci dark;
  sci ← idiv sci (astype_f4 (f_flat fr));
  mret (sci, f_header fr).

(** The three calibration frames can be used in place on the science frame. *)
Definition all_broadcastable (fr : frames) : bool :=
  broadcastable (image_shape (f_bias fr)) (image_shape (f_sci fr)) &&
  broadcastable (image_shape (f_dark fr)) (image_shape (f_sci fr)) &&
  broadcastable (image_shape (f_flat fr)) (image_shape (f_sci fr)).


Definition provenance_keys : list string :=
  ["COMMENT"; "BIASFILE"; "DARKFILE"; "FLATFILE"].

Definition bias_card (fn : string) : card :=
  Card "BIASFILE" (VStr fn) "Bias image used to subtract bias level".
Definition dark_card (fn : string) : card :=
  Card "DARKFILE" (VStr fn) "Dark image used to subtract dark current".
Definition flat_card (fn : string) : card :=
  Card "FLATFILE" (VStr fn) "Flat image used for FPN correction".
Definition comment_card : card :=
  Card "COMMENT" (VStr "Reduced science image") "".

(** The four entries in the order of lines 60 to 63. *)
Definition provenance (bias_fn flat_fn dark_fn : string) : list card :=
  [comment_card; bias_card bias_fn; dark_card dark_fn; flat_card flat_fn].

(** The three file entries, in the order they are set. *)
Definition file_cards (bias_fn flat_fn dark_fn : string) : list card :=
  [bias_card bias_fn; dark_card dark_fn; flat_card flat_fn].

(** A card without keyword, value and comment. *)
Definition is_blank (c : card) : bool :=
  String.eqb (keyword c) "" &&
  match value c with VStr s => String.eqb s "" | _ => false end &&
  String.eqb (comment c) "".

(** The keywords of the structural cards. *)
Definition structural (k : string) : bool :=
  String.prefix "NAXIS" k ||
  existsb (String.eqb k)
    ["SIMPLE"; "XTENSION"; "BITPIX"; "EXTEND"; "PCOUNT"; "GCOUNT"; "GROUPS";
     "BSCALE"; "BZERO"; "TFIELDS"; "END"].

(** A header as the model takes it: no blank card, no structural card. *)
Definition plain (h : Header) : bool :=
  forallb (fun c => negb (is_blank c) && negb (structural (keyword c))) h.






(** The header after lines 60 to 63 when none of them raises. *)
Definition annotated (h : Header) (bias_fn flat_fn dark_fn : string) : Header :=
  let h := update h "COMMENT" (VStr "Reduced science image") None in
  let h := update h "BIASFILE" (VStr bias_fn)
             (Some "Bias image used to subtract bias level") in
  let h := update h "DARKFILE" (VStr dark_fn)
             (Some "Dark image used to subtract dark current") in
  update h "FLATFILE" (VStr flat_fn)
    (Some "Flat image used for FPN correction").

(** The extension unit of the mask, as line 64 builds it. *)
Definition mask_unit_of (mask : ndarray bool) : HDU :=
  MkHDU [Card "EXTNAME" (VStr "COSMICRAY_MASK") "extension name"]
    (Some (mask_uint8 mask)).



(** ** A small observing night, for the concrete runs *)

Module Demo.

Definition sci_header : Header :=
  [ Card "OBJECT" (VStr "M51") "target";
    Card "EXPTIME" (VInt 30) "exposure time in seconds" ].

Definition sci_img : image :=
  ImgInt Int16 (NdArray [2; 2]%nat [110; 120; 130; 140]).
Definition bias_img : image :=
  ImgInt Int16 (NdArray [2; 2]%nat [10; 10; 10; 10]).
Definition dark_img : image :=
  ImgF4 (NdArray [2; 2]%nat [F4.one; F4.one; F4.two; F4.zero]).
Definition flat_img : image :=
  ImgF4 (NdArray [2; 2]%nat [F4.one; F4.two; F4.one; F4.one]).

(** A bias of one row and a bias of three pixels in a line. *)
Definition bias_row_img : image :=
  ImgInt Int16 (NdArray [1; 2]%nat [10; 10]).
Definition bias_line_img : image :=
  ImgInt Int16 (NdArray [3]%nat [10; 10; 10]).

(** Identity calibration frames. *)
Definition zeros_img : image :=
  ImgF4 (NdArray [2; 2]%nat [F4.zero; F4.zero; F4.zero; F4.zero]).
Definition ones_img : image :=
  ImgF4 (NdArray [2; 2]%nat [F4.one; F4.one; F4.one; F4.one]).

(** A dark with a blank (NaN) pixel and a dark with a pixel of 3 * 2^(-149),
    a subnormal number. *)
Definition tiny : F4.f4 := S754_finite false 3 (-149).
Definition dark_nan_img : image :=
  ImgF4 (NdArray [2; 2]%nat [F4.nan; F4.one; F4.one; F4.one]).
Definition dark_tiny_img : image :=
  ImgF4 (NdArray [2; 2]%nat [tiny; F4.one; F4.one; F4.one]).

(** Science headers without exposure time and with exposure times -30, 0,
    60, 0.5 and 1.0 (the last two binary64 values). *)
Definition exposure (v : hvalue) : Header :=
  [ Card "OBJECT" (VStr "M51") "target";
    Card "EXPTIME" v "exposure time in seconds" ].
Definition noexp_header : Header := [ Card "OBJECT" (VStr "M51") "target" ].
Definition negexp_header : Header := exposure (VInt (-30)).
Definition zeroexp_header : Header := exposure (VInt 0).
Definition sixty_header : Header := exposure (VInt 60).
Definition half_header : Header :=
  exposure (VFloat (S754_finite false 4503599627370496 (-53))).
Definition unit_header : Header :=
  exposure (VFloat (S754_finite false 4503599627370496 (-52))).

Definition single (h : Header) (i : image) : file :=
  FitsFile [MkHDU h (Some i)].

Definition night : store :=
  Store (list_to_map
           [ ("sci.fits", single sci_header sci_img);
             ("bias.fits", single [] bias_img);
             ("dark.fits", single [] dark_img);
             ("flat.fits", single [] flat_img);
             ("bias_row.fits", single [] bias_row_img);
             ("bias_line.fits", single [] bias_line_img);
             ("zeros.fits", single [] zeros_img);
             ("ones.fits", single [] ones_img);
             ("dark_nan.fits", single [] dark_nan_img);
             ("dark_tiny.fits", single [] dark_tiny_img);
             ("noexp.fits", single noexp_header sci_img);
             ("negexp.fits", single negexp_header sci_img);
             ("zeroexp.fits", single zeroexp_header sci_img);
             ("sixty.fits", single sixty_header sci_img);
             ("half.fits", single half_header sci_img);
             ("unit.fits", single unit_header sci_img) ])
        ∅.

Definition night_frames : frames :=
  Frames sci_img bias_img dark_img flat_img sci_header.

(** A medium on which every write goes through. *)
Definition roomy : device := fun _ _ => None.

(** A detector that finds nothing and returns the image as it is. *)
Definition no_cosmics (a : ndarray F4.f4)
  : result (ndarray bool * ndarray F4.f4) :=
  inr (NdArray (shape a) (map (fun _ => false) (data a)), a).

(** What the reduction of the night gives: [(110 - 10 - 1 * 30) / 1],
    [(120 - 10 - 1 * 30) / 2], [(130 - 10 - 2 * 30) / 1],
    [(140 - 10 - 0 * 30) / 1]. *)
Definition reduced : ndarray F4.f4 :=
  NdArray [2; 2]%nat (map F4.of_Z [70; 40; 60; 130]).

(** Its header: the file entries after the last keyword card, the comment
    at the end. *)
Definition reduced_header : Header :=
  sci_header ++ file_cards "bias.fits" "flat.fits" "dark.fits"
    ++ [comment_card].

Definition mask_hdu : HDU :=
  MkHDU [Card "EXTNAME" (VStr "COSMICRAY_MASK") "extension name"]
    (Some (ImgInt UInt8 (NdArray [2; 2]%nat [0; 0; 0; 0]))).

Definition night_after : store :=
  Store (<["reduced_science.fits" :=
             FitsFile [MkHDU reduced_header (Some (ImgF4 reduced)); mask_hdu]]>
           (files night))
        ∅.

End Demo.

(** ** More files, for the runs of the further properties *)

Module Archive.

(** Calibration frames of a single pixel: a bias level of 10, a dark rate
    of 1 per second, a flat of 2. *)
Definition bias_level_img : image :=
  ImgInt Int16 (NdArray [1; 1]%nat [10]).
Definition dark_rate_img : image :=
  ImgF4 (NdArray [1; 1]%nat [F4.one]).
Definition gain_img : image :=
  ImgF4 (NdArray [1]%nat [F4.two]).

(** An exposure time written as a string, one of one second, and one of
    1e40 seconds (the binary64 value [8271806125530277 * 2^80]), which is
    beyond the binary32 range. *)
Definition strexp_header : Header := Demo.exposure (VStr "30.0").
Definition onesec_header : Header := Demo.exposure (VInt 1).
Definition huge_header : Header :=
  Demo.exposure (VFloat (S754_finite false 8271806125530277 80)).

(** A science frame whose first pixel is [-0.0], and a bias frame that is
    [-0.0] at every pixel. *)
Definition negzero : F4.f4 := S754_zero true.
Definition negsci_img : image :=
  ImgF4 (NdArray [2; 2]%nat
           [negzero; F4.of_Z 120; F4.of_Z 130; F4.of_Z 140]).
Definition negzeros_img : image :=
  ImgF4 (NdArray [2; 2]%nat [negzero; negzero; negzero; negzero]).

(** A science file whose primary unit has no data: the image is in the
    first extension, and only the header of the extension has [EXPTIME]. *)
Definition extension_header : Header :=
  [ Card "EXTNAME" (VStr "SCI") "extension name";
    Card "EXPTIME" (VInt 30) "exposure time in seconds" ].
Definition mef : file :=
  FitsFile [ MkHDU Demo.noexp_header None;
             MkHDU extension_header (Some Demo.sci_img) ].

(** A science frame with two earlier comments and a history card. *)
Definition logged_header : Header :=
  [ Card "COMMENT" (VStr "first light") "";
    Card "EXPTIME" (VInt 30) "exposure time in seconds";
    Card "HISTORY" (VStr "trimmed") "";
    Card "COMMENT" (VStr "seeing 1.2 arcsec") "";
    Card "HISTORY" (VStr "overscan removed") "" ].

Definition shelf : store :=
  Store (<["bias_level.fits" := Demo.single [] bias_level_img]>
        (<["dark_rate.fits" := Demo.single [] dark_rate_img]>
        (<["gain.fits" := Demo.single [] gain_img]>
        (<["strexp.fits" := Demo.single strexp_header Demo.sci_img]>
        (<["onesec.fits" := Demo.single onesec_header Demo.sci_img]>
        (<["mef.fits" := mef]>
        (<["logged.fits" := Demo.single logged_header Demo.sci_img]>
        (<["notes.txt" := OtherFile]>
        (<["huge.fits" := Demo.single huge_header Demo.sci_img]>
        (<["negsci.fits" := Demo.single Demo.sci_header negsci_img]>
        (<["negzeros.fits" := Demo.single [] negzeros_img]>
           (files Demo.night))))))))))))
        {["/nowhere/out.fits"]}.

(** A medium without room for a file at [reduced_science.fits]: the write
    stops midway and leaves a file that is not a FITS container. *)
Definition crowded : device := fun path _ =>
  if String.eqb path "reduced_science.fits"
  then Some (NoSpace (Some OtherFile)) else None.

(** A detector that flags the first pixel and replaces it by zero. *)
Definition first_pixel (a : ndarray F4.f4)
  : result (ndarray bool * ndarray F4.f4) :=
  inr (NdArray (shape a) (true :: map (fun _ => false) (tail (data a))),
       NdArray (shape a) (F4.zero :: tail (data a))).

End Archive.

(** * Properties *)

(** ** Binary32: exact operations *)

Section Binary32.
Import F4.

Lemma sub_zero_r x : sub x zero = x.
Proof. destruct x as [[]|[]| |[] m e]; reflexivity. Qed.

Lemma div_eucl_exact a b : 0 < b -> Z.div_eucl (a * b) b = (a, 0).
Proof.
  intros Hb. pose proof (Z.div_mul a b ltac:(lia)) as Hq.
  pose proof (Z.mod_mul a b ltac:(lia)) as Hr.
  unfold Z.div, Z.modulo in *. destruct (Z.div_eucl (a * b) b). simpl in *. congruence.
Qed.

(** A canonical mantissa: 24 digits, or the least exponent. *)
Lemma bounded_cases m e :
  bounded prec emax m e = true ->
  e <= 104 /\ ((Zpos (digits2_pos m) = 24 /\ -149 <= e) \/ (e = -149 /\ Zpos (digits2_pos m) <= 24)).
Proof.
  unfold bounded, canonical_mantissa, fexp, emin, prec, emax.
  intros H. apply andb_prop in H as [H1 H2].
  apply Z.eqb_eq in H1. apply Z.leb_le in H2. lia.
Qed.

Lemma div_one_finite s m e :
  bounded prec emax m e = true ->
  div (S754_finite s m e) one = S754_finite s m e.
Proof.
  intros Hb. destruct (bounded_cases m e Hb) as [He Hc].
  destruct (Z.eq_dec e (-149)) as [->|Hne].
  - assert (Hd : Zpos (digits2_pos m) <= 24) by lia.
    unfold div, one, SFdiv, SFdiv_core_binary.
    unfold Zdigits2. change (Z.pos (digits2_pos 8388608)) with 24.
    unfold fexp, emin, prec, emax.
    replace (Z.min _ _) with (-149) by lia.
    change (-149 - -23 - -149) with 23.
    cbv iota. rewrite Z.shiftl_mul_pow2 by lia.
    rewrite div_eucl_exact by lia.
    change (new_location 8388608 0) with loc_Exact.
    unfold binary_round_aux, shr_fexp, Zdigits2, fexp, emin.
    replace (Z.max _ _ - -149) with 0 by lia.
    cbn [shr shr_record_of_loc shr_m loc_of_shr_record round_nearest_even].
    replace (Z.max _ _ - -149) with 0 by lia.
    cbn. by rewrite xorb_false_r.
  - assert (Hd : Zpos (digits2_pos m) = 24) by lia.
    unfold div, one, SFdiv, SFdiv_core_binary.
    unfold Zdigits2. change (Z.pos (digits2_pos 8388608)) with 24.
    rewrite Hd. unfold fexp, emin, prec, emax.
    replace (Z.min _ _) with (e - 1) by lia.
    replace (e - -23 - (e - 1)) with 24 by lia.
    cbv iota. rewrite Z.shiftl_mul_pow2 by lia.
    replace (Z.pos m * 2 ^ 24) with (Z.pos m~0 * 8388608) by lia.
    rewrite div_eucl_exact by lia.
    change (new_location 8388608 0) with loc_Exact.
    unfold binary_round_aux, shr_fexp, Zdigits2, fexp, emin.
    cbn [digits2_pos]. rewrite Pos2Z.inj_succ, Hd.
    replace (Z.max _ _ - (e - 1)) with 1 by lia.
    cbn [shr shr_record_of_loc SpecFloat.iter_pos shr_1 shr_m loc_of_shr_record
           round_nearest_even orb].
    cbv iota. rewrite Hd.
    replace (Z.max _ _ - (e - 1 + 1)) with 0 by lia.
    cbn [shr shr_m shr_record_of_loc].
    replace (e - 1 + 1) with e by lia.
    rewrite xorb_false_r.
    destruct (Z.leb_spec e (128 - 24)); [done|lia].
Qed.

Lemma div_one x : valid x = true -> div x one = x.
Proof.
  destruct x as [s|s| |s m e]; intros Hv.
  - simpl. by rewrite xorb_false_r.
  - simpl. by rewrite xorb_false_r.
  - reflexivity.
  - by apply div_one_finite.
Qed.

(** Digits *)
Lemma digits2_bounds p :
  2 ^ (Zpos (digits2_pos p) - 1) <= Zpos p < 2 ^ Zpos (digits2_pos p).
Proof.
  induction p as [p IH|p IH|]; cbn [digits2_pos].
  - rewrite Pos2Z.inj_succ. replace (Z.succ (Zpos (digits2_pos p)) - 1) with (Zpos (digits2_pos p)) by lia.
    rewrite Z.pow_succ_r by lia.
    replace (Zpos (digits2_pos p)) with (Z.succ (Zpos (digits2_pos p) - 1)) at 1 by lia.
    rewrite Z.pow_succ_r by lia. lia.
  - rewrite Pos2Z.inj_succ. replace (Z.succ (Zpos (digits2_pos p)) - 1) with (Zpos (digits2_pos p)) by lia.
    rewrite Z.pow_succ_r by lia.
    replace (Zpos (digits2_pos p)) with (Z.succ (Zpos (digits2_pos p) - 1)) at 1 by lia.
    rewrite Z.pow_succ_r by lia. lia.
  - simpl. lia.
Qed.

Lemma digits2_unique p k :
  2 ^ (k - 1) <= Zpos p < 2 ^ k -> Zpos (digits2_pos p) = k.
Proof.
  intros [Hl Hu]. pose proof (digits2_bounds p) as [Hl' Hu'].
  assert (0 < k).
  { destruct (Z.lt_trichotomy k 0) as [Hk|[->|Hk]]; [|simpl in Hu; lia|done].
    rewrite Z.pow_neg_r in Hu by done. lia. }
  destruct (Z.lt_trichotomy (Zpos (digits2_pos p)) k) as [Hlt|[Heq|Hgt]]; [|done|].
  - assert (2 ^ Zpos (digits2_pos p) <= 2 ^ (k - 1)) by (apply Z.pow_le_mono_r; lia). lia.
  - assert (2 ^ k <= 2 ^ (Zpos (digits2_pos p) - 1)) by (apply Z.pow_le_mono_r; lia). lia.
Qed.

Lemma digits2_le p q : (p <= q)%positive -> Zpos (digits2_pos p) <= Zpos (digits2_pos q).
Proof.
  intros Hpq. pose proof (digits2_bounds p) as [Hl _]. pose proof (digits2_bounds q) as [_ Hu].
  destruct (Z.le_gt_cases (Zpos (digits2_pos p)) (Zpos (digits2_pos q))) as [|Hgt]; [done|].
  assert (2 ^ Zpos (digits2_pos q) <= 2 ^ (Zpos (digits2_pos p) - 1)) by (apply Z.pow_le_mono_r; lia).
  lia.
Qed.

Lemma digits2_succ_24 p :
  Zpos (digits2_pos p) = 24 ->
  Zpos (digits2_pos (p + 1)) = 24 \/ (p + 1)%positive = 16777216%positive.
Proof.
  intros Hd. pose proof (digits2_bounds p) as Hb. rewrite Hd in Hb.
  change (2 ^ (24 - 1)) with 8388608 in Hb. change (2 ^ 24) with 16777216 in Hb.
  destruct (Z.eq_dec (Zpos p + 1) 16777216) as [He|Hne].
  - right. lia.
  - left. apply digits2_unique. change (2 ^ (24 - 1)) with 8388608. change (2 ^ 24) with 16777216. lia.
Qed.

Lemma iter_pos_nat {A} (f : A -> A) n x :
  SpecFloat.iter_pos f n x = Nat.iter (Pos.to_nat n) f x.
Proof.
  revert x; induction n as [n IH|n IH|]; intros x; cbn [SpecFloat.iter_pos].
  - rewrite !IH, Pos2Nat.inj_xI, <- Nat.iter_succ_r, <- Nat.iter_add.
    f_equal. lia.
  - rewrite !IH, Pos2Nat.inj_xO, <- Nat.iter_add. f_equal. lia.
  - reflexivity.
Qed.

Lemma shr_1_digits p r s :
  1 < Zpos (digits2_pos p) ->
  exists p' r' s', shr_1 (Build_shr_record (Zpos p) r s) = Build_shr_record (Zpos p') r' s' /\
                   Zpos (digits2_pos p') = Zpos (digits2_pos p) - 1.
Proof.
  destruct p as [q|q|]; cbn [shr_1 digits2_pos]; intros Hd.
  - eexists _, _, _; split; [reflexivity|]. lia.
  - eexists _, _, _; split; [reflexivity|]. lia.
  - simpl in Hd. lia.
Qed.

Lemma shr_iter_digits (n : nat) p r s :
  Z.of_nat n < Zpos (digits2_pos p) ->
  exists p' r' s', Nat.iter n shr_1 (Build_shr_record (Zpos p) r s) = Build_shr_record (Zpos p') r' s' /\
                   Zpos (digits2_pos p') = Zpos (digits2_pos p) - Z.of_nat n.
Proof.
  induction n as [|n IH]; intros Hn.
  - exists p, r, s. split; [reflexivity|]. lia.
  - destruct IH as (p' & r' & s' & Hi & Hd); [lia|].
    cbn [Nat.iter nat_rect]. unfold Nat.iter in Hi. rewrite Hi.
    destruct (shr_1_digits p' r' s') as (p'' & r'' & s'' & Hs & Hd'); [lia|].
    exists p'', r'', s''. split; [done|]. lia.
Qed.

(** Shifting a mantissa of [dg >= 24] digits down to 24 digits. *)
Lemma shr_to_24 M l :
  24 <= Zpos (digits2_pos M) ->
  exists p r s,
    Zpos (digits2_pos p) = 24 /\
    forall E', shr (shr_record_of_loc (Zpos M) l) E' (Zpos (digits2_pos M) - 24)
               = (Build_shr_record (Zpos p) r s, E' + (Zpos (digits2_pos M) - 24)).
Proof.
  intros Hd.
  destruct (Z.eq_dec (Zpos (digits2_pos M)) 24) as [He|Hne].
  - rewrite He. change (24 - 24) with 0.
    destruct l as [|[]]; eexists M, _, _; (split; [done|]); intros E';
      cbn [shr shr_record_of_loc]; f_equal; lia.
  - destruct (Zpos (digits2_pos M) - 24) as [|n|n] eqn:Hn; [lia| |lia].
    assert (Hrec : exists r s, shr_record_of_loc (Zpos M) l = Build_shr_record (Zpos M) r s).
    { destruct l as [|[]]; eexists _, _; reflexivity. }
    destruct Hrec as (r & s & ->).
    destruct (shr_iter_digits (Pos.to_nat n) M r s) as (p' & r' & s' & Hi & Hd'); [lia|].
    exists p', r', s'. split; [lia|]. intros E'. cbn [shr].
    by rewrite iter_pos_nat, Hi.
Qed.

Lemma round_nearest_even_pos p l :
  round_nearest_even (Zpos p) l = Zpos p \/ round_nearest_even (Zpos p) l = Zpos (p + 1).
Proof.
  destruct l as [|[]]; cbn [round_nearest_even]; auto.
  destruct (Z.even (Zpos p)); auto.
Qed.

(** Rounding a mantissa of at least 24 digits, when the result is not below the
    normal range: the mantissa and the exponent shift of the result do not depend
    on the exponent. *)
Lemma binary_round_aux_normal M :
  24 <= Zpos (digits2_pos M) ->
  exists m2 c,
    Zpos (digits2_pos m2) = 24 /\ Zpos (digits2_pos M) - 24 <= c /\
    forall s E, -149 <= Zpos (digits2_pos M) + E - 24 ->
      binary_round_aux prec emax s (Zpos M) E loc_Exact
      = if E + c <=? 104 then S754_finite s m2 (E + c) else S754_infinity s.
Proof.
  intros Hd.
  destruct (shr_to_24 M loc_Exact Hd) as (p & r & s' & Hp & Hshr).
  set (n := Zpos (digits2_pos M) - 24) in *.
  destruct (round_nearest_even_pos p (loc_of_shr_record (Build_shr_record (Zpos p) r s')))
    as [Hr|Hr].
  - exists p, n. split; [done|]. split; [lia|]. intros s E HE.
    unfold binary_round_aux, shr_fexp at 1. cbn [Zdigits2].
    unfold fexp at 1, emin, prec, emax.
    replace (Z.max _ _ - E) with n by lia.
    rewrite Hshr. cbn [shr_m]. rewrite Hr.
    unfold shr_fexp, fexp, emin. cbn [Zdigits2]. rewrite Hp.
    replace (Z.max _ _ - (E + n)) with 0 by lia.
    cbn [shr shr_record_of_loc shr_m]. reflexivity.
  - destruct (digits2_succ_24 p Hp) as [Hp'|Hp'].
    + exists (p + 1)%positive, n. split; [done|]. split; [lia|]. intros s E HE.
      unfold binary_round_aux, shr_fexp at 1. cbn [Zdigits2].
      unfold fexp at 1, emin, prec, emax.
      replace (Z.max _ _ - E) with n by lia.
      rewrite Hshr. cbn [shr_m]. rewrite Hr.
      unfold shr_fexp, fexp, emin. cbn [Zdigits2]. rewrite Hp'.
      replace (Z.max _ _ - (E + n)) with 0 by lia.
      cbn [shr shr_record_of_loc shr_m]. reflexivity.
    + exists 8388608%positive, (n + 1). split; [done|]. split; [lia|]. intros s E HE.
      unfold binary_round_aux, shr_fexp at 1. cbn [Zdigits2].
      unfold fexp at 1, emin, prec, emax.
      replace (Z.max _ _ - E) with n by lia.
      rewrite Hshr. cbn [shr_m]. rewrite Hr, Hp'.
      unfold shr_fexp, fexp, emin. cbn [Zdigits2].
      change (Zpos (digits2_pos 16777216)) with 25.
      replace (Z.max _ _ - (E + n)) with 1 by lia.
      cbn [shr shr_record_of_loc shr_m SpecFloat.iter_pos shr_1].
      by rewrite Z.add_assoc.
Qed.

(** Doubling a normal number raises its exponent, or overflows. *)
Lemma mul_two_normal s m e :
  Zpos (digits2_pos m) = 24 -> -149 <= e ->
  mul two (S754_finite s m e)
  = if e + 1 <=? 104 then S754_finite s m (e + 1) else S754_infinity s.
Proof.
  intros Hd He. unfold mul, two, SFmul. cbn [xorb].
  change (8388608 * m)%positive
    with (m~0~0~0~0~0~0~0~0~0~0~0~0~0~0~0~0~0~0~0~0~0~0~0)%positive.
  unfold binary_round_aux, shr_fexp at 1. cbn [Zdigits2 digits2_pos].
  rewrite !Pos2Z.inj_succ, Hd.
  unfold fexp at 1, emin, prec, emax.
  replace (Z.max _ _ - (-22 + e)) with 23 by lia.
  cbn [shr shr_record_of_loc SpecFloat.iter_pos shr_1 shr_m shr_r shr_s loc_of_shr_record
         round_nearest_even orb].
  cbv iota.
  unfold shr_fexp, fexp, emin. cbn [Zdigits2]. rewrite Hd.
  replace (Z.max _ _ - (-22 + e + 23)) with 0 by lia.
  cbn [shr shr_record_of_loc shr_m].
  replace (-22 + e + 23) with (e + 1) by lia. reflexivity.
Qed.



Lemma mul_two_doubles t :
  doubles t = true ->
  mul two t = match t with
              | S754_finite s m e => S754_finite s m (e + 1)
              | _ => t
              end.
Proof.
  destruct t as [s|s| |s m e]; try done.
  cbn [doubles]. intros H.
  apply andb_prop in H as [H H3]. apply andb_prop in H as [H1 H2].
  apply Z.eqb_eq in H1. apply Z.leb_le in H2.
  rewrite mul_two_normal by done. by rewrite H3.
Qed.

Lemma mul_two_commutes d t :
  doubles t = true -> no_underflow d t = true ->
  mul d (mul two t) = mul two (mul d t).
Proof.
  intros Ht Hu. rewrite (mul_two_doubles t Ht).
  destruct t as [st|st| |st mt et]; try done.
  - destruct d as [sd|sd| |sd md ed]; reflexivity.
  - cbn [doubles] in Ht.
    apply andb_prop in Ht as [Ht H3]. apply andb_prop in Ht as [H1 H2].
    apply Z.eqb_eq in H1. apply Z.leb_le in H2, H3.
    destruct d as [sd|sd| |sd md ed]; try reflexivity.
    cbn [no_underflow] in Hu. apply Z.leb_le in Hu.
    assert (Hdg : 24 <= Zpos (digits2_pos (md * mt))).
    { rewrite <- H1. apply digits2_le. nia. }
    destruct (binary_round_aux_normal (md * mt) Hdg) as (m2 & c & Hm2 & Hc & Hbra).
    unfold mul at 1 3. cbn [SFmul].
    rewrite (Hbra _ (ed + et)) by lia.
    rewrite (Hbra _ (ed + (et + 1))) by lia.
    destruct (Z.leb_spec (ed + et + c) 104) as [Hle|Hgt].
    + rewrite mul_two_normal by lia.
      replace (ed + (et + 1) + c) with (ed + et + c + 1) by lia. reflexivity.
    + destruct (Z.leb_spec (ed + (et + 1) + c) 104); [lia|]. reflexivity.
Qed.

Lemma sub_zero_same x sz : same_value (sub x (S754_zero sz)) x.
Proof.
  destruct x as [[]|[]| |[] m e], sz; try (by left); by right.
Qed.

Lemma div_same_value x y f : same_value x y -> same_value (div x f) (div y f).
Proof.
  intros [->|[Hx Hy]]; [by left|].
  destruct x as [sx| | |]; try done. destruct y as [sy| | |]; try done.
  destruct f as [sf|sf| |sf mf ef]; cbn; try (by left); by right.
Qed.

Lemma mul_zero_r d sz : is_finite d = true -> is_zero (mul d (S754_zero sz)) = true.
Proof. destruct d; done. Qed.

Lemma mul_zero_l t :
  is_finite t = true -> mul zero t = S754_zero (match t with S754_zero s | S754_finite s _ _ => s | _ => false end).
Proof. destruct t; done. Qed.


Lemma digits2_iter_xO m d :
  Zpos (digits2_pos (Pos.iter xO m d)) = Zpos (digits2_pos m) + Zpos d.
Proof.
  induction d as [|d IH] using Pos.peano_ind.
  - cbn [Pos.iter digits2_pos]. lia.
  - rewrite Pos.iter_succ. cbn [digits2_pos]. lia.
Qed.

Lemma binary_round_valid s m :
  valid (binary_round prec emax s m 0) = true.
Proof.
  unfold binary_round, shl_align.
  unfold fexp at 1, emin, prec, emax.
  pose proof (digits2_bounds m) as _.
  assert (Hpos : 0 < Zpos (digits2_pos m)) by lia.
  assert (Hres : forall M E, 24 <= Zpos (digits2_pos M) -> -149 <= Zpos (digits2_pos M) + E - 24 ->
                   valid (binary_round_aux 24 128 s (Zpos M) E loc_Exact) = true).
  { intros M E H1 H2.
    destruct (binary_round_aux_normal M H1) as (m2 & c & Hm2 & Hc & Hbra).
    unfold prec, emax in Hbra. rewrite Hbra by done.
    destruct (Z.leb_spec (E + c) 104); [|done].
    unfold valid, valid_binary, bounded, canonical_mantissa, fexp, emin, prec, emax.
    rewrite Hm2. apply andb_true_intro. split; [apply Z.eqb_eq|apply Z.leb_le]; lia. }
  destruct (Z.max (Zpos (digits2_pos m) + 0 - 24) (3 - 128 - 24) - 0) as [|d|d] eqn:Hd.
  - apply Hres; lia.
  - apply Hres; lia.
  - rewrite <- Pos2Z.opp_pos in Hd.
    apply Hres; rewrite digits2_iter_xO; unfold fexp, emin; lia.
Qed.

Lemma of_Z_valid z : valid (of_Z z) = true.
Proof. destruct z; [done|apply binary_round_valid..]. Qed.

End Binary32.

(** ** Broadcasting *)

Section Broadcasting.
Context {A : Type}.
Implicit Types (l d : list A) (s : list nat).

Lemma chunks_length_each k sz l x :
  length l = (k * sz)%nat -> x ∈ chunks k sz l -> length x = sz.
Proof.
  revert l; induction k as [|k IH]; intros l Hl Hx; simpl in *.
  - by apply elem_of_nil in Hx.
  - apply elem_of_cons in Hx as [->|Hx].
    + rewrite length_take. lia.
    + apply (IH (drop sz l)); [rewrite length_drop; lia | done].
Qed.

Lemma concat_chunks k sz l :
  length l = (k * sz)%nat -> concat (chunks k sz l) = l.
Proof.
  revert l; induction k as [|k IH]; intros l Hl; simpl in *.
  - by destruct l.
  - rewrite IH; [apply take_drop | rewrite length_drop; lia].
Qed.

Lemma compat_rev_refl s : compat_rev s s = true.
Proof. induction s as [|n s IH]; simpl; [done|]. by rewrite Nat.eqb_refl, IH. Qed.

Lemma broadcastable_refl s : broadcastable s s = true.
Proof. apply compat_rev_refl. Qed.

(** An operand that already has the shape of the array is used as it is. *)
Lemma expand_same_shape s d : length d = size s -> expand s s d = d.
Proof.
  revert d; induction s as [|n s IH]; intros d Hd; [done|].
  cbn [expand]. rewrite Nat.ltb_irrefl, Nat.eqb_refl.
  cbn [size foldr] in Hd. fold (size s) in Hd.
  assert (Hmap : map (expand s s) (chunks n (size s) d) = chunks n (size s) d).
  { rewrite <- (map_id (chunks n (size s) d)) at 2.
    apply map_ext_in; intros x Hx. apply IH.
    apply (chunks_length_each n (size s) d); [done|].
    by apply list_elem_of_In. }
  rewrite Hmap. by apply concat_chunks.
Qed.

Lemma inplace_same_shape (op : A -> A -> A) (a b : ndarray A) :
  shape b = shape a -> well_formed b = true ->
  inplace op a b = Some (NdArray (shape a) (zip_with op (data a) (data b))).
Proof.
  intros Hs Hw. unfold inplace. rewrite Hs, broadcastable_refl.
  rewrite expand_same_shape; [done|].
  unfold well_formed in Hw. apply Nat.eqb_eq in Hw. by rewrite <- Hs.
Qed.

Lemma inplace_shape (op : A -> A -> A) (a b r : ndarray A) :
  inplace op a b = Some r -> shape r = shape a.
Proof.
  unfold inplace. destruct (broadcastable _ _); [|done]. by intros [= <-].
Qed.

Lemma inplace_None (op : A -> A -> A) (a b : ndarray A) :
  inplace op a b = None <-> broadcastable (shape b) (shape a) = false.
Proof. unfold inplace. by destruct (broadcastable _ _). Qed.

End Broadcasting.


(** ** Reading does not change the store *)

Lemma fits_open_store path w : (fits_open path w).2 = w.
Proof.
  unfold fits_open. destruct (files w !! path) as [[[|u hdul]|]|]; done.
Qed.

Lemma getdata_store path w : (getdata path w).2 = w.
Proof.
  unfold getdata, mbind, M_bind.
  pose proof (fits_open_store path w) as Ho.
  destruct (fits_open path w) as [[e|hdul] w']; simpl in Ho; subst; [done|].
  unfold decoded.
  repeat (match goal with
          | |- context [match ?x with _ => _ end] => destruct x
          end; try done).
Qed.

Lemma getheader_store path w : (getheader path w).2 = w.
Proof.
  unfold getheader, mbind, M_bind.
  pose proof (fits_open_store path w) as Ho.
  destruct (fits_open path w) as [[e|hdul] w']; simpl in Ho; subst; [done|].
  by destruct (hdul !! 0%nat).
Qed.

(** Data that [getdata] returns has one pixel per element of its shape. *)
Lemma getdata_well_formed path w i w' :
  getdata path w = (inr i, w') -> well_formed (astype_f4 i) = true.
Proof.
  unfold getdata, mbind, M_bind.
  destruct (fits_open path w) as [[e|hdul] w'']; [done|].
  assert (Hd : forall j, decoded path j w'' = (inr i, w') ->
                         well_formed (astype_f4 i) = true).
  { intros j. unfold decoded. destruct (image_ok j) eqn:Hok; [|done].
    intros [= -> _]. destruct i as [a|d a]; simpl in *.
    - by apply andb_prop in Hok as [? _].
    - unfold well_formed, astype in *. simpl. by rewrite length_map. }
  repeat (match goal with
          | |- context [match ?x with _ => _ end] => destruct x
          end; try done); apply Hd.
Qed.


(** ** The corrected frame *)

Lemma corrected_frame_loaded w sci_fn bias_fn flat_fn dark_fn fr :
  loaded w sci_fn bias_fn flat_fn dark_fn fr ->
  corrected_frame sci_fn bias_fn flat_fn dark_fn w = (arithmetic fr, w).
Proof.
  intros (Hb & Hf & Hd & Hs & Hh).
  unfold corrected_frame, arithmetic, dark_contribution, mbind, M_bind, fmap,
    M_fmap, lift.
  rewrite Hb, Hf, Hd, Hs, Hh.
  unfold result_bind.
  destruct (isub _ _) as [e|s1]; [done|].
  destruct (header_getitem _ _) as [e|v]; [done|].
  destruct (imul_value _ _) as [e|d1]; [done|].
  destruct (isub s1 d1) as [e|s2]; [done|].
  by destruct (idiv s2 _) as [e|s3].
Qed.

(** Whatever happens, lines 42 to 54 leave the store as it was. *)
Lemma corrected_frame_store sci_fn bias_fn flat_fn dark_fn w :
  (corrected_frame sci_fn bias_fn flat_fn dark_fn w).2 = w.
Proof.
  unfold corrected_frame, mbind, M_bind, fmap, M_fmap, lift.
  repeat match goal with
  | |- context [getdata ?p ?w0] =>
      let H := fresh in
      pose proof (getdata_store p w0) as H;
      destruct (getdata p w0) as [[?|?] ?]; simpl in H; subst; [done|]
  | |- context [getheader ?p ?w0] =>
      let H := fresh in
      pose proof (getheader_store p w0) as H;
      destruct (getheader p w0) as [[?|?] ?]; simpl in H; subst; [done|]
  end.
  repeat match goal with
  | |- context [match ?x with inl _ => _ | inr _ => _ end] =>
      destruct x; [done|]
  end.
  done.
Qed.

Lemma astype_f4_shape i : shape (astype_f4 i) = image_shape i.
Proof. by destruct i. Qed.

Lemma loaded_well_formed w sci_fn bias_fn flat_fn dark_fn fr :
  loaded w sci_fn bias_fn flat_fn dark_fn fr ->
  well_formed (astype_f4 (f_sci fr)) = true /\
  well_formed (astype_f4 (f_bias fr)) = true /\
  well_formed (astype_f4 (f_dark fr)) = true /\
  well_formed (astype_f4 (f_flat fr)) = true.
Proof.
  intros (Hb & Hf & Hd & Hs & _).
  repeat split; eapply getdata_well_formed; eassumption.
Qed.

(** The arithmetic of lines 48 to 54 when the four frames have one shape and
    the exposure time is the scalar [t]: the buffer is computed pixel by
    pixel, in the order of the statements. *)
Lemma arithmetic_same_shape fr v t :
  well_formed (astype_f4 (f_sci fr)) = true ->
  well_formed (astype_f4 (f_bias fr)) = true ->
  well_formed (astype_f4 (f_dark fr)) = true ->
  well_formed (astype_f4 (f_flat fr)) = true ->
  image_shape (f_bias fr) = image_shape (f_sci fr) ->
  image_shape (f_dark fr) = image_shape (f_sci fr) ->
  image_shape (f_flat fr) = image_shape (f_sci fr) ->
  getitem (f_header fr) "EXPTIME" = Some v ->
  scalar_f4 v = inr t ->
  arithmetic fr =
    inr (NdArray (image_shape (f_sci fr))
           (zip_with F4.div
              (zip_with F4.sub
                 (zip_with F4.sub (data (astype_f4 (f_sci fr)))
                    (data (astype_f4 (f_bias fr))))
                 (map (fun d => F4.mul d t) (data (astype_f4 (f_dark fr)))))
              (data (astype_f4 (f_flat fr)))),
         f_header fr).
Proof.
  intros Ws Wb Wd Wf Sb Sd Sf Hv Ht.
  rewrite <- !astype_f4_shape in *.
  unfold arithmetic, dark_contribution, isub, idiv, imul_value, header_getitem.
  rewrite (inplace_same_shape _ _ _ Sb Wb). cbn [mbind result_bind].
  rewrite Hv. cbn [mbind result_bind]. rewrite Ht. cbn [mbind result_bind mret result_ret].
  rewrite (inplace_same_shape F4.sub); cbn [shape data inplace_scalar];
    [ | done | ].
  2:{ unfold well_formed, inplace_scalar in *. cbn [shape data].
      by rewrite length_map. }
  cbn [mbind result_bind].
  rewrite (inplace_same_shape F4.div); cbn [shape data]; done.
Qed.


(** ** The whole function *)

Section Runs.
Variable detect_cosmics :
  ndarray F4.f4 -> result (ndarray bool * ndarray F4.f4).
Variable dev : device.
Variables sci_fn bias_fn flat_fn dark_fn out_fn : string.

Abbreviation reduce := (reduce_science_frame detect_cosmics dev sci_fn bias_fn
                      flat_fn dark_fn out_fn).
Abbreviation corrected := (corrected_frame sci_fn bias_fn flat_fn dark_fn).

(** The ways a call ends before line 66, and line 66. *)
Lemma reduce_science_frame_run w :
  reduce w =
    match corrected w with
    | (inl e, _) => (inl e, w)
    | (inr (sci, sciHeader), _) =>
        match detect_cosmics sci with
        | inl e => (inl e, w)
        | inr (mask, reduced_science) =>
            match output_hdul reduced_science mask sciHeader bias_fn flat_fn
                    dark_fn with
            | inl e => (inl e, w)
            | inr hdul =>
                match writeto dev hdul out_fn w with
                | (inl e, w') => (inl e, w')
                | (inr _, w') => (inr reduced_science, w')
                end
            end
        end
    end.
Proof.
  unfold reduce_science_frame, mbind, M_bind, lift.
  pose proof (corrected_frame_store sci_fn bias_fn flat_fn dark_fn w) as Hw.
  destruct (corrected w) as [[e|[sci h]] w']; simpl in Hw; subst w'; [done|].
  destruct (detect_cosmics sci) as [e|[mask red]]; [done|].
  destruct (output_hdul red mask h bias_fn flat_fn dark_fn) as [e|hdul]; [done|].
  by destruct (writeto dev hdul out_fn w) as [[e|[]] w'].
Qed.

(** The two ways line 66 ends well or leaves the store as it was, and the
    way it does not. *)
Lemma writeto_run hdul w :
  writeto dev hdul out_fn w =
    if decide (out_fn ∈ locked w) then (inl (FileNotFoundError out_fn), w)
    else
      match dev out_fn hdul with
      | None =>
          (inr tt, Store (<[out_fn := FitsFile hdul]> (files w)) (locked w))
      | Some NoPermission => (inl (PermissionError out_fn), w)
      | Some (NoSpace (Some f)) =>
          (inl (OSError out_fn), Store (<[out_fn := f]> (files w)) (locked w))
      | Some (NoSpace None) =>
          (inl (OSError out_fn), Store (delete out_fn (files w)) (locked w))
      end.
Proof. reflexivity. Qed.

Lemma reduce_success w w' img :
  reduce w = (inr img, w') ->
  exists sci sciHeader mask hdul,
    corrected w = (inr (sci, sciHeader), w) /\
    detect_cosmics sci = inr (mask, img) /\
    output_hdul img mask sciHeader bias_fn flat_fn dark_fn = inr hdul /\
    (out_fn ∉ locked w) /\
    dev out_fn hdul = None /\
    w' = Store (<[out_fn := FitsFile hdul]> (files w)) (locked w).
Proof.
  rewrite reduce_science_frame_run.
  pose proof (corrected_frame_store sci_fn bias_fn flat_fn dark_fn w) as Hw.
  destruct (corrected w) as [[e|[sci h]] w'']; simpl in Hw; subst w''; [done|].
  destruct (detect_cosmics sci) as [e|[mask red]] eqn:Hd; [done|].
  destruct (output_hdul red mask h bias_fn flat_fn dark_fn) as [e|hdul] eqn:Ho;
    [done|].
  rewrite writeto_run.
  destruct (decide (out_fn ∈ locked w)); [done|].
  destruct (dev out_fn hdul) as [[|[f|]]|] eqn:Hdev; try done.
  intros [= <- <-]. by exists sci, h, mask, hdul.
Qed.

End Runs.


(** ** Header updates *)

Section HeaderUpdates.
Implicit Types (h : Header) (k : string) (v : hvalue) (c : option string).

Lemma has_key_true k x : has_key k x = true <-> keyword x = k.
Proof. apply String.eqb_eq. Qed.







Lemma insert_after_keywords_spec h x :
  exists h1 h2, h = h1 ++ h2 /\ insert_after_keywords h x = h1 ++ x :: h2 /\
                forallb (fun z : card => commentary (keyword z)) h2 = true /\
                (forall y, last h1 = Some y -> commentary (keyword y) = false).
Proof.
  induction h as [|y h IH]; cbn [insert_after_keywords].
  - by exists [], [].
  - destruct (forallb (fun z : card => commentary (keyword z)) (y :: h)) eqn:Hall.
    + by exists [], (y :: h).
    + destruct IH as (h1 & h2 & -> & -> & H2 & Hl).
      exists (y :: h1), h2. repeat split; [done|].
      intros z Hz. destruct h1 as [|y1 h1].
      * simpl in Hz. injection Hz as <-. simpl in Hall, H2.
        rewrite H2, andb_true_r in Hall. done.
      * apply Hl. by rewrite last_cons_cons in Hz.
Qed.










Lemma insert_after_last_spec h k x :
  existsb (has_key k) h = true ->
  exists h1 h2, h = h1 ++ h2 /\ insert_after_last h k x = h1 ++ x :: h2 /\
                existsb (has_key k) h2 = false.
Proof.
  induction h as [|y h IH]; simpl; [done|].
  destruct (existsb (has_key k) h) eqn:He.
  - intros _. destruct (IH eq_refl) as (h1 & h2 & -> & -> & H2).
    by exists (y :: h1), h2.
  - rewrite orb_false_r. intros ->. by exists [y], h.
Qed.

Lemma existsb_update_first h k k' v c :
  existsb (has_key k') (update_first h k v c) = existsb (has_key k') h.
Proof.
  induction h as [|x h IH]; simpl; [done|].
  destruct (has_key k x) eqn:Hk; simpl; [|by rewrite IH].
  f_equal. apply has_key_true in Hk. unfold has_key. simpl. by rewrite Hk.
Qed.

End HeaderUpdates.

Section HeaderUpdatesMore.
Implicit Types (h : Header) (k : string) (v : hvalue) (c : option string).







End HeaderUpdatesMore.


(** A call that gets past line 54 has read the four frames and the header. *)
Lemma corrected_frame_inv sci_fn bias_fn flat_fn dark_fn w w' R h :
  corrected_frame sci_fn bias_fn flat_fn dark_fn w = (inr (R, h), w') ->
  exists fr, loaded w sci_fn bias_fn flat_fn dark_fn fr /\
             arithmetic fr = inr (R, h) /\ f_header fr = h.
Proof.
  unfold corrected_frame, mbind, M_bind, fmap, M_fmap, lift.
  pose proof (getdata_store bias_fn w) as H1.
  destruct (getdata bias_fn w) as [[?|iB] ?] eqn:Hb; simpl in H1; subst; [done|].
  pose proof (getdata_store flat_fn w) as H1.
  destruct (getdata flat_fn w) as [[?|iF] ?] eqn:Hf; simpl in H1; subst; [done|].
  pose proof (getdata_store dark_fn w) as H1.
  destruct (getdata dark_fn w) as [[?|iD] ?] eqn:Hd; simpl in H1; subst; [done|].
  pose proof (getdata_store sci_fn w) as H1.
  destruct (getdata sci_fn w) as [[?|iS] ?] eqn:Hs; simpl in H1; subst; [done|].
  pose proof (getheader_store sci_fn w) as H1.
  destruct (getheader sci_fn w) as [[?|hd] ?] eqn:Hh; simpl in H1; subst; [done|].
  intros Hr. exists (Frames iS iB iD iF hd).
  assert (Ha : arithmetic (Frames iS iB iD iF hd) = inr (R, h)).
  { unfold arithmetic, dark_contribution, mbind, result_bind.
    cbn [f_sci f_bias f_dark f_flat f_header].
    destruct (isub _ _) as [e|s1]; [done|].
    destruct (header_getitem _ _) as [e|v]; [done|].
    destruct (imul_value _ _) as [e|d1]; [done|].
    destruct (isub s1 d1) as [e|s2]; [done|].
    destruct (idiv s2 _) as [e|s3]; [done|].
    unfold mret, M_ret, result_ret in *. by injection Hr as -> -> _. }
  split; [by repeat split|]. split; [done|].
  unfold arithmetic, dark_contribution, mbind, result_bind in Ha.
  repeat match type of Ha with
  | match ?x with inl _ => _ | inr _ => _ end = _ => destruct x; [done|]
  end.
  unfold mret, result_ret in Ha. by injection Ha as _ ->.
Qed.


(** ** The header of the output *)






(** Lines 60 to 63 raise when a file name is not printable, and only
    then. *)
Lemma annotate_spec h bias_fn flat_fn dark_fn :
  annotate h bias_fn flat_fn dark_fn =
    if printable bias_fn && printable dark_fn && printable flat_fn
    then inr (annotated h bias_fn flat_fn dark_fn)
    else inl ValueError.
Proof.
  unfold annotate, annotated, setitem.
  change (value_ok (VStr "Reduced science image")) with true.
  change (printable (default "" None)) with true.
  change (printable (default "" (Some "Bias image used to subtract bias level")))
    with true.
  change (printable (default "" (Some "Dark image used to subtract dark current")))
    with true.
  change (printable (default "" (Some "Flat image used for FPN correction")))
    with true.
  cbn [value_ok andb mbind result_bind].
  rewrite !andb_true_r.
  destruct (printable bias_fn); [|done]. cbn [mbind result_bind andb].
  destruct (printable dark_fn); [|done]. cbn [mbind result_bind andb].
  by destruct (printable flat_fn).
Qed.

(** The units of the output file. *)
Lemma output_hdul_spec img mask h bias_fn flat_fn dark_fn :
  output_hdul img mask h bias_fn flat_fn dark_fn =
    if printable bias_fn && printable dark_fn && printable flat_fn
    then inr [MkHDU (annotated h bias_fn flat_fn dark_fn) (Some (ImgF4 img));
              mask_unit_of mask]
    else inl ValueError.
Proof.
  unfold output_hdul, PrimaryHDU. cbn [hdu_header hdu_data].
  rewrite annotate_spec.
  by destruct (printable bias_fn && printable dark_fn && printable flat_fn).
Qed.


(** A call that returns has written the two units. *)
Lemma reduce_returns
    (detect_cosmics : ndarray F4.f4 -> result (ndarray bool * ndarray F4.f4))
    (dev : device) sci_fn bias_fn flat_fn dark_fn out_fn w w' img :
  reduce_science_frame detect_cosmics dev sci_fn bias_fn flat_fn dark_fn out_fn
    w = (inr img, w') ->
  exists sci h mask,
    corrected_frame sci_fn bias_fn flat_fn dark_fn w = (inr (sci, h), w) /\
    detect_cosmics sci = inr (mask, img) /\
    printable bias_fn && printable dark_fn && printable flat_fn = true /\
    (out_fn ∉ locked w) /\
    dev out_fn [MkHDU (annotated h bias_fn flat_fn dark_fn) (Some (ImgF4 img));
                mask_unit_of mask] = None /\
    w' = Store (<[out_fn :=
                    FitsFile [MkHDU (annotated h bias_fn flat_fn dark_fn)
                                (Some (ImgF4 img));
                              mask_unit_of mask]]> (files w)) (locked w).
Proof.
  intros Hr.
  destruct (reduce_success _ _ _ _ _ _ _ _ _ _ Hr)
    as (sci & h & mask & hdul & Hc & Hd & Ho & Hl & Hdev & ->).
  rewrite output_hdul_spec in Ho.
  destruct (printable bias_fn && printable dark_fn && printable flat_fn);
    [|done].
  injection Ho as <-. by exists sci, h, mask.
Qed.

(** The other way round: what makes a call return. *)
Lemma reduce_returns_when
    (detect_cosmics : ndarray F4.f4 -> result (ndarray bool * ndarray F4.f4))
    (dev : device) sci_fn bias_fn flat_fn dark_fn out_fn w sci h mask img :
  corrected_frame sci_fn bias_fn flat_fn dark_fn w = (inr (sci, h), w) ->
  detect_cosmics sci = inr (mask, img) ->
  printable bias_fn && printable dark_fn && printable flat_fn = true ->
  out_fn ∉ locked w ->
  dev out_fn [MkHDU (annotated h bias_fn flat_fn dark_fn) (Some (ImgF4 img));
              mask_unit_of mask] = None ->
  reduce_science_frame detect_cosmics dev sci_fn bias_fn flat_fn dark_fn out_fn w
  = (inr img,
     Store (<[out_fn :=
                FitsFile [MkHDU (annotated h bias_fn flat_fn dark_fn)
                            (Some (ImgF4 img));
                          mask_unit_of mask]]> (files w)) (locked w)).
Proof.
  intros Hc Hd Hp Hl Hdev.
  rewrite reduce_science_frame_run, Hc, Hd, output_hdul_spec, Hp, writeto_run.
  destruct (decide (out_fn ∈ locked w)); [done|]. by rewrite Hdev.
Qed.


(** ** Shapes and the exposure time *)

Lemma isub_inv a b r : isub a b = inr r -> shape r = shape a.
Proof.
  unfold isub. destruct (inplace F4.sub a b) eqn:Hi; [|done].
  intros [= <-]. by eapply inplace_shape.
Qed.

Lemma isub_broadcast a b :
  match isub a b with
  | inr r => broadcastable (shape b) (shape a) = true /\ shape r = shape a
  | inl e => broadcastable (shape b) (shape a) = false /\ e = ValueError
  end.
Proof.
  unfold isub, inplace. by destruct (broadcastable (shape b) (shape a)).
Qed.

Lemma idiv_broadcast a b :
  match idiv a b with
  | inr r => broadcastable (shape b) (shape a) = true /\ shape r = shape a
  | inl e => broadcastable (shape b) (shape a) = false /\ e = ValueError
  end.
Proof.
  unfold idiv, inplace. by destruct (broadcastable (shape b) (shape a)).
Qed.

(** With a numeric exposure time the arithmetic fails exactly when a
    calibration frame cannot be broadcast, and then with [ValueError]. *)
Lemma arithmetic_broadcast fr v t :
  getitem (f_header fr) "EXPTIME" = Some v ->
  scalar_f4 v = inr t ->
  if all_broadcastable fr
  then exists R, arithmetic fr = inr (R, f_header fr) /\
                 shape R = image_shape (f_sci fr)
  else arithmetic fr = inl ValueError.
Proof.
  intros Hv Ht.
  unfold all_broadcastable, arithmetic, dark_contribution, header_getitem,
    imul_value.
  rewrite <- !astype_f4_shape.
  pose proof (isub_broadcast (astype_f4 (f_sci fr)) (astype_f4 (f_bias fr))) as H1.
  destruct (isub _ _) as [e|s1]; destruct H1 as [-> H1]; [by subst|].
  cbn [mbind result_bind andb]. rewrite Hv. cbn [mbind result_bind].
  rewrite Ht. cbn [mbind result_bind mret result_ret].
  pose proof (isub_broadcast s1 (inplace_scalar F4.mul (astype_f4 (f_dark fr)) t)) as H2.
  cbn [shape inplace_scalar] in H2. rewrite H1 in H2.
  destruct (isub s1 _) as [e|s2]; destruct H2 as [-> H2]; [by subst|].
  cbn [mbind result_bind andb].
  pose proof (idiv_broadcast s2 (astype_f4 (f_flat fr))) as H3.
  rewrite H2 in H3.
  destruct (idiv s2 _) as [e|s3]; destruct H3 as [-> H3]; [by subst|].
  by exists s3.
Qed.


Lemma reduce_science_frame_error
    (detect_cosmics : ndarray F4.f4 -> result (ndarray bool * ndarray F4.f4))
    (dev : device) sci_fn bias_fn flat_fn dark_fn out_fn w e :
  corrected_frame sci_fn bias_fn flat_fn dark_fn w = (inl e, w) ->
  reduce_science_frame detect_cosmics dev sci_fn bias_fn flat_fn dark_fn out_fn w
    = (inl e, w).
Proof. intros Hc. by rewrite reduce_science_frame_run, Hc. Qed.




(** ** Pixels *)

(** Data that [getdata] returns are binary32 data. *)
Lemma getdata_valid path w i w' x :
  getdata path w = (inr i, w') -> x ∈ data (astype_f4 i) -> F4.valid x = true.
Proof.
  unfold getdata, mbind, M_bind.
  destruct (fits_open path w) as [[e|hdul] w'']; [done|].
  assert (Hd : forall j, decoded path j w'' = (inr i, w') ->
                         x ∈ data (astype_f4 i) -> F4.valid x = true).
  { intros j. unfold decoded. destruct (image_ok j) eqn:Hok; [|done].
    intros [= -> _] Hx. destruct i as [a|d a]; simpl in *.
    - apply andb_prop in Hok as [_ Hok].
      rewrite forallb_forall in Hok. apply Hok. by apply list_elem_of_In.
    - apply list_elem_of_fmap in Hx as (z & -> & _). apply of_Z_valid. }
  repeat (match goal with
          | |- context [match ?x with _ => _ end] => destruct x
          end; try done); apply Hd.
Qed.

(** The pixel [i] of the buffer that lines 49 to 54 compute. *)
Lemma formula_pixel (S B D F : list F4.f4) t (i : nat) s b d f :
  S !! i = Some s -> B !! i = Some b -> D !! i = Some d -> F !! i = Some f ->
  zip_with F4.div
    (zip_with F4.sub (zip_with F4.sub S B) (map (fun d => F4.mul d t) D)) F !! i
  = Some (F4.div (F4.sub (F4.sub s b) (F4.mul d t)) f).
Proof.
  intros Hs Hb Hd Hf.
  rewrite !lookup_zip_with, Hs, Hb. cbn.
  rewrite list_lookup_fmap, Hd. cbn. by rewrite Hf.
Qed.

Lemma formula_length (S B D F : list F4.f4) t n :
  length S = n -> length B = n -> length D = n -> length F = n ->
  length (zip_with F4.div
            (zip_with F4.sub (zip_with F4.sub S B) (map (fun d => F4.mul d t) D))
            F) = n.
Proof. intros. rewrite !length_zip_with, length_map. lia. Qed.

Lemma well_formed_length {A} (a : ndarray A) :
  well_formed a = true -> length (data a) = size (shape a).
Proof. apply Nat.eqb_eq. Qed.

(** With bias and dark all [+0.0], flat all [1.0] and a finite exposure time
    that is not negative, the buffer is the science buffer itself. *)
Lemma identity_buffer (S B D F : list F4.f4) t :
  length B = length S -> length D = length S -> length F = length S ->
  (forall s, s ∈ S -> F4.valid s = true) ->
  (forall b, b ∈ B -> b = F4.zero) ->
  (forall d, d ∈ D -> d = F4.zero) ->
  (forall f, f ∈ F -> f = F4.one) ->
  F4.is_finite t = true -> F4.sign t = false ->
  zip_with F4.div
    (zip_with F4.sub (zip_with F4.sub S B) (map (fun d => F4.mul d t) D)) F = S.
Proof.
  intros HB HD HF Hs Hb Hd Hf Ht Hsg.
  assert (Hz : F4.mul F4.zero t = F4.zero).
  { rewrite mul_zero_l by done. by destruct t; simpl in *; subst. }
  revert B D F HB HD HF Hb Hd Hf.
  induction S as [|s S IH]; intros [|b B] [|d D] [|f F] HB HD HF Hb Hd Hf;
    try done.
  cbn [zip_with map]. simpl in HB, HD, HF.
  rewrite (Hb b), (Hd d), (Hf f) by (apply elem_of_cons; by left).
  rewrite Hz, !sub_zero_r, div_one by (apply Hs, elem_of_cons; by left).
  f_equal. apply IH; try lia.
  - intros x Hx. apply Hs, elem_of_cons. by right.
  - intros x Hx. apply Hb, elem_of_cons. by right.
  - intros x Hx. apply Hd, elem_of_cons. by right.
  - intros x Hx. apply Hf, elem_of_cons. by right.
Qed.

(** ** Conversions that are exact: a mantissa that fits is kept *)

Lemma pos_iter_xO_Z m d : Zpos (Pos.iter xO m d) = Zpos m * 2 ^ Zpos d.
Proof.
  induction d as [|d IH] using Pos.peano_ind.
  - cbn [Pos.iter]. lia.
  - rewrite Pos.iter_succ, Pos2Z.inj_succ, Z.pow_succ_r by lia.
    rewrite Pos2Z.inj_xO, IH. lia.
Qed.

Lemma shr_exact (n : nat) : forall r q,
  Zpos r = Zpos q * 2 ^ Z.of_nat n ->
  Nat.iter n shr_1 (Build_shr_record (Zpos r) false false)
  = Build_shr_record (Zpos q) false false.
Proof.
  induction n as [|n IH]; intros r q Hr.
  - simpl in *. f_equal. lia.
  - rewrite Nat.iter_succ_r.
    rewrite Nat2Z.inj_succ, Z.pow_succ_r in Hr by lia.
    destruct r as [r|r|]; [lia| |lia].
    cbn [shr_1 orb]. apply IH. lia.
Qed.

Lemma digits2_scaled q r k :
  0 <= k -> Zpos r = Zpos q * 2 ^ k ->
  Zpos (digits2_pos r) = Zpos (digits2_pos q) + k.
Proof.
  intros Hk Hr. apply digits2_unique.
  pose proof (digits2_bounds q) as [H1 H2].
  assert (0 < Zpos (digits2_pos q)) by lia.
  rewrite Hr.
  replace (Zpos (digits2_pos q) + k - 1) with ((Zpos (digits2_pos q) - 1) + k)
    by lia.
  rewrite !Z.pow_add_r by lia.
  assert (0 < 2 ^ k) by (apply Z.pow_pos_nonneg; lia).
  split; [apply Z.mul_le_mono_nonneg_r; lia | apply Z.mul_lt_mono_pos_r; lia].
Qed.

Lemma digits2_fits z n :
  0 <= n -> Zpos z < 2 ^ n -> Zpos (digits2_pos z) <= n.
Proof.
  intros Hn Hz. pose proof (digits2_bounds z) as [H1 _].
  destruct (Z.le_gt_cases (Zpos (digits2_pos z)) n) as [|Hgt]; [done|].
  assert (2 ^ n <= 2 ^ (Zpos (digits2_pos z) - 1))
    by (apply Z.pow_le_mono_r; lia).
  lia.
Qed.

(** For a format of [prec] digits and largest exponent [emax]. *)
Section Exact.
Variables prec emax : Z.
Hypothesis Hemax : prec < emax.

(** A mantissa of [prec] digits within the exponent range is kept as it
    is. *)
Lemma binary_round_aux_keep s r E M E' :
  shr_fexp prec emax (Zpos r) E loc_Exact
    = (Build_shr_record (Zpos M) false false, E') ->
  Zpos (digits2_pos M) = prec -> 3 - emax - prec <= E' <= emax - prec ->
  binary_round_aux prec emax s (Zpos r) E loc_Exact = S754_finite s M E'.
Proof.
  intros Hs Hd HE. unfold binary_round_aux. rewrite Hs.
  cbn [shr_m loc_of_shr_record round_nearest_even].
  unfold shr_fexp, fexp, emin. cbn [Zdigits2]. rewrite Hd.
  replace (Z.max _ _ - E') with 0 by lia.
  cbn [shr shr_record_of_loc shr_m].
  destruct (Z.leb_spec E' (emax - prec)); [done|lia].
Qed.

(** A number [q * 2^k] whose [q] has no more than [prec] digits is
    represented by [q], shifted to [prec] digits. *)
Lemma binary_round_fits s q r k :
  Zpos (digits2_pos q) <= prec -> 0 <= k -> Zpos r = Zpos q * 2 ^ k ->
  exists M,
    Zpos M = Zpos q * 2 ^ (prec - Zpos (digits2_pos q)) /\
    Zpos (digits2_pos M) = prec /\
    binary_round prec emax s r (- k)
    = S754_finite s M (Zpos (digits2_pos q) - prec).
Proof.
  intros Hd Hk Hr. set (d := Zpos (digits2_pos q)) in *.
  assert (Hd0 : 0 < d) by (unfold d; lia).
  assert (Hp : 0 < Zpos q * 2 ^ (prec - d)).
  { apply Z.mul_pos_pos; [lia|]. apply Z.pow_pos_nonneg; lia. }
  exists (Z.to_pos (Zpos q * 2 ^ (prec - d))).
  rewrite Z2Pos.id by done.
  set (M := Z.to_pos (Zpos q * 2 ^ (prec - d))).
  assert (HM : Zpos M = Zpos q * 2 ^ (prec - d)) by (unfold M; by rewrite Z2Pos.id).
  assert (HdM : Zpos (digits2_pos M) = prec).
  { rewrite (digits2_scaled q M (prec - d)) by (done || lia). fold d. lia. }
  split; [done|]. split; [done|].
  pose proof (digits2_scaled q r k Hk Hr) as Hdr. fold d in Hdr.
  unfold binary_round, shl_align. rewrite Hdr.
  unfold fexp, emin.
  replace (Z.max (d + k + - k - prec) (3 - emax - prec)) with (d - prec) by lia.
  destruct (d - prec - - k) as [|n|n] eqn:Hn.
  - apply binary_round_aux_keep; [|done|lia].
    unfold shr_fexp, fexp, emin. cbn [Zdigits2]. rewrite Hdr.
    replace (Z.max _ _ - - k) with 0 by lia.
    cbn [shr shr_record_of_loc]. do 3 f_equal; [|lia].
    apply Pos2Z.inj. rewrite HM, Hr. f_equal. f_equal. lia.
  - apply binary_round_aux_keep; [|done|lia].
    unfold shr_fexp, fexp, emin. cbn [Zdigits2]. rewrite Hdr.
    replace (Z.max _ _ - - k) with (Zpos n) by lia.
    cbn [shr shr_record_of_loc]. rewrite iter_pos_nat.
    rewrite (shr_exact _ r M).
    + f_equal. lia.
    + rewrite positive_nat_Z, HM, Hr, <- Z.mul_assoc, <- Z.pow_add_r by lia.
      do 2 f_equal. lia.
  - assert (HMn : Pos.iter xO r n = M).
    { apply Pos2Z.inj.
      rewrite pos_iter_xO_Z, HM, Hr, <- Z.mul_assoc, <- Z.pow_add_r by lia.
      do 2 f_equal. lia. }
    rewrite HMn. apply binary_round_aux_keep; [|done|lia].
    unfold shr_fexp, fexp, emin. cbn [Zdigits2]. rewrite HdM.
    replace (Z.max _ _ - (d - prec)) with 0 by lia. reflexivity.
Qed.

End Exact.

Lemma binary_round_exact s q r k :
  Zpos (digits2_pos q) <= 24 -> 0 <= k -> Zpos r = Zpos q * 2 ^ k ->
  exists M,
    Zpos M = Zpos q * 2 ^ (24 - Zpos (digits2_pos q)) /\
    Zpos (digits2_pos M) = 24 /\
    binary_round F4.prec F4.emax s r (- k)
    = S754_finite s M (Zpos (digits2_pos q) - 24).
Proof. by apply (binary_round_fits 24 128). Qed.

Lemma digits2_below z :
  Zpos z < 2 ^ 24 -> Zpos (digits2_pos z) <= 24.
Proof. by apply digits2_fits. Qed.


(** * The claims *)

(** C1. For science, bias, dark and flat frames of one shape and the exposure
    time [t] of the science header, the image that stands before the
    cosmic-ray step has the shape of the science frame and, at every pixel,
    the value [((s - b) - d * t) / f]: bias first, then the dark scaled by
    the exposure time, then the division by the flat, each in binary32. *)
Theorem C1_corrected_frame_formula w sci_fn bias_fn flat_fn dark_fn fr v t :
  loaded w sci_fn bias_fn flat_fn dark_fn fr ->
  image_shape (f_bias fr) = image_shape (f_sci fr) ->
  image_shape (f_dark fr) = image_shape (f_sci fr) ->
  image_shape (f_flat fr) = image_shape (f_sci fr) ->
  getitem (f_header fr) "EXPTIME" = Some v ->
  scalar_f4 v = inr t ->
  exists R,
    corrected_frame sci_fn bias_fn flat_fn dark_fn w = (inr (R, f_header fr), w) /\
    shape R = image_shape (f_sci fr) /\
    length (data R) = size (image_shape (f_sci fr)) /\
    forall (i : nat) s b d f,
      data (astype_f4 (f_sci fr)) !! i = Some s ->
      data (astype_f4 (f_bias fr)) !! i = Some b ->
      data (astype_f4 (f_dark fr)) !! i = Some d ->
      data (astype_f4 (f_flat fr)) !! i = Some f ->
      data R !! i = Some (F4.div (F4.sub (F4.sub s b) (F4.mul d t)) f).
Proof.
  intros Hl Sb Sd Sf Hv Ht.
  destruct (loaded_well_formed _ _ _ _ _ _ Hl) as (Ws & Wb & Wd & Wf).
  rewrite (corrected_frame_loaded _ _ _ _ _ _ Hl).
  rewrite (arithmetic_same_shape fr v t) by done.
  eexists; split; [reflexivity|]. cbn [shape data].
  split; [done|]. split.
  - apply well_formed_length in Ws, Wb, Wd, Wf.
    rewrite !astype_f4_shape in *.
    apply formula_length; congruence.
  - intros i s b d f. apply formula_pixel.
Qed.

Lemma C1_witness :
  exists R,
    corrected_frame "sci.fits" "bias.fits" "flat.fits" "dark.fits" Demo.night
      = (inr (R, Demo.sci_header), Demo.night) /\
    shape R = [2; 2]%nat /\
    length (data R) = 4%nat /\
    forall (i : nat) s b d f,
      data (astype_f4 Demo.sci_img) !! i = Some s ->
      data (astype_f4 Demo.bias_img) !! i = Some b ->
      data (astype_f4 Demo.dark_img) !! i = Some d ->
      data (astype_f4 Demo.flat_img) !! i = Some f ->
      data R !! i = Some (F4.div (F4.sub (F4.sub s b) (F4.mul d (F4.of_Z 30))) f).
Proof.
  apply (C1_corrected_frame_formula Demo.night "sci.fits" "bias.fits"
           "flat.fits" "dark.fits" Demo.night_frames (VInt 30) (F4.of_Z 30)).
  - repeat split; vm_compute; reflexivity.
  - reflexivity.
  - reflexivity.
  - reflexivity.
  - reflexivity.
  - reflexivity.
Defined.

(** C3 (as amended). With a bias and a dark that are [+0.0] at every pixel
    and a flat that is [1.0] at every pixel, all of the shape of the science
    frame, and an exposure time that is finite as a binary32 number and not
    negative, the image that stands before the cosmic-ray step is the
    science image as line 45 converts it to binary32, datum for datum and
    not only within a tolerance. *)
Theorem C3_identity_calibration w sci_fn bias_fn flat_fn dark_fn fr v t :
  loaded w sci_fn bias_fn flat_fn dark_fn fr ->
  image_shape (f_bias fr) = image_shape (f_sci fr) ->
  image_shape (f_dark fr) = image_shape (f_sci fr) ->
  image_shape (f_flat fr) = image_shape (f_sci fr) ->
  (forall b, b ∈ data (astype_f4 (f_bias fr)) -> b = F4.zero) ->
  (forall d, d ∈ data (astype_f4 (f_dark fr)) -> d = F4.zero) ->
  (forall f, f ∈ data (astype_f4 (f_flat fr)) -> f = F4.one) ->
  getitem (f_header fr) "EXPTIME" = Some v ->
  scalar_f4 v = inr t ->
  F4.is_finite t = true ->
  F4.sign t = false ->
  corrected_frame sci_fn bias_fn flat_fn dark_fn w
    = (inr (astype_f4 (f_sci fr), f_header fr), w).
Proof.
  intros Hl Sb Sd Sf Hb Hd Hf Hv Ht Hfin Hsg.
  destruct (loaded_well_formed _ _ _ _ _ _ Hl) as (Ws & Wb & Wd & Wf).
  rewrite (corrected_frame_loaded _ _ _ _ _ _ Hl).
  rewrite (arithmetic_same_shape fr v t) by done.
  apply well_formed_length in Ws, Wb, Wd, Wf.
  rewrite identity_buffer; try done.
  - rewrite <- astype_f4_shape. by destruct (astype_f4 (f_sci fr)).
  - rewrite !astype_f4_shape in *. congruence.
  - rewrite !astype_f4_shape in *. congruence.
  - rewrite !astype_f4_shape in *. congruence.
  - destruct Hl as (_ & _ & _ & Hs & _). intros s. by eapply getdata_valid.
Qed.

Lemma C3_witness :
  corrected_frame "sci.fits" "zeros.fits" "ones.fits" "zeros.fits" Demo.night
    = (inr (astype_f4 Demo.sci_img, Demo.sci_header), Demo.night).
Proof.
  apply (C3_identity_calibration Demo.night "sci.fits" "zeros.fits" "ones.fits"
           "zeros.fits"
           (Frames Demo.sci_img Demo.zeros_img Demo.zeros_img Demo.ones_img
              Demo.sci_header)
           (VInt 30) (F4.of_Z 30)).
  - repeat split; vm_compute; reflexivity.
  - reflexivity.
  - reflexivity.
  - reflexivity.
  - intros b Hb. cbn in Hb. by repeat (apply elem_of_cons in Hb as [->|Hb]; [done|]);
      apply elem_of_nil in Hb.
  - intros b Hb. cbn in Hb. by repeat (apply elem_of_cons in Hb as [->|Hb]; [done|]);
      apply elem_of_nil in Hb.
  - intros b Hb. cbn in Hb. by repeat (apply elem_of_cons in Hb as [->|Hb]; [done|]);
      apply elem_of_nil in Hb.
  - reflexivity.
  - reflexivity.
  - reflexivity.
  - reflexivity.
Defined.

(** C3, the claim as stated, fails. With the bias and the dark zero at every
    pixel and the flat one at every pixel, an exposure time of 1e40 seconds
    is infinite in binary32, the scaled dark is [0 * inf], and every pixel
    of the corrected image is NaN. And with a bias that is [-0.0] at every
    pixel, zero as well, a science pixel [-0.0] comes out as [+0.0], which
    differs from it in the sign bit. *)
Lemma C3_counterexample :
  getdata "zeros.fits" Archive.shelf = (inr Demo.zeros_img, Archive.shelf) /\
  getdata "ones.fits" Archive.shelf = (inr Demo.ones_img, Archive.shelf) /\
  getdata "huge.fits" Archive.shelf = (inr Demo.sci_img, Archive.shelf) /\
  scalar_f4 (VFloat (S754_finite false 8271806125530277 80))
    = inr (S754_infinity false) /\
  corrected_frame "huge.fits" "zeros.fits" "ones.fits" "zeros.fits" Archive.shelf
    = (inr (NdArray [2; 2]%nat [F4.nan; F4.nan; F4.nan; F4.nan],
            Archive.huge_header), Archive.shelf) /\
  getdata "negzeros.fits" Archive.shelf
    = (inr Archive.negzeros_img, Archive.shelf) /\
  Forall (fun b => F4.is_zero b = true) (data (astype_f4 Archive.negzeros_img)) /\
  getdata "negsci.fits" Archive.shelf = (inr Archive.negsci_img, Archive.shelf) /\
  corrected_frame "negsci.fits" "negzeros.fits" "ones.fits" "zeros.fits"
    Archive.shelf
    = (inr (NdArray [2; 2]%nat
              [F4.zero; F4.of_Z 120; F4.of_Z 130; F4.of_Z 140],
            Demo.sci_header), Archive.shelf) /\
  astype_f4 Archive.negsci_img
    <> NdArray [2; 2]%nat [F4.zero; F4.of_Z 120; F4.of_Z 130; F4.of_Z 140].
Proof.
  split; [vm_compute; reflexivity|]. split; [vm_compute; reflexivity|].
  split; [vm_compute; reflexivity|]. split; [vm_compute; reflexivity|].
  split; [vm_compute; reflexivity|]. split; [vm_compute; reflexivity|].
  split; [by repeat constructor|]. split; [vm_compute; reflexivity|].
  split; [vm_compute; reflexivity|]. vm_compute. discriminate.
Qed.

(** C2 (as amended). Let the exposure times have the binary32 scalars [t] and
    [2 * t], with [t] zero or a normal number whose double is finite, and let
    no product of a dark pixel with [t] fall below the normal range. Then the
    dark contribution of line 51 at [2 * t] is, pixel for pixel, twice the
    one at [t]. And at exposure time zero, when every dark pixel is finite,
    the contribution is a zero at every pixel and the image before the
    cosmic-ray step has at every pixel the value of [(s - b) / f], the sign
    of a zero apart. *)
Theorem C2_dark_scaling w sci_fn bias_fn flat_fn dark_fn fr h2 v v2 t :
  loaded w sci_fn bias_fn flat_fn dark_fn fr ->
  getitem (f_header fr) "EXPTIME" = Some v ->
  scalar_f4 v = inr t ->
  getitem h2 "EXPTIME" = Some v2 ->
  scalar_f4 v2 = inr (F4.mul F4.two t) ->
  F4.doubles t = true ->
  (forall d, d ∈ data (astype_f4 (f_dark fr)) -> F4.no_underflow d t = true) ->
  (exists C,
     dark_contribution fr = inr C /\
     dark_contribution (Frames (f_sci fr) (f_bias fr) (f_dark fr) (f_flat fr) h2)
       = inr (NdArray (shape C) (map (F4.mul F4.two) (data C)))) /\
  (F4.is_zero t = true ->
   (forall d, d ∈ data (astype_f4 (f_dark fr)) -> F4.is_finite d = true) ->
   image_shape (f_bias fr) = image_shape (f_sci fr) ->
   image_shape (f_dark fr) = image_shape (f_sci fr) ->
   image_shape (f_flat fr) = image_shape (f_sci fr) ->
   exists C R,
     dark_contribution fr = inr C /\
     (forall c, c ∈ data C -> F4.is_zero c = true) /\
     corrected_frame sci_fn bias_fn flat_fn dark_fn w = (inr (R, f_header fr), w) /\
     forall (i : nat) s b f,
       data (astype_f4 (f_sci fr)) !! i = Some s ->
       data (astype_f4 (f_bias fr)) !! i = Some b ->
       data (astype_f4 (f_flat fr)) !! i = Some f ->
       exists r, data R !! i = Some r /\
                 F4.same_value r (F4.div (F4.sub s b) f)).
Proof.
  intros Hl Hv Ht Hv2 Ht2 Hdbl Hu. split.
  - unfold dark_contribution, header_getitem, imul_value. cbn [f_header f_dark].
    rewrite Hv, Hv2. cbn [mbind result_bind]. rewrite Ht, Ht2.
    cbn [mbind result_bind mret result_ret].
    eexists; split; [reflexivity|]. unfold inplace_scalar. cbn [shape data].
    do 2 f_equal. rewrite map_map. apply map_ext_in. intros d Hd.
    apply mul_two_commutes; [done|]. by apply Hu, list_elem_of_In.
  - intros Hz Hfin Sb Sd Sf.
    destruct (loaded_well_formed _ _ _ _ _ _ Hl) as (Ws & Wb & Wd & Wf).
    rewrite (corrected_frame_loaded _ _ _ _ _ _ Hl).
    rewrite (arithmetic_same_shape fr v t) by done.
    unfold dark_contribution, header_getitem, imul_value.
    rewrite Hv. cbn [mbind result_bind]. rewrite Ht.
    cbn [mbind result_bind mret result_ret].
    eexists _, _. split; [reflexivity|]. cbn [inplace_scalar data].
    destruct t as [sz| | |]; try done.
    split; [|split; [reflexivity|]].
    + intros c Hc. apply list_elem_of_fmap in Hc as (d & -> & Hd).
      by apply mul_zero_r, Hfin.
    + intros i s b f Hs Hb Hf.
      apply well_formed_length in Ws, Wd.
      rewrite !astype_f4_shape, ?Sd in *.
      destruct (lookup_lt_is_Some_2 (data (astype_f4 (f_dark fr))) i) as [d Hd].
      { apply lookup_lt_Some in Hs. lia. }
      cbn [data].
      rewrite (formula_pixel _ _ _ _ _ _ _ _ _ _ Hs Hb Hd Hf).
      eexists; split; [reflexivity|]. apply div_same_value.
      pose proof (mul_zero_r d sz) as Hm.
      destruct (F4.mul d (S754_zero sz)) as [s'| | |] eqn:Hmul.
      * apply sub_zero_same.
      * discriminate Hm. apply Hfin. by eapply list_elem_of_lookup_2.
      * discriminate Hm. apply Hfin. by eapply list_elem_of_lookup_2.
      * discriminate Hm. apply Hfin. by eapply list_elem_of_lookup_2.
Qed.

Lemma C2_witness :
  (exists C,
     dark_contribution Demo.night_frames = inr C /\
     dark_contribution
       (Frames Demo.sci_img Demo.bias_img Demo.dark_img Demo.flat_img
          Demo.sixty_header)
       = inr (NdArray (shape C) (map (F4.mul F4.two) (data C)))) /\
  (exists C R,
     dark_contribution
       (Frames Demo.sci_img Demo.bias_img Demo.dark_img Demo.flat_img
          Demo.zeroexp_header) = inr C /\
     (forall c, c ∈ data C -> F4.is_zero c = true) /\
     corrected_frame "zeroexp.fits" "bias.fits" "flat.fits" "dark.fits" Demo.night
       = (inr (R, Demo.zeroexp_header), Demo.night) /\
     forall (i : nat) s b f,
       data (astype_f4 Demo.sci_img) !! i = Some s ->
       data (astype_f4 Demo.bias_img) !! i = Some b ->
       data (astype_f4 Demo.flat_img) !! i = Some f ->
       exists r, data R !! i = Some r /\
                 F4.same_value r (F4.div (F4.sub s b) f)).
Proof.
  assert (Hin : forall (P : F4.f4 -> Prop),
             P F4.one -> P F4.two -> P F4.zero ->
             forall d, d ∈ data (astype_f4 Demo.dark_img) -> P d).
  { intros P H1 H2 H0 d Hd. cbn in Hd.
    repeat (apply elem_of_cons in Hd as [->|Hd]; [assumption|]).
    by apply elem_of_nil in Hd. }
  split.
  - apply (C2_dark_scaling Demo.night "sci.fits" "bias.fits" "flat.fits"
             "dark.fits" Demo.night_frames Demo.sixty_header
             (VInt 30) (VInt 60) (F4.of_Z 30)).
    + repeat split; vm_compute; reflexivity.
    + reflexivity.
    + reflexivity.
    + reflexivity.
    + reflexivity.
    + reflexivity.
    + apply Hin; reflexivity.
  - apply (C2_dark_scaling Demo.night "zeroexp.fits" "bias.fits" "flat.fits"
             "dark.fits"
             (Frames Demo.sci_img Demo.bias_img Demo.dark_img Demo.flat_img
                Demo.zeroexp_header)
             Demo.zeroexp_header (VInt 0) (VInt 0) (F4.of_Z 0)).
    + repeat split; vm_compute; reflexivity.
    + reflexivity.
    + reflexivity.
    + reflexivity.
    + reflexivity.
    + reflexivity.
    + apply Hin; reflexivity.
    + reflexivity.
    + apply Hin; reflexivity.
    + reflexivity.
    + reflexivity.
    + reflexivity.
Defined.

(** C2, the claim as stated, fails on both counts. With a dark frame whose
    first pixel is blank (NaN) and exposure time 0, the first pixel of the
    corrected image is NaN, not [(110 - 10) / 1]. With a dark frame whose
    first pixel is the subnormal number [3 * 2^(-149)] and the exposure times
    0.5 and 1.0, the contributions at that pixel are [2 * 2^(-149)] (the
    product 1.5 rounded to even) and [3 * 2^(-149)]: the second is not twice
    the first. *)
Lemma C2_counterexample :
  (exists R,
     corrected_frame "zeroexp.fits" "bias.fits" "flat.fits" "dark_nan.fits"
       Demo.night = (inr (R, Demo.zeroexp_header), Demo.night) /\
     data R !! 0%nat = Some F4.nan /\
     F4.div (F4.sub (F4.of_Z 110) (F4.of_Z 10)) F4.one = F4.of_Z 100 /\
     ~ F4.same_value F4.nan (F4.of_Z 100)) /\
  (exists t C1 C2,
     scalar_f4 (VFloat (S754_finite false 4503599627370496 (-53))) = inr t /\
     scalar_f4 (VFloat (S754_finite false 4503599627370496 (-52)))
       = inr (F4.mul F4.two t) /\
     dark_contribution
       (Frames Demo.sci_img Demo.bias_img Demo.dark_tiny_img Demo.flat_img
          Demo.half_header) = inr C1 /\
     dark_contribution
       (Frames Demo.sci_img Demo.bias_img Demo.dark_tiny_img Demo.flat_img
          Demo.unit_header) = inr C2 /\
     data C1 !! 0%nat = Some (S754_finite false 2 (-149)) /\
     data C2 !! 0%nat = Some (S754_finite false 3 (-149)) /\
     F4.mul F4.two (S754_finite false 2 (-149)) = S754_finite false 4 (-149) /\
     data C2 <> map (F4.mul F4.two) (data C1)).
Proof.
  split.
  - eexists. split; [vm_compute; reflexivity|].
    split; [reflexivity|]. split; [vm_compute; reflexivity|].
    intros [He|[He _]]; vm_compute in He; discriminate He.
  - eexists _, _, _. split; [vm_compute; reflexivity|].
    split; [vm_compute; reflexivity|].
    split; [vm_compute; reflexivity|].
    split; [vm_compute; reflexivity|].
    split; [reflexivity|]. split; [reflexivity|].
    split; [vm_compute; reflexivity|].
    vm_compute. discriminate.
Qed.


(** C8 (as amended). A call either returns the cleaned image, having put at
    the output path a file of exactly two units (the image, then the mask)
    and touched nothing else; or it raises, and then no other path is
    touched and the store is as it was unless the failing statement is the
    write of line 66 running out of room: lines 42 to 64 write nothing, and
    line 66, which first removes the file that is at the output path, leaves
    there what the medium kept of the new one, or nothing. *)
Theorem C8_result_or_failure
    (detect_cosmics : ndarray F4.f4 -> result (ndarray bool * ndarray F4.f4))
    (dev : device) sci_fn bias_fn flat_fn dark_fn out_fn w :
  match reduce_science_frame detect_cosmics dev sci_fn bias_fn flat_fn dark_fn
          out_fn w with
  | (inr img, w') =>
      exists primary mask_unit,
        files w' !! out_fn = Some (FitsFile [primary; mask_unit]) /\
        hdu_data primary = Some (ImgF4 img) /\
        (forall p, p ≠ out_fn -> files w' !! p = files w !! p) /\
        locked w' = locked w
  | (inl e, w') =>
      (forall p, p ≠ out_fn -> files w' !! p = files w !! p) /\
      locked w' = locked w /\
      (w' = w \/
       exists sci sciHeader mask img hdul left,
         corrected_frame sci_fn bias_fn flat_fn dark_fn w
           = (inr (sci, sciHeader), w) /\
         detect_cosmics sci = inr (mask, img) /\
         output_hdul img mask sciHeader bias_fn flat_fn dark_fn = inr hdul /\
         dev out_fn hdul = Some (NoSpace left) /\
         e = OSError out_fn /\
         files w' !! out_fn = left)
  end.
Proof.
  rewrite reduce_science_frame_run.
  pose proof (corrected_frame_store sci_fn bias_fn flat_fn dark_fn w) as Hw.
  destruct (corrected_frame _ _ _ _ w) as [[e|[sci h]] w''] eqn:Hc;
    simpl in Hw; subst w''; [by auto|].
  destruct (detect_cosmics sci) as [e|[mask red]] eqn:Hd; [by auto|].
  destruct (output_hdul red mask h bias_fn flat_fn dark_fn) as [e|hdul] eqn:Ho;
    [by auto|].
  rewrite writeto_run.
  destruct (decide (out_fn ∈ locked w)); [by auto|].
  destruct (dev out_fn hdul) as [[|[f|]]|] eqn:Hdev; cbn [files locked].
  - by auto.
  - split; [intros p Hp; by apply lookup_insert_ne|]. split; [done|].
    right. exists sci, h, mask, red, hdul, (Some f).
    by rewrite lookup_insert_eq.
  - split; [intros p Hp; by apply lookup_delete_ne|]. split; [done|].
    right. exists sci, h, mask, red, hdul, None.
    by rewrite lookup_delete_eq.
  - rewrite output_hdul_spec in Ho.
    destruct (printable bias_fn && printable dark_fn && printable flat_fn);
      [|done].
    injection Ho as <-.
    eexists _, _. split; [apply lookup_insert_eq|].
    split; [reflexivity|]. split; [|reflexivity].
    intros p Hp. by apply lookup_insert_ne.
Qed.

(** C8, the claim as stated, fails: on a medium that has no room left for
    the output, reducing the night's frames again, over the file that the
    first reduction wrote, raises at line 66, and the complete file that
    was at the output path is gone: what is there is the part of the new
    file that could be written, which does not open as a FITS file. *)
Lemma C8_counterexample :
  exists w',
    files Demo.night_after !! "reduced_science.fits"
      = Some (FitsFile [PrimaryHDU Demo.reduced Demo.reduced_header;
                        Demo.mask_hdu]) /\
    reduce_science_frame Demo.no_cosmics Archive.crowded "sci.fits" "bias.fits"
      "flat.fits" "dark.fits" "reduced_science.fits" Demo.night_after
      = (inl (OSError "reduced_science.fits"), w') /\
    files w' !! "reduced_science.fits" = Some OtherFile /\
    (fits_open "reduced_science.fits" w').1
      = inl (OSError "reduced_science.fits") /\
    w' <> Demo.night_after.
Proof.
  eexists. split; [vm_compute; reflexivity|].
  split; [vm_compute; reflexivity|].
  split; [vm_compute; reflexivity|]. split; [vm_compute; reflexivity|].
  intros H. apply (f_equal (fun w => files w !! "reduced_science.fits")) in H.
  vm_compute in H. discriminate H.
Qed.

(** C7. After a call that returns, the output path reads back as two units
    in this order: the primary unit, whose data are the returned image, and
    a unit named [COSMICRAY_MASK] of dtype [uint8]; the mask has the shape
    of the image whenever the detector returns, as it is specified to, a
    mask of the shape of its cleaned image. *)
Theorem C7_written_file_reads_back
    (detect_cosmics : ndarray F4.f4 -> result (ndarray bool * ndarray F4.f4))
    (dev : device) sci_fn bias_fn flat_fn dark_fn out_fn w w' img :
  (forall a m c, detect_cosmics a = inr (m, c) -> shape m = shape c) ->
  reduce_science_frame detect_cosmics dev sci_fn bias_fn flat_fn dark_fn out_fn
    w
    = (inr img, w') ->
  exists primary mask_unit mask_data,
    fits_open out_fn w' = (inr [primary; mask_unit], w') /\
    hdu_data primary = Some (ImgF4 img) /\
    hdu_name mask_unit = Some "COSMICRAY_MASK" /\
    hdu_data mask_unit = Some mask_data /\
    image_dtype mask_data = IntType UInt8 /\
    image_shape mask_data = shape img.
Proof.
  intros Hdet Hr.
  destruct (reduce_returns _ _ _ _ _ _ _ _ _ _ Hr)
    as (sci & h & mask & _ & Hd & _ & _ & _ & ->).
  eexists _, _, _. unfold fits_open. cbn [files].
  rewrite lookup_insert_eq.
  split; [reflexivity|]. split; [reflexivity|]. split; [reflexivity|].
  split; [reflexivity|]. split; [reflexivity|].
  cbn. exact (Hdet _ _ _ Hd).
Qed.

Lemma C7_witness :
  exists primary mask_unit mask_data,
    fits_open "reduced_science.fits" Demo.night_after
      = (inr [primary; mask_unit], Demo.night_after) /\
    hdu_data primary = Some (ImgF4 Demo.reduced) /\
    hdu_name mask_unit = Some "COSMICRAY_MASK" /\
    hdu_data mask_unit = Some mask_data /\
    image_dtype mask_data = IntType UInt8 /\
    image_shape mask_data = shape Demo.reduced.
Proof.
  apply (C7_written_file_reads_back Demo.no_cosmics Demo.roomy "sci.fits" "bias.fits"
           "flat.fits" "dark.fits" "reduced_science.fits"
           Demo.night Demo.night_after Demo.reduced).
  - intros a m c [= <- <-]. reflexivity.
  - vm_compute. reflexivity.
Defined.




(** C4 (as amended). With the frames read and a numeric exposure time: when
    a calibration frame cannot be broadcast to the shape of the science
    frame, the call raises [ValueError] and the store is as it was; when all
    three can, whether their shapes are that of the science frame or not,
    lines 48 to 54 raise nothing and give an array of the shape of the
    science frame. *)
Theorem C4_shape_mismatch
    (detect_cosmics : ndarray F4.f4 -> result (ndarray bool * ndarray F4.f4))
    (dev : device) sci_fn bias_fn flat_fn dark_fn out_fn w fr v t :
  loaded w sci_fn bias_fn flat_fn dark_fn fr ->
  getitem (f_header fr) "EXPTIME" = Some v ->
  scalar_f4 v = inr t ->
  if all_broadcastable fr
  then exists R,
         corrected_frame sci_fn bias_fn flat_fn dark_fn w
           = (inr (R, f_header fr), w) /\
         shape R = image_shape (f_sci fr)
  else reduce_science_frame detect_cosmics dev sci_fn bias_fn flat_fn dark_fn
         out_fn w = (inl ValueError, w).
Proof.
  intros Hl Hv Ht.
  pose proof (arithmetic_broadcast fr v t Hv Ht) as Ha.
  pose proof (corrected_frame_loaded _ _ _ _ _ _ Hl) as Hc.
  destruct (all_broadcastable fr).
  - destruct Ha as (R & Ha & HR). exists R. by rewrite Hc, Ha.
  - apply reduce_science_frame_error. by rewrite Hc, Ha.
Qed.

Lemma C4_witness :
  reduce_science_frame Demo.no_cosmics Demo.roomy "sci.fits" "bias_line.fits" "flat.fits"
    "dark.fits" "reduced_science.fits" Demo.night = (inl ValueError, Demo.night).
Proof.
  apply (C4_shape_mismatch Demo.no_cosmics Demo.roomy "sci.fits" "bias_line.fits"
           "flat.fits" "dark.fits" "reduced_science.fits" Demo.night
           (Frames Demo.sci_img Demo.bias_line_img Demo.dark_img Demo.flat_img
              Demo.sci_header)
           (VInt 30) (F4.of_Z 30)).
  - repeat split; vm_compute; reflexivity.
  - reflexivity.
  - reflexivity.
Defined.

(** C4, the claim as stated, fails: a bias of one row, of shape [1; 2],
    against a science frame of shape [2; 2] raises nothing; the row is
    stretched over the two rows and the call returns. *)
Lemma C4_counterexample :
  exists w',
    getdata "bias_row.fits" Demo.night = (inr Demo.bias_row_img, Demo.night) /\
    getdata "sci.fits" Demo.night = (inr Demo.sci_img, Demo.night) /\
    image_shape Demo.bias_row_img <> image_shape Demo.sci_img /\
    reduce_science_frame Demo.no_cosmics Demo.roomy "sci.fits" "bias_row.fits" "flat.fits"
      "dark.fits" "reduced_science.fits" Demo.night = (inr Demo.reduced, w').
Proof.
  eexists. split; [vm_compute; reflexivity|]. split; [vm_compute; reflexivity|].
  split; [discriminate|]. vm_compute. reflexivity.
Qed.

(** C5 (as amended). When the science header has no [EXPTIME] and the five
    reads succeed, the call fails after them, in the arithmetic: with
    [KeyError] at line 51, the bias having been subtracted at line 49, or,
    when the bias frame cannot be broadcast to the science frame, with the
    [ValueError] of line 49, which comes first. The store is as it was. *)
Theorem C5_missing_exptime
    (detect_cosmics : ndarray F4.f4 -> result (ndarray bool * ndarray F4.f4))
    (dev : device) sci_fn bias_fn flat_fn dark_fn out_fn w fr :
  loaded w sci_fn bias_fn flat_fn dark_fn fr ->
  getitem (f_header fr) "EXPTIME" = None ->
  reduce_science_frame detect_cosmics dev sci_fn bias_fn flat_fn dark_fn out_fn
    w
    = (inl (if broadcastable (image_shape (f_bias fr)) (image_shape (f_sci fr))
            then KeyError "EXPTIME" else ValueError), w) /\
  (broadcastable (image_shape (f_bias fr)) (image_shape (f_sci fr)) = true ->
   exists sci, isub (astype_f4 (f_sci fr)) (astype_f4 (f_bias fr)) = inr sci).
Proof.
  intros Hl Hv.
  pose proof (isub_broadcast (astype_f4 (f_sci fr)) (astype_f4 (f_bias fr))) as H1.
  rewrite !astype_f4_shape in H1.
  split.
  - apply reduce_science_frame_error.
    rewrite (corrected_frame_loaded _ _ _ _ _ _ Hl). f_equal.
    unfold arithmetic, dark_contribution, header_getitem.
    destruct (isub _ _) as [e|s1]; destruct H1 as [-> H1]; [by subst|].
    cbn [mbind result_bind]. by rewrite Hv.
  - intros Hb. destruct (isub _ _) as [e|s1]; [|by exists s1].
    destruct H1 as [H1 _]. congruence.
Qed.

Lemma C5_witness :
  reduce_science_frame Demo.no_cosmics Demo.roomy "noexp.fits" "bias.fits" "flat.fits"
    "dark.fits" "reduced_science.fits" Demo.night
    = (inl (KeyError "EXPTIME"), Demo.night) /\
  (broadcastable (image_shape Demo.bias_img) (image_shape Demo.sci_img) = true ->
   exists sci, isub (astype_f4 Demo.sci_img) (astype_f4 Demo.bias_img) = inr sci).
Proof.
  apply (C5_missing_exptime Demo.no_cosmics Demo.roomy "noexp.fits" "bias.fits" "flat.fits"
           "dark.fits" "reduced_science.fits" Demo.night
           (Frames Demo.sci_img Demo.bias_img Demo.dark_img Demo.flat_img
              Demo.noexp_header)).
  - repeat split; vm_compute; reflexivity.
  - reflexivity.
Defined.

(** C5, the claim as stated, fails: for a science header without [EXPTIME]
    every read succeeds, so the load step raises nothing; and with a bias
    frame of another shape the call ends with [ValueError], raised by the
    bias subtraction before the header is asked for the exposure time. *)
Lemma C5_counterexample :
  getitem Demo.noexp_header "EXPTIME" = None /\
  getheader "noexp.fits" Demo.night = (inr Demo.noexp_header, Demo.night) /\
  getdata "noexp.fits" Demo.night = (inr Demo.sci_img, Demo.night) /\
  getdata "bias_line.fits" Demo.night = (inr Demo.bias_line_img, Demo.night) /\
  getdata "flat.fits" Demo.night = (inr Demo.flat_img, Demo.night) /\
  getdata "dark.fits" Demo.night = (inr Demo.dark_img, Demo.night) /\
  reduce_science_frame Demo.no_cosmics Demo.roomy "noexp.fits" "bias_line.fits" "flat.fits"
    "dark.fits" "reduced_science.fits" Demo.night = (inl ValueError, Demo.night).
Proof. repeat split; vm_compute; reflexivity. Qed.



(** * Further properties of [reduce_science_frame] *)

(** ** Broadcasting: lengths, single pixels, maps *)

Section Stretching.
Context {A : Type}.
Implicit Types (l db : list A) (sa sb : list nat).

Lemma compat_rev_length sb sa :
  compat_rev sb sa = true -> (length sb <= length sa)%nat.
Proof.
  revert sa; induction sb as [|m sb IH]; intros [|n sa] H; simpl in *;
    try lia; try done.
  apply andb_prop in H as [_ H]. apply IH in H. lia.
Qed.

Lemma compat_rev_app_r sb sa x :
  (length sb <= length sa)%nat -> compat_rev sb (sa ++ x) = compat_rev sb sa.
Proof.
  revert sa; induction sb as [|m sb IH]; intros [|n sa] H; simpl in *;
    try lia; try done.
  rewrite IH by lia. done.
Qed.

Lemma compat_rev_snoc sb sa m n :
  length sb = length sa ->
  compat_rev (sb ++ [m]) (sa ++ [n])
  = compat_rev sb sa && (Nat.eqb m n || Nat.eqb m 1).
Proof.
  revert sa; induction sb as [|m' sb IH]; intros [|n' sa] H; simpl in *;
    try lia.
  - by rewrite andb_true_r.
  - rewrite IH by lia. by rewrite andb_assoc.
Qed.

Lemma broadcastable_length sb sa :
  broadcastable sb sa = true -> (length sb <= length sa)%nat.
Proof.
  intros H. apply compat_rev_length in H. by rewrite !length_rev in H.
Qed.

Lemma broadcastable_cons_lt sb n sa :
  (length sb < length (n :: sa))%nat ->
  broadcastable sb (n :: sa) = broadcastable sb sa.
Proof.
  intros H. unfold broadcastable. simpl rev.
  apply compat_rev_app_r. rewrite !length_rev. simpl in H. lia.
Qed.

Lemma broadcastable_cons_eq m sb n sa :
  length sb = length sa ->
  broadcastable (m :: sb) (n :: sa)
  = broadcastable sb sa && (Nat.eqb m n || Nat.eqb m 1).
Proof.
  intros H. unfold broadcastable. simpl rev.
  apply compat_rev_snoc. by rewrite !length_rev.
Qed.

Lemma length_concat_replicate n l :
  length (concat (replicate n l)) = (n * length l)%nat.
Proof. induction n as [|n IH]; simpl; [done|]. by rewrite length_app, IH. Qed.

Lemma length_concat_uniform (ls : list (list A)) k :
  (forall x, x ∈ ls -> length x = k) ->
  length (concat ls) = (length ls * k)%nat.
Proof.
  induction ls as [|x ls IH]; intros H; simpl; [done|].
  rewrite length_app, IH, (H x); [done|by left|].
  intros y Hy. apply H. by right.
Qed.

Lemma length_chunks k sz l : length (chunks k sz l) = k.
Proof. revert l; induction k as [|k IH]; intros l; simpl; [done|]. by rewrite IH. Qed.

(** A shape is broadcast in one of three ways at its first axis. *)
Lemma broadcastable_cases sb n sa :
  broadcastable sb (n :: sa) = true ->
  ((length sb < length (n :: sa))%nat /\ broadcastable sb sa = true) \/
  (exists m sb', sb = m :: sb' /\ length sb' = length sa /\
                 broadcastable sb' sa = true /\ (m = n \/ m = 1%nat)).
Proof.
  intros H. pose proof (broadcastable_length _ _ H) as Hl.
  destruct (decide (length sb < length (n :: sa))%nat) as [Hlt|Hge].
  - left. split; [done|]. by rewrite broadcastable_cons_lt in H.
  - right. destruct sb as [|m sb']; simpl in *; [lia|].
    assert (Hlen : length sb' = length sa) by lia.
    rewrite broadcastable_cons_eq in H by done.
    apply andb_prop in H as [H1 H2]. apply orb_prop in H2.
    exists m, sb'. repeat split; [done..|].
    destruct H2 as [H2|H2]; apply Nat.eqb_eq in H2; auto.
Qed.

Lemma expand_length sa : forall sb db,
  broadcastable sb sa = true -> length db = size sb ->
  length (expand sa sb db) = size sa.
Proof.
  induction sa as [|n sa IH]; intros sb db Hb Hd.
  - apply broadcastable_length in Hb. destruct sb; simpl in *; [done|lia].
  - destruct (broadcastable_cases _ _ _ Hb)
      as [[Hlt Hb']|(m & sb' & -> & Hlen & Hb' & Hm)].
    + cbn [expand]. apply Nat.ltb_lt in Hlt. rewrite Hlt.
      rewrite length_concat_replicate, (IH sb db) by done. done.
    + cbn [expand]. replace (length (m :: sb') <? length (n :: sa))%nat
        with false by (symmetry; apply Nat.ltb_ge; simpl; lia).
      change (size (m :: sb')) with (m * size sb')%nat in Hd.
      destruct (Nat.eqb_spec m n) as [->|Hne].
      * rewrite (length_concat_uniform _ (size sa)).
        { by rewrite length_map, length_chunks. }
        intros x Hx. apply list_elem_of_fmap in Hx as (c & -> & Hc).
        apply IH; [done|]. by apply (chunks_length_each n _ db).
      * destruct Hm as [-> | ->]; [done|].
        rewrite length_concat_replicate, (IH sb' db); [done|done|lia].
Qed.

Lemma concat_replicate_replicate n k (x : A) :
  concat (replicate n (replicate k x)) = replicate (n * k) x.
Proof.
  induction n as [|n IH]; simpl; [done|].
  by rewrite IH, replicate_add.
Qed.

(** An operand of one element is repeated over the whole shape. *)
Lemma expand_single sa (x : A) : forall sb,
  broadcastable sb sa = true -> size sb = 1%nat ->
  expand sa sb [x] = replicate (size sa) x.
Proof.
  induction sa as [|n sa IH]; intros sb Hb Hs.
  - apply broadcastable_length in Hb. destruct sb; simpl in *; [done|lia].
  - destruct (broadcastable_cases _ _ _ Hb)
      as [[Hlt Hb']|(m & sb' & -> & Hlen & Hb' & Hm)].
    + cbn [expand]. apply Nat.ltb_lt in Hlt. rewrite Hlt.
      rewrite (IH sb) by done. apply concat_replicate_replicate.
    + cbn [expand]. replace (length (m :: sb') <? length (n :: sa))%nat
        with false by (symmetry; apply Nat.ltb_ge; simpl; lia).
      change (size (m :: sb')) with (m * size sb')%nat in Hs.
      assert (m = 1%nat /\ size sb' = 1%nat) as [-> Hs'] by (by apply Nat.eq_mul_1).
      destruct (Nat.eqb_spec 1 n) as [<-|Hne].
      * rewrite Hs'. cbn [chunks take map concat].
        rewrite (IH sb') by done. rewrite app_nil_r.
        change (size (1%nat :: sa)) with (1 * size sa)%nat.
        f_equal. lia.
      * rewrite (IH sb') by done. apply concat_replicate_replicate.
Qed.

End Stretching.

Lemma chunks_map {A B} (g : A -> B) k sz (l : list A) :
  chunks k sz (map g l) = map (map g) (chunks k sz l).
Proof.
  revert l; induction k as [|k IH]; intros l; simpl; [done|].
  change (map g) with (fmap (M:=list) g).
  by rewrite <- fmap_take, <- fmap_drop, IH.
Qed.

Lemma concat_replicate_map {A B} (g : A -> B) n (l : list A) :
  concat (replicate n (map g l)) = map g (concat (replicate n l)).
Proof.
  induction n as [|n IH]; simpl; [done|]. by rewrite IH, map_app.
Qed.

(** Stretching commutes with a pixel-wise function. *)
Lemma expand_map {A B} (g : A -> B) sa : forall sb (db : list A),
  expand sa sb (map g db) = map g (expand sa sb db).
Proof.
  induction sa as [|n sa IH]; intros sb db; [done|].
  cbn [expand]. destruct (length sb <? length (n :: sa))%nat.
  - by rewrite IH, concat_replicate_map.
  - destruct sb as [|m sb']; [done|]. destruct (m =? n)%nat.
    + rewrite chunks_map, concat_map, !map_map. f_equal.
      apply map_ext. intros c. apply IH.
    + by rewrite IH, concat_replicate_map.
Qed.

(** ** The arithmetic with stretched operands *)

Lemma arithmetic_stretched fr v t :
  all_broadcastable fr = true ->
  getitem (f_header fr) "EXPTIME" = Some v ->
  scalar_f4 v = inr t ->
  arithmetic fr =
    inr (NdArray (image_shape (f_sci fr))
           (zip_with F4.div
              (zip_with F4.sub
                 (zip_with F4.sub (data (astype_f4 (f_sci fr)))
                    (expand (image_shape (f_sci fr)) (image_shape (f_bias fr))
                       (data (astype_f4 (f_bias fr)))))
                 (map (fun d => F4.mul d t)
                    (expand (image_shape (f_sci fr)) (image_shape (f_dark fr))
                       (data (astype_f4 (f_dark fr))))))
              (expand (image_shape (f_sci fr)) (image_shape (f_flat fr))
                 (data (astype_f4 (f_flat fr))))),
         f_header fr).
Proof.
  intros Hb Hv Ht. unfold all_broadcastable in Hb.
  apply andb_prop in Hb as [Hb Hf]. apply andb_prop in Hb as [Hb Hd].
  unfold arithmetic, dark_contribution, header_getitem, imul_value, isub, idiv,
    inplace, inplace_scalar.
  rewrite Hv. cbn [mbind result_bind]. rewrite Ht.
  cbn [mbind result_bind mret result_ret shape data].
  rewrite !astype_f4_shape, Hb.
  cbn [mbind result_bind mret result_ret shape data]. rewrite Hd.
  cbn [mbind result_bind mret result_ret shape data]. rewrite Hf.
  cbn [mbind result_bind mret result_ret shape data]. by rewrite expand_map.
Qed.

(** A successful run of lines 48 to 54 has met every condition. *)
Lemma arithmetic_inv fr R h :
  arithmetic fr = inr (R, h) ->
  h = f_header fr /\ all_broadcastable fr = true /\
  exists v t, getitem (f_header fr) "EXPTIME" = Some v /\ scalar_f4 v = inr t.
Proof.
  unfold arithmetic, dark_contribution, header_getitem, imul_value.
  intros Ha.
  pose proof (isub_broadcast (astype_f4 (f_sci fr)) (astype_f4 (f_bias fr))) as H1.
  destruct (isub _ _) as [e|s1]; [done|]. destruct H1 as [H1 S1].
  cbn [mbind result_bind] in Ha.
  destruct (getitem (f_header fr) "EXPTIME") as [v|] eqn:Hv; [|done].
  cbn [mbind result_bind] in Ha.
  destruct (scalar_f4 v) as [e|t] eqn:Ht; [done|].
  cbn [mbind result_bind mret result_ret] in Ha.
  pose proof (isub_broadcast s1 (inplace_scalar F4.mul (astype_f4 (f_dark fr)) t)) as H2.
  destruct (isub s1 _) as [e|s2]; [done|]. destruct H2 as [H2 S2].
  cbn [mbind result_bind] in Ha.
  pose proof (idiv_broadcast s2 (astype_f4 (f_flat fr))) as H3.
  destruct (idiv s2 _) as [e|s3]; [done|]. destruct H3 as [H3 S3].
  cbn [mbind result_bind] in Ha. injection Ha as <- <-.
  split; [done|]. split; [|by eauto].
  unfold all_broadcastable. cbn [inplace_scalar shape] in H2.
  rewrite S2, S1 in H3. rewrite S1 in H2. rewrite !astype_f4_shape in *.
  by rewrite H1, H2, H3.
Qed.

Lemma stretched_length fr t :
  well_formed (astype_f4 (f_sci fr)) = true ->
  well_formed (astype_f4 (f_bias fr)) = true ->
  well_formed (astype_f4 (f_dark fr)) = true ->
  well_formed (astype_f4 (f_flat fr)) = true ->
  all_broadcastable fr = true ->
  length (zip_with F4.div
            (zip_with F4.sub
               (zip_with F4.sub (data (astype_f4 (f_sci fr)))
                  (expand (image_shape (f_sci fr)) (image_shape (f_bias fr))
                     (data (astype_f4 (f_bias fr)))))
               (map (fun d => F4.mul d t)
                  (expand (image_shape (f_sci fr)) (image_shape (f_dark fr))
                     (data (astype_f4 (f_dark fr))))))
            (expand (image_shape (f_sci fr)) (image_shape (f_flat fr))
               (data (astype_f4 (f_flat fr)))))
  = size (image_shape (f_sci fr)).
Proof.
  intros Ws Wb Wd Wf Hb. unfold all_broadcastable in Hb.
  apply andb_prop in Hb as [Hb Hf]. apply andb_prop in Hb as [Hb Hd].
  apply well_formed_length in Ws, Wb, Wd, Wf.
  rewrite !astype_f4_shape in *.
  apply formula_length; [done|by apply expand_length..].
Qed.

(** ** The reads, one after the other *)

Lemma corrected_frame_run sci_fn bias_fn flat_fn dark_fn w :
  corrected_frame sci_fn bias_fn flat_fn dark_fn w =
    match (getdata bias_fn w).1 with
    | inl e => (inl e, w)
    | inr b =>
        match (getdata flat_fn w).1 with
        | inl e => (inl e, w)
        | inr f =>
            match (getdata dark_fn w).1 with
            | inl e => (inl e, w)
            | inr d =>
                match (getdata sci_fn w).1 with
                | inl e => (inl e, w)
                | inr s =>
                    match (getheader sci_fn w).1 with
                    | inl e => (inl e, w)
                    | inr h => (arithmetic (Frames s b d f h), w)
                    end
                end
            end
        end
    end.
Proof.
  pose proof (getdata_store bias_fn w) as Hb.
  pose proof (getdata_store flat_fn w) as Hf.
  pose proof (getdata_store dark_fn w) as Hd.
  pose proof (getdata_store sci_fn w) as Hs.
  pose proof (getheader_store sci_fn w) as Hh.
  destruct (getdata bias_fn w) as [[e|b] ?] eqn:Eb; simpl in Hb; subst.
  { unfold corrected_frame, mbind, M_bind, fmap, M_fmap. by rewrite Eb. }
  destruct (getdata flat_fn w) as [[e|f] ?] eqn:Ef; simpl in Hf; subst.
  { unfold corrected_frame, mbind, M_bind, fmap, M_fmap. by rewrite Eb, Ef. }
  destruct (getdata dark_fn w) as [[e|d] ?] eqn:Ed; simpl in Hd; subst.
  { unfold corrected_frame, mbind, M_bind, fmap, M_fmap. by rewrite Eb, Ef, Ed. }
  destruct (getdata sci_fn w) as [[e|s] ?] eqn:Es; simpl in Hs; subst.
  { unfold corrected_frame, mbind, M_bind, fmap, M_fmap.
    by rewrite Eb, Ef, Ed, Es. }
  destruct (getheader sci_fn w) as [[e|h] ?] eqn:Eh; simpl in Hh; subst.
  { unfold corrected_frame, mbind, M_bind, fmap, M_fmap.
    by rewrite Eb, Ef, Ed, Es, Eh. }
  cbn [fst]. by apply corrected_frame_loaded.
Qed.

(** What a read gives depends on the file at the path only. *)
Lemma fits_open_agree path w1 w2 :
  files w1 !! path = files w2 !! path ->
  (fits_open path w1).1 = (fits_open path w2).1.
Proof.
  intros H. unfold fits_open. rewrite H.
  by destruct (files w2 !! path) as [[[|u hdul]|]|].
Qed.

Lemma getdata_agree path w1 w2 :
  files w1 !! path = files w2 !! path ->
  (getdata path w1).1 = (getdata path w2).1.
Proof.
  intros H. unfold getdata, mbind, M_bind, fits_open. rewrite H.
  destruct (files w2 !! path) as [[[|u hdul]|]|]; try done.
  unfold decoded, raise, mret, M_ret.
  repeat (match goal with
          | |- context [match ?x with _ => _ end] => destruct x
          end; try done).
Qed.

Lemma getheader_agree path w1 w2 :
  files w1 !! path = files w2 !! path ->
  (getheader path w1).1 = (getheader path w2).1.
Proof.
  intros H. unfold getheader, mbind, M_bind, fits_open. rewrite H.
  by destruct (files w2 !! path) as [[[|u hdul]|]|].
Qed.

Lemma corrected_frame_agree sci_fn bias_fn flat_fn dark_fn w1 w2 :
  files w1 !! sci_fn = files w2 !! sci_fn ->
  files w1 !! bias_fn = files w2 !! bias_fn ->
  files w1 !! flat_fn = files w2 !! flat_fn ->
  files w1 !! dark_fn = files w2 !! dark_fn ->
  (corrected_frame sci_fn bias_fn flat_fn dark_fn w1).1
  = (corrected_frame sci_fn bias_fn flat_fn dark_fn w2).1.
Proof.
  intros Hs Hb Hf Hd. rewrite !corrected_frame_run.
  rewrite (getdata_agree bias_fn w1 w2 Hb), (getdata_agree flat_fn w1 w2 Hf),
    (getdata_agree dark_fn w1 w2 Hd), (getdata_agree sci_fn w1 w2 Hs),
    (getheader_agree sci_fn w1 w2 Hs).
  repeat (match goal with
          | |- context [match ?x with _ => _ end] => destruct x
          end; try done).
Qed.

(** ** Binary32: blank pixels, division by zero, multiplication by one *)

Lemma sub_nan_l y : F4.sub F4.nan y = F4.nan.
Proof. by destruct y. Qed.
Lemma sub_nan_r x : F4.sub x F4.nan = F4.nan.
Proof. by destruct x. Qed.
Lemma mul_nan_l y : F4.mul F4.nan y = F4.nan.
Proof. by destruct y. Qed.
Lemma mul_nan_r x : F4.mul x F4.nan = F4.nan.
Proof. by destruct x. Qed.
Lemma div_nan_l y : F4.div F4.nan y = F4.nan.
Proof. by destruct y. Qed.
Lemma div_nan_r x : F4.div x F4.nan = F4.nan.
Proof. by destruct x. Qed.

Lemma pixel_nan s b d f t :
  s = F4.nan \/ b = F4.nan \/ d = F4.nan \/ f = F4.nan \/ t = F4.nan ->
  F4.div (F4.sub (F4.sub s b) (F4.mul d t)) f = F4.nan.
Proof.
  intros [-> | [-> | [-> | [-> | ->]]]].
  - by rewrite !sub_nan_l, div_nan_l.
  - by rewrite sub_nan_r, sub_nan_l, div_nan_l.
  - by rewrite mul_nan_l, sub_nan_r, div_nan_l.
  - by rewrite div_nan_r.
  - by rewrite mul_nan_r, sub_nan_r, div_nan_l.
Qed.

Lemma div_zero_not_finite x f :
  F4.is_zero f = true -> F4.is_finite (F4.div x f) = false.
Proof. destruct f; [|done..]. intros _. by destruct x. Qed.

Lemma mul_one_finite s m e :
  bounded F4.prec F4.emax m e = true ->
  F4.mul (S754_finite s m e) F4.one = S754_finite s m e.
Proof.
  intros Hb. destruct (bounded_cases m e Hb) as [He Hc].
  unfold F4.mul, F4.one, SFmul. rewrite xorb_false_r.
  rewrite (Pos.mul_comm m 8388608).
  change (8388608 * m)%positive
    with (m~0~0~0~0~0~0~0~0~0~0~0~0~0~0~0~0~0~0~0~0~0~0~0)%positive.
  unfold binary_round_aux, shr_fexp at 1. cbn [Zdigits2 digits2_pos].
  rewrite !Pos2Z.inj_succ.
  unfold fexp at 1, emin, F4.prec, F4.emax.
  replace (Z.max _ _ - (e + -23)) with 23 by lia.
  cbn [shr shr_record_of_loc SpecFloat.iter_pos shr_1 shr_m shr_r shr_s
         loc_of_shr_record round_nearest_even orb].
  cbv iota.
  unfold shr_fexp, fexp, emin. cbn [Zdigits2].
  replace (Z.max _ _ - (e + -23 + 23)) with 0 by lia.
  cbn [shr shr_record_of_loc shr_m].
  replace (e + -23 + 23) with e by lia.
  destruct (Z.leb_spec e (128 - 24)); [done|lia].
Qed.

Lemma mul_one x : F4.valid x = true -> F4.mul x F4.one = x.
Proof.
  destruct x as [s|s| |s m e]; intros Hv.
  - simpl. by rewrite xorb_false_r.
  - simpl. by rewrite xorb_false_r.
  - reflexivity.
  - by apply mul_one_finite.
Qed.

(** ** Headers: the cards that an update leaves in place *)

Section HeaderOrder.
Context (P : card -> Prop) `{!forall x, Decision (P x)}.
Implicit Types (h : list card) (k : string) (v : hvalue) (c : option string).

Lemma filter_update_first h k v c :
  (forall x, keyword x = k -> ~ P x) ->
  filter P (update_first h k v c : list card) = filter P h.
Proof.
  intros HP. induction h as [|x h IH]; cbn [update_first]; [done|].
  destruct (has_key k x) eqn:E.
  - apply has_key_true in E.
    rewrite (filter_cons_False _ x) by by apply HP.
    by rewrite filter_cons_False by by apply HP.
  - rewrite !filter_cons. by rewrite IH.
Qed.

Lemma filter_insert_after_last h k x :
  existsb (has_key k) h = true -> ~ P x ->
  filter P (insert_after_last h k x : list card) = filter P h.
Proof.
  intros He Hx.
  destruct (insert_after_last_spec h k x He) as (h1 & h2 & -> & -> & _).
  by rewrite !filter_app, filter_cons_False.
Qed.

Lemma filter_insert_after_keywords h x :
  ~ P x -> filter P (insert_after_keywords h x : list card) = filter P h.
Proof.
  intros Hx.
  destruct (insert_after_keywords_spec h x) as (h1 & h2 & -> & -> & _).
  by rewrite !filter_app, filter_cons_False.
Qed.

Lemma filter_update_other h k v c :
  (forall x, keyword x = k -> ~ P x) ->
  filter P (update h k v c : list card) = filter P h.
Proof.
  intros HP. unfold update, Header.
  assert (Happ : filter P (h ++ [Card k v (default "" c)]) = filter P h).
  { rewrite filter_app, filter_cons_False by by apply HP.
    by rewrite filter_nil, app_nil_r. }
  destruct (commentary k), (existsb (has_key k) h) eqn:He; try done.
  - apply filter_insert_after_last; [done|by apply HP].
  - by apply filter_update_first.
  - apply filter_insert_after_keywords. by apply HP.
Qed.

End HeaderOrder.

Lemma filter_keyword_absent (h : list card) k :
  existsb (has_key k) h = false -> filter (fun x => keyword x = k) h = [].
Proof.
  induction h as [|x h IH]; simpl; [done|].
  intros H. apply orb_false_elim in H as [Hx Hh].
  rewrite filter_cons_False; [by apply IH|].
  intros Hk. apply has_key_true in Hk. congruence.
Qed.

Lemma filter_update_commentary (h : list card) k v :
  commentary k = true ->
  filter (fun x => keyword x = k) (update h k v None : list card)
  = filter (fun x => keyword x = k) h ++ [Card k v ""].
Proof.
  intros Hc. unfold update, Header. rewrite Hc. change (default "" None) with "".
  destruct (existsb (has_key k) h) eqn:He.
  - destruct (insert_after_last_spec h k (Card k v "") He)
      as (h1 & h2 & -> & -> & H2).
    rewrite !filter_app, filter_cons_True by done.
    by rewrite (filter_keyword_absent h2 k H2), app_nil_r.
  - by rewrite filter_app, filter_cons_True.
Qed.

(** Lines 60 to 63 keep the other cards as they stand, and put the new
    comment after the comments the header had. *)
Lemma annotated_order (h : list card) bias_fn flat_fn dark_fn :
  filter (fun x => keyword x ∉ provenance_keys)
    (annotated h bias_fn flat_fn dark_fn : list card)
  = filter (fun x => keyword x ∉ provenance_keys) h /\
  filter (fun x => keyword x = "COMMENT")
    (annotated h bias_fn flat_fn dark_fn : list card)
  = filter (fun x => keyword x = "COMMENT") h ++ [comment_card].
Proof.
  unfold annotated, Header. split.
  - rewrite !filter_update_other; [done|..];
      intros x -> Hx; apply Hx; unfold provenance_keys;
      rewrite !elem_of_cons; auto.
  - rewrite !filter_update_other by (by intros x ->).
    by apply filter_update_commentary.
Qed.

(** ** One row for every row *)

Lemma lookup_concat_replicate {A} (l : list A) m n (i : nat) :
  length l = n -> (i < m * n)%nat ->
  concat (replicate m l) !! i = l !! (i mod n)%nat.
Proof.
  intros Hl. revert i; induction m as [|m IH]; intros i Hi; [lia|].
  cbn [replicate concat].
  destruct (decide (i < n)%nat) as [Hlt|Hge].
  - rewrite lookup_app_l by lia. by rewrite Nat.mod_small.
  - rewrite lookup_app_r by lia. rewrite Hl, IH by lia.
    f_equal. replace i with ((i - n) + 1 * n)%nat at 2 by lia.
    by rewrite Nat.Div0.mod_add.
Qed.

Lemma expand_row {A} m n (l : list A) :
  length l = n -> expand [m; n]%nat [1; n]%nat l = concat (replicate m l).
Proof.
  intros Hl.
  assert (He : expand [n] [n] l = l).
  { apply expand_same_shape. simpl. lia. }
  change (expand [m; n]%nat [1; n]%nat l)
    with (if Nat.eqb 1 m
          then concat (map (expand [n] [n]) (chunks m (size [n]) l))
          else concat (replicate m (expand [n] [n] l))).
  destruct (Nat.eqb_spec 1 m) as [<-|Hne].
  - change (size [n]) with (n * 1)%nat. cbn [chunks map concat replicate].
    rewrite take_ge by lia. by rewrite He.
  - by rewrite He.
Qed.

Lemma broadcastable_row m n : broadcastable [1; n]%nat [m; n]%nat = true.
Proof.
  unfold broadcastable. cbn. rewrite Nat.eqb_refl. cbn.
  by rewrite orb_true_r.
Qed.

(** ** Binary32: integers below [2^24] *)

(** The conversion of an integer below [2^24]: sign, mantissa of 24 digits,
    exponent. *)
Lemma of_Z_finite z :
  z <> 0 -> Z.abs z < 2 ^ 24 ->
  exists q M,
    Zpos q = Z.abs z /\
    Zpos M = Zpos q * 2 ^ (24 - Zpos (digits2_pos q)) /\
    F4.of_Z z = S754_finite (z <? 0) M (Zpos (digits2_pos q) - 24).
Proof.
  intros Hz Ha. unfold F4.of_Z, binary_normalize.
  destruct z as [|q|q]; [done|..].
  - destruct (binary_round_exact false q q 0) as (M & HM & _ & Hr);
      [apply digits2_below; lia|lia|lia|].
    exists q, M. split; [done|]. split; [done|]. exact Hr.
  - destruct (binary_round_exact true q q 0) as (M & HM & _ & Hr);
      [apply digits2_below; lia|lia|lia|].
    exists q, M. split; [done|]. split; [done|]. exact Hr.
Qed.

(** Rounding does not see a scaling by a power of two. *)
Lemma of_Z_scaled z k :
  Z.abs z < 2 ^ 24 -> 0 <= k ->
  binary_normalize F4.prec F4.emax (z * 2 ^ k) (- k) false = F4.of_Z z.
Proof.
  intros Ha Hk. assert (Hp : 0 < 2 ^ k) by (apply Z.pow_pos_nonneg; lia).
  unfold F4.of_Z.
  destruct z as [|q|q].
  - reflexivity.
  - destruct (Zpos q * 2 ^ k) as [|r|r] eqn:Hr; [lia| |lia].
    cbn [binary_normalize].
    destruct (binary_round_exact false q r k) as (M & HM & _ & ->);
      [apply digits2_below; lia|lia|lia|].
    destruct (binary_round_exact false q q 0) as (M' & HM' & _ & Hr');
      [apply digits2_below; lia|lia|lia|].
    change (- 0) with 0 in Hr'. rewrite Hr'. f_equal. apply Pos2Z.inj. lia.
  - destruct (Zneg q * 2 ^ k) as [|r|r] eqn:Hr; [lia|lia|].
    cbn [binary_normalize].
    destruct (binary_round_exact true q r k) as (M & HM & _ & ->);
      [apply digits2_below; lia|lia|lia|].
    destruct (binary_round_exact true q q 0) as (M' & HM' & _ & Hr');
      [apply digits2_below; lia|lia|lia|].
    change (- 0) with 0 in Hr'. rewrite Hr'. f_equal. apply Pos2Z.inj. lia.
Qed.

Lemma shl_align_value m e e' :
  e' <= e -> Zpos (fst (shl_align m e e')) = Zpos m * 2 ^ (e - e').
Proof.
  intros He. unfold shl_align.
  destruct (e' - e) as [|n|n] eqn:Hn; cbn [fst].
  - replace (e - e') with 0 by lia. lia.
  - lia.
  - rewrite pos_iter_xO_Z. do 2 f_equal. lia.
Qed.

(** The difference of two converted integers is the converted difference. *)
Lemma sub_of_Z a b :
  Z.abs a < 2 ^ 24 -> Z.abs b < 2 ^ 24 -> Z.abs (a - b) < 2 ^ 24 ->
  F4.sub (F4.of_Z a) (F4.of_Z b) = F4.of_Z (a - b).
Proof.
  intros Ha Hb Hab.
  destruct (Z.eq_dec b 0) as [->|Nb].
  { rewrite Z.sub_0_r. apply sub_zero_r. }
  destruct (of_Z_finite b Nb Hb) as (qb & Mb & Hqb & HMb & Eb).
  destruct (Z.eq_dec a 0) as [->|Na].
  { destruct (of_Z_finite (0 - b)) as (q' & M' & Hq' & HM' & E'); [lia|lia|].
    rewrite Eb, E'. cbn.
    assert (q' = qb) as -> by (apply Pos2Z.inj; lia).
    assert (M' = Mb) as -> by (apply Pos2Z.inj; lia).
    f_equal. destruct (Z.ltb_spec b 0), (Z.ltb_spec (0 - b) 0); simpl; lia || done. }
  destruct (of_Z_finite a Na Ha) as (qa & Ma & Hqa & HMa & Ea).
  rewrite Ea, Eb. unfold F4.sub, SFsub.
  set (da := Zpos (digits2_pos qa)) in *. set (db := Zpos (digits2_pos qb)) in *.
  assert (Hda : 0 < da <= 24).
  { unfold da. split; [lia|]. apply digits2_below. lia. }
  assert (Hdb : 0 < db <= 24).
  { unfold db. split; [lia|]. apply digits2_below. lia. }
  set (ez := Z.min (da - 24) (db - 24)).
  rewrite !shl_align_value by (unfold ez; lia).
  assert (Hva : cond_Zopp (a <? 0) (Zpos Ma * 2 ^ (da - 24 - ez)) = a * 2 ^ (- ez)).
  { rewrite HMa, <- Z.mul_assoc, <- Z.pow_add_r by (unfold ez; lia).
    replace (24 - da + (da - 24 - ez)) with (- ez) by lia.
    unfold cond_Zopp. destruct (Z.ltb_spec a 0); lia. }
  assert (Hvb : cond_Zopp (b <? 0) (Zpos Mb * 2 ^ (db - 24 - ez)) = b * 2 ^ (- ez)).
  { rewrite HMb, <- Z.mul_assoc, <- Z.pow_add_r by (unfold ez; lia).
    replace (24 - db + (db - 24 - ez)) with (- ez) by lia.
    unfold cond_Zopp. destruct (Z.ltb_spec b 0); lia. }
  rewrite Hva, Hvb, <- Z.mul_sub_distr_r.
  replace ez with (- - ez) at 2 by lia.
  apply of_Z_scaled; [done|unfold ez; lia].
Qed.

(** Distinct integers below [2^24] have distinct conversions. *)
Lemma of_Z_inj a b :
  Z.abs a < 2 ^ 24 -> Z.abs b < 2 ^ 24 -> F4.of_Z a = F4.of_Z b -> a = b.
Proof.
  intros Ha Hb He.
  destruct (Z.eq_dec a 0) as [->|Na], (Z.eq_dec b 0) as [->|Nb]; [done|..].
  - destruct (of_Z_finite b Nb Hb) as (q & M & _ & _ & E).
    rewrite E in He. discriminate He.
  - destruct (of_Z_finite a Na Ha) as (q & M & _ & _ & E).
    rewrite E in He. discriminate He.
  - destruct (of_Z_finite a Na Ha) as (qa & Ma & Hqa & HMa & Ea).
    destruct (of_Z_finite b Nb Hb) as (qb & Mb & Hqb & HMb & Eb).
    rewrite Ea, Eb in He. injection He as Hs HM Hd.
    assert (Hdd : Zpos (digits2_pos qa) = Zpos (digits2_pos qb)) by lia.
    rewrite HM, Hdd in HMa.
    assert (Hq : Zpos qa = Zpos qb).
    { assert (0 < 2 ^ (24 - Zpos (digits2_pos qb)))
        by (apply Z.pow_pos_nonneg; [lia|];
            pose proof (digits2_below qb); lia).
      apply (Z.mul_cancel_r _ _ (2 ^ (24 - Z.pos (digits2_pos qb)))); lia. }
    destruct (Z.ltb_spec a 0), (Z.ltb_spec b 0); try done; lia.
Qed.

Lemma zip_sub_of_Z (S B : list Z) :
  (forall z, z ∈ S -> Z.abs z < 2 ^ 23) ->
  (forall z, z ∈ B -> Z.abs z < 2 ^ 23) ->
  zip_with F4.sub (map F4.of_Z S) (map F4.of_Z B)
  = map F4.of_Z (zip_with Z.sub S B).
Proof.
  revert B; induction S as [|s S IH]; intros [|b B] HS HB; try done.
  cbn [map zip_with].
  assert (Hs : Z.abs s < 2 ^ 23) by (apply HS; by left).
  assert (Hb : Z.abs b < 2 ^ 23) by (apply HB; by left).
  rewrite sub_of_Z by lia. f_equal.
  apply IH; intros z Hz; [apply HS|apply HB]; by right.
Qed.

Lemma map_of_Z_inj (l1 l2 : list Z) :
  (forall z, z ∈ l1 -> Z.abs z < 2 ^ 24) ->
  (forall z, z ∈ l2 -> Z.abs z < 2 ^ 24) ->
  map F4.of_Z l1 = map F4.of_Z l2 -> l1 = l2.
Proof.
  revert l2; induction l1 as [|x l1 IH]; intros [|y l2] H1 H2 He; try done.
  injection He as Hx Hl. f_equal.
  - apply of_Z_inj; [apply H1|apply H2|done]; by left.
  - apply IH; [| |done]; intros z Hz; [apply H1|apply H2]; by right.
Qed.

(** ** The properties *)

(** X1. The reads of lines 42 to 45 happen in the order bias, flat, dark,
    science: the first one that fails ends the call with its exception,
    whatever the files that come after it hold, and the store is as it was.
    A path without a file gives [FileNotFoundError] with that path, a file
    that is not a FITS container gives [OSError]. *)
Theorem X1_reads_in_order
    (detect_cosmics : ndarray F4.f4 -> result (ndarray bool * ndarray F4.f4))
    (dev : device) sci_fn bias_fn flat_fn dark_fn out_fn w :
  (forall e, getdata bias_fn w = (inl e, w) ->
     reduce_science_frame detect_cosmics dev sci_fn bias_fn flat_fn dark_fn
       out_fn w
       = (inl e, w)) /\
  (forall b e, getdata bias_fn w = (inr b, w) ->
     getdata flat_fn w = (inl e, w) ->
     reduce_science_frame detect_cosmics dev sci_fn bias_fn flat_fn dark_fn
       out_fn w
       = (inl e, w)) /\
  (forall b f e, getdata bias_fn w = (inr b, w) ->
     getdata flat_fn w = (inr f, w) ->
     getdata dark_fn w = (inl e, w) ->
     reduce_science_frame detect_cosmics dev sci_fn bias_fn flat_fn dark_fn
       out_fn w
       = (inl e, w)) /\
  (forall b f d e, getdata bias_fn w = (inr b, w) ->
     getdata flat_fn w = (inr f, w) ->
     getdata dark_fn w = (inr d, w) ->
     getdata sci_fn w = (inl e, w) ->
     reduce_science_frame detect_cosmics dev sci_fn bias_fn flat_fn dark_fn
       out_fn w
       = (inl e, w)) /\
  (forall path, files w !! path = None ->
     getdata path w = (inl (FileNotFoundError path), w)) /\
  (forall path, files w !! path = Some OtherFile ->
     getdata path w = (inl (OSError path), w)).
Proof.
  repeat split.
  - intros e Hb. apply reduce_science_frame_error.
    by rewrite corrected_frame_run, Hb.
  - intros b e Hb Hf. apply reduce_science_frame_error.
    by rewrite corrected_frame_run, Hb, Hf.
  - intros b f e Hb Hf Hd. apply reduce_science_frame_error.
    by rewrite corrected_frame_run, Hb, Hf, Hd.
  - intros b f d e Hb Hf Hd Hs. apply reduce_science_frame_error.
    by rewrite corrected_frame_run, Hb, Hf, Hd, Hs.
  - intros path Hp. unfold getdata, fits_open, mbind, M_bind. by rewrite Hp.
  - intros path Hp. unfold getdata, fits_open, mbind, M_bind. by rewrite Hp.
Qed.

Lemma X1_witness :
  reduce_science_frame Demo.no_cosmics Demo.roomy "nosci.fits" "nobias.fits" "notes.txt"
    "dark.fits" "out.fits" Archive.shelf
  = (inl (FileNotFoundError "nobias.fits"), Archive.shelf) /\
  reduce_science_frame Demo.no_cosmics Demo.roomy "nosci.fits" "bias.fits" "notes.txt"
    "nodark.fits" "out.fits" Archive.shelf
  = (inl (OSError "notes.txt"), Archive.shelf).
Proof.
  split.
  - apply (proj1 (X1_reads_in_order Demo.no_cosmics Demo.roomy "nosci.fits" "nobias.fits"
                    "notes.txt" "dark.fits" "out.fits" Archive.shelf)).
    vm_compute. reflexivity.
  - apply (proj1 (proj2 (X1_reads_in_order Demo.no_cosmics Demo.roomy "nosci.fits"
                    "bias.fits" "notes.txt" "nodark.fits" "out.fits"
                    Archive.shelf)) Demo.bias_img).
    + vm_compute. reflexivity.
    + vm_compute. reflexivity.
Defined.

(** X2. Blank pixels propagate: for frames of one shape, a pixel at which
    the science, bias, dark or flat frame holds NaN is NaN in the corrected
    image, and so is every pixel when the exposure time is NaN. No exception
    is raised. *)
Theorem X2_blank_pixels_propagate w sci_fn bias_fn flat_fn dark_fn fr v t :
  loaded w sci_fn bias_fn flat_fn dark_fn fr ->
  image_shape (f_bias fr) = image_shape (f_sci fr) ->
  image_shape (f_dark fr) = image_shape (f_sci fr) ->
  image_shape (f_flat fr) = image_shape (f_sci fr) ->
  getitem (f_header fr) "EXPTIME" = Some v ->
  scalar_f4 v = inr t ->
  exists R,
    corrected_frame sci_fn bias_fn flat_fn dark_fn w = (inr (R, f_header fr), w) /\
    forall (i : nat) s b d f,
      data (astype_f4 (f_sci fr)) !! i = Some s ->
      data (astype_f4 (f_bias fr)) !! i = Some b ->
      data (astype_f4 (f_dark fr)) !! i = Some d ->
      data (astype_f4 (f_flat fr)) !! i = Some f ->
      s = F4.nan \/ b = F4.nan \/ d = F4.nan \/ f = F4.nan \/ t = F4.nan ->
      data R !! i = Some F4.nan.
Proof.
  intros Hl Sb Sd Sf Hv Ht.
  destruct (loaded_well_formed _ _ _ _ _ _ Hl) as (Ws & Wb & Wd & Wf).
  pose proof (corrected_frame_loaded _ _ _ _ _ _ Hl) as Hc.
  rewrite (arithmetic_same_shape fr v t) in Hc by done.
  eexists. split; [exact Hc|].
  intros i s b d f Hs Hb Hd Hf Hn. cbn [data].
  rewrite (formula_pixel _ _ _ _ t i s b d f) by done.
  by rewrite pixel_nan.
Qed.

Lemma X2_witness :
  exists R,
    corrected_frame "sci.fits" "bias.fits" "flat.fits" "dark_nan.fits" Demo.night
      = (inr (R, Demo.sci_header), Demo.night) /\
    forall (i : nat) s b d f,
      data (astype_f4 Demo.sci_img) !! i = Some s ->
      data (astype_f4 Demo.bias_img) !! i = Some b ->
      data (astype_f4 Demo.dark_nan_img) !! i = Some d ->
      data (astype_f4 Demo.flat_img) !! i = Some f ->
      s = F4.nan \/ b = F4.nan \/ d = F4.nan \/ f = F4.nan \/ F4.of_Z 30 = F4.nan ->
      data R !! i = Some F4.nan.
Proof.
  apply (X2_blank_pixels_propagate Demo.night "sci.fits" "bias.fits" "flat.fits"
           "dark_nan.fits"
           (Frames Demo.sci_img Demo.bias_img Demo.dark_nan_img Demo.flat_img
              Demo.sci_header)
           (VInt 30) (F4.of_Z 30)).
  - repeat split; vm_compute; reflexivity.
  - reflexivity.
  - reflexivity.
  - reflexivity.
  - reflexivity.
  - reflexivity.
Defined.

(** X3. A flat pixel equal to zero raises nothing: for frames of one shape
    the call goes on, and the corrected pixel is an infinity or NaN. *)
Theorem X3_zero_flat_pixel w sci_fn bias_fn flat_fn dark_fn fr v t :
  loaded w sci_fn bias_fn flat_fn dark_fn fr ->
  image_shape (f_bias fr) = image_shape (f_sci fr) ->
  image_shape (f_dark fr) = image_shape (f_sci fr) ->
  image_shape (f_flat fr) = image_shape (f_sci fr) ->
  getitem (f_header fr) "EXPTIME" = Some v ->
  scalar_f4 v = inr t ->
  exists R,
    corrected_frame sci_fn bias_fn flat_fn dark_fn w = (inr (R, f_header fr), w) /\
    forall (i : nat) s b d f,
      data (astype_f4 (f_sci fr)) !! i = Some s ->
      data (astype_f4 (f_bias fr)) !! i = Some b ->
      data (astype_f4 (f_dark fr)) !! i = Some d ->
      data (astype_f4 (f_flat fr)) !! i = Some f ->
      F4.is_zero f = true ->
      exists r, data R !! i = Some r /\ F4.is_finite r = false.
Proof.
  intros Hl Sb Sd Sf Hv Ht.
  destruct (loaded_well_formed _ _ _ _ _ _ Hl) as (Ws & Wb & Wd & Wf).
  pose proof (corrected_frame_loaded _ _ _ _ _ _ Hl) as Hc.
  rewrite (arithmetic_same_shape fr v t) in Hc by done.
  eexists. split; [exact Hc|].
  intros i s b d f Hs Hb Hd Hf Hz. cbn [data].
  rewrite (formula_pixel _ _ _ _ t i s b d f) by done.
  eexists. split; [reflexivity|]. by apply div_zero_not_finite.
Qed.

Lemma X3_witness :
  exists R,
    corrected_frame "sci.fits" "bias.fits" "zeros.fits" "dark.fits" Demo.night
      = (inr (R, Demo.sci_header), Demo.night) /\
    forall (i : nat) s b d f,
      data (astype_f4 Demo.sci_img) !! i = Some s ->
      data (astype_f4 Demo.bias_img) !! i = Some b ->
      data (astype_f4 Demo.dark_img) !! i = Some d ->
      data (astype_f4 Demo.zeros_img) !! i = Some f ->
      F4.is_zero f = true ->
      exists r, data R !! i = Some r /\ F4.is_finite r = false.
Proof.
  apply (X3_zero_flat_pixel Demo.night "sci.fits" "bias.fits" "zeros.fits"
           "dark.fits"
           (Frames Demo.sci_img Demo.bias_img Demo.dark_img Demo.zeros_img
              Demo.sci_header)
           (VInt 30) (F4.of_Z 30)).
  - repeat split; vm_compute; reflexivity.
  - reflexivity.
  - reflexivity.
  - reflexivity.
  - reflexivity.
  - reflexivity.
Defined.

(** X4. An [EXPTIME] that is a string makes line 51 raise [TypeError], after
    the bias has been subtracted and whatever the shapes of the dark and flat
    frames; a bias frame that cannot be broadcast raises the [ValueError] of
    line 49 first. The store is as it was. *)
Theorem X4_text_exposure_time
    (detect_cosmics : ndarray F4.f4 -> result (ndarray bool * ndarray F4.f4))
    (dev : device) sci_fn bias_fn flat_fn dark_fn out_fn w fr txt :
  loaded w sci_fn bias_fn flat_fn dark_fn fr ->
  getitem (f_header fr) "EXPTIME" = Some (VStr txt) ->
  reduce_science_frame detect_cosmics dev sci_fn bias_fn flat_fn dark_fn out_fn
    w
    = (inl (if broadcastable (image_shape (f_bias fr)) (image_shape (f_sci fr))
            then TypeError else ValueError), w).
Proof.
  intros Hl Hv.
  pose proof (isub_broadcast (astype_f4 (f_sci fr)) (astype_f4 (f_bias fr))) as H1.
  rewrite !astype_f4_shape in H1.
  apply reduce_science_frame_error.
  rewrite (corrected_frame_loaded _ _ _ _ _ _ Hl). f_equal.
  unfold arithmetic, dark_contribution, header_getitem, imul_value.
  destruct (isub _ _) as [e|s1]; destruct H1 as [-> H1]; [by subst|].
  cbn [mbind result_bind]. by rewrite Hv.
Qed.

Lemma X4_witness :
  reduce_science_frame Demo.no_cosmics Demo.roomy "strexp.fits" "bias.fits" "flat.fits"
    "bias_line.fits" "out.fits" Archive.shelf
  = (inl TypeError, Archive.shelf).
Proof.
  apply (X4_text_exposure_time Demo.no_cosmics Demo.roomy "strexp.fits" "bias.fits"
           "flat.fits" "bias_line.fits" "out.fits" Archive.shelf
           (Frames Demo.sci_img Demo.bias_img Demo.bias_line_img Demo.flat_img
              Archive.strexp_header) "30.0").
  - repeat split; vm_compute; reflexivity.
  - reflexivity.
Defined.

(** X5. With calibration frames that NumPy can broadcast to the science
    frame, lines 48 to 54 raise nothing and give, at every pixel,
    [((s - b) - d * t) / f], where [b], [d] and [f] are the pixels of the
    bias, dark and flat frames stretched to the shape of the science frame;
    the result has the shape of the science frame. *)
Theorem X5_broadcast_formula w sci_fn bias_fn flat_fn dark_fn fr v t :
  loaded w sci_fn bias_fn flat_fn dark_fn fr ->
  all_broadcastable fr = true ->
  getitem (f_header fr) "EXPTIME" = Some v ->
  scalar_f4 v = inr t ->
  exists R,
    corrected_frame sci_fn bias_fn flat_fn dark_fn w = (inr (R, f_header fr), w) /\
    shape R = image_shape (f_sci fr) /\
    length (data R) = size (image_shape (f_sci fr)) /\
    forall (i : nat) s b d f,
      data (astype_f4 (f_sci fr)) !! i = Some s ->
      expand (image_shape (f_sci fr)) (image_shape (f_bias fr))
        (data (astype_f4 (f_bias fr))) !! i = Some b ->
      expand (image_shape (f_sci fr)) (image_shape (f_dark fr))
        (data (astype_f4 (f_dark fr))) !! i = Some d ->
      expand (image_shape (f_sci fr)) (image_shape (f_flat fr))
        (data (astype_f4 (f_flat fr))) !! i = Some f ->
      data R !! i = Some (F4.div (F4.sub (F4.sub s b) (F4.mul d t)) f).
Proof.
  intros Hl Hb Hv Ht.
  destruct (loaded_well_formed _ _ _ _ _ _ Hl) as (Ws & Wb & Wd & Wf).
  pose proof (corrected_frame_loaded _ _ _ _ _ _ Hl) as Hc.
  rewrite (arithmetic_stretched fr v t) in Hc by done.
  eexists. split; [exact Hc|]. cbn [shape data].
  split; [done|]. split; [by apply stretched_length|].
  intros i s b d f Hs Hbi Hd Hf. by apply formula_pixel.
Qed.

Lemma X5_witness :
  exists R,
    corrected_frame "sci.fits" "bias_row.fits" "flat.fits" "dark.fits" Demo.night
      = (inr (R, Demo.sci_header), Demo.night) /\
    shape R = [2; 2]%nat /\
    length (data R) = 4%nat /\
    forall (i : nat) s b d f,
      data (astype_f4 Demo.sci_img) !! i = Some s ->
      expand [2; 2]%nat [1; 2]%nat (data (astype_f4 Demo.bias_row_img)) !! i
        = Some b ->
      expand [2; 2]%nat [2; 2]%nat (data (astype_f4 Demo.dark_img)) !! i
        = Some d ->
      expand [2; 2]%nat [2; 2]%nat (data (astype_f4 Demo.flat_img)) !! i
        = Some f ->
      data R !! i = Some (F4.div (F4.sub (F4.sub s b) (F4.mul d (F4.of_Z 30))) f).
Proof.
  apply (X5_broadcast_formula Demo.night "sci.fits" "bias_row.fits" "flat.fits"
           "dark.fits"
           (Frames Demo.sci_img Demo.bias_row_img Demo.dark_img Demo.flat_img
              Demo.sci_header)
           (VInt 30) (F4.of_Z 30)).
  - repeat split; vm_compute; reflexivity.
  - reflexivity.
  - reflexivity.
  - reflexivity.
Defined.

(** X6. Calibration frames of a single pixel act as constants: with a bias
    frame holding the one value [b0], a dark frame holding [d0] and a flat
    frame holding [f0], each of a shape that can be broadcast, the corrected
    image is [((s - b0) - d0 * t) / f0] at every pixel [s] of the science
    frame. *)
Theorem X6_single_pixel_calibration
    w sci_fn bias_fn flat_fn dark_fn fr v t b0 d0 f0 :
  loaded w sci_fn bias_fn flat_fn dark_fn fr ->
  all_broadcastable fr = true ->
  data (astype_f4 (f_bias fr)) = [b0] ->
  data (astype_f4 (f_dark fr)) = [d0] ->
  data (astype_f4 (f_flat fr)) = [f0] ->
  getitem (f_header fr) "EXPTIME" = Some v ->
  scalar_f4 v = inr t ->
  corrected_frame sci_fn bias_fn flat_fn dark_fn w
  = (inr (NdArray (image_shape (f_sci fr))
            (map (fun s => F4.div (F4.sub (F4.sub s b0) (F4.mul d0 t)) f0)
               (data (astype_f4 (f_sci fr)))),
          f_header fr), w).
Proof.
  intros Hl Hb Db Dd Df Hv Ht.
  destruct (loaded_well_formed _ _ _ _ _ _ Hl) as (Ws & Wb & Wd & Wf).
  rewrite (corrected_frame_loaded _ _ _ _ _ _ Hl).
  rewrite (arithmetic_stretched fr v t) by done.
  apply well_formed_length in Ws, Wb, Wd, Wf.
  rewrite !astype_f4_shape in *. rewrite Db in Wb. rewrite Dd in Wd.
  rewrite Df in Wf. rewrite Db, Dd, Df.
  unfold all_broadcastable in Hb.
  apply andb_prop in Hb as [Hb Hf]. apply andb_prop in Hb as [Hb Hd].
  rewrite (expand_single _ b0 _ Hb (eq_sym Wb)),
    (expand_single _ d0 _ Hd (eq_sym Wd)), (expand_single _ f0 _ Hf (eq_sym Wf)).
  change (map (fun d => F4.mul d t)) with (fmap (M:=list) (fun d => F4.mul d t)).
  rewrite fmap_replicate.
  rewrite (zip_with_replicate_r_eq F4.sub _ b0) by done.
  rewrite (zip_with_replicate_r_eq F4.sub) by by rewrite length_fmap.
  rewrite (zip_with_replicate_r_eq F4.div) by by rewrite !length_fmap.
  rewrite <- !list_fmap_compose. reflexivity.
Qed.

Lemma X6_witness :
  corrected_frame "sci.fits" "bias_level.fits" "gain.fits" "dark_rate.fits"
    Archive.shelf
  = (inr (NdArray [2; 2]%nat
            (map (fun s => F4.div (F4.sub (F4.sub s (F4.of_Z 10))
                                     (F4.mul F4.one (F4.of_Z 30))) F4.two)
               (data (astype_f4 Demo.sci_img))),
          Demo.sci_header), Archive.shelf).
Proof.
  apply (X6_single_pixel_calibration Archive.shelf "sci.fits" "bias_level.fits"
           "gain.fits" "dark_rate.fits"
           (Frames Demo.sci_img Archive.bias_level_img Archive.dark_rate_img
              Archive.gain_img Demo.sci_header)
           (VInt 30) (F4.of_Z 30) (F4.of_Z 10) F4.one F4.two).
  - repeat split; vm_compute; reflexivity.
  - reflexivity.
  - reflexivity.
  - reflexivity.
  - reflexivity.
  - reflexivity.
  - reflexivity.
Defined.

(** X7. What a run that gets past line 54 has met: the five reads succeeded,
    the science header has an [EXPTIME] that is a number or a boolean, and
    the three calibration frames can be broadcast to the science frame. The
    corrected image then has the shape of the science frame and one value
    per pixel, and the store is as it was. *)
Theorem X7_conditions_of_success sci_fn bias_fn flat_fn dark_fn w w' R h :
  corrected_frame sci_fn bias_fn flat_fn dark_fn w = (inr (R, h), w') ->
  w' = w /\
  exists fr v t,
    loaded w sci_fn bias_fn flat_fn dark_fn fr /\
    h = f_header fr /\
    all_broadcastable fr = true /\
    getitem h "EXPTIME" = Some v /\
    scalar_f4 v = inr t /\
    shape R = image_shape (f_sci fr) /\
    well_formed R = true.
Proof.
  intros Hc. split.
  { pose proof (corrected_frame_store sci_fn bias_fn flat_fn dark_fn w) as Hs.
    by rewrite Hc in Hs. }
  destruct (corrected_frame_inv _ _ _ _ _ _ _ _ Hc) as (fr & Hl & Ha & Hh).
  destruct (arithmetic_inv _ _ _ Ha) as (_ & Hb & v & t & Hv & Ht).
  destruct (loaded_well_formed _ _ _ _ _ _ Hl) as (Ws & Wb & Wd & Wf).
  exists fr, v, t. subst h.
  rewrite (arithmetic_stretched fr v t) in Ha by done. injection Ha as <-.
  split; [done|]. split; [done|]. split; [done|]. split; [done|].
  split; [done|]. split; [done|].
  unfold well_formed. cbn [shape data]. apply Nat.eqb_eq.
  by apply stretched_length.
Qed.

Lemma X7_witness :
  Demo.night = Demo.night /\
  exists fr v t,
    loaded Demo.night "sci.fits" "bias_row.fits" "flat.fits" "dark.fits" fr /\
    Demo.sci_header = f_header fr /\
    all_broadcastable fr = true /\
    getitem Demo.sci_header "EXPTIME" = Some v /\
    scalar_f4 v = inr t /\
    shape Demo.reduced = image_shape (f_sci fr) /\
    well_formed Demo.reduced = true.
Proof.
  apply (X7_conditions_of_success "sci.fits" "bias_row.fits" "flat.fits"
           "dark.fits" Demo.night Demo.night Demo.reduced Demo.sci_header).
  vm_compute. reflexivity.
Defined.

(** X8. Running the same call again gives the same image and leaves the
    store as the first run left it, provided the output path is none of the
    four input paths. *)
Theorem X8_second_run_changes_nothing
    (detect_cosmics : ndarray F4.f4 -> result (ndarray bool * ndarray F4.f4))
    (dev : device) sci_fn bias_fn flat_fn dark_fn out_fn w w' img :
  out_fn <> sci_fn -> out_fn <> bias_fn -> out_fn <> flat_fn ->
  out_fn <> dark_fn ->
  reduce_science_frame detect_cosmics dev sci_fn bias_fn flat_fn dark_fn out_fn w
    = (inr img, w') ->
  reduce_science_frame detect_cosmics dev sci_fn bias_fn flat_fn dark_fn out_fn w'
    = (inr img, w').
Proof.
  intros Ns Nb Nf Nd Hr.
  destruct (reduce_returns _ _ _ _ _ _ _ _ _ _ Hr)
    as (sci & h & mask & Hc & Hd & Hp & Ho & Hdev & ->).
  set (w' := Store _ _) in *.
  assert (Hc' : corrected_frame sci_fn bias_fn flat_fn dark_fn w'
                = (inr (sci, h), w')).
  { pose proof (corrected_frame_store sci_fn bias_fn flat_fn dark_fn w') as H2.
    pose proof (corrected_frame_agree sci_fn bias_fn flat_fn dark_fn w' w) as H1.
    rewrite Hc in H1.
    destruct (corrected_frame sci_fn bias_fn flat_fn dark_fn w') as [r w2].
    simpl in H1, H2. subst w2. f_equal. apply H1; unfold w'; cbn [files];
      by rewrite lookup_insert_ne. }
  rewrite (reduce_returns_when _ _ _ _ _ _ _ _ _ _ _ _ Hc' Hd Hp Ho Hdev).
  f_equal. unfold w'. cbn [files locked]. by rewrite insert_insert_eq.
Qed.

Lemma X8_witness :
  reduce_science_frame Demo.no_cosmics Demo.roomy "sci.fits" "bias.fits" "flat.fits"
    "dark.fits" "reduced_science.fits" Demo.night_after
  = (inr Demo.reduced, Demo.night_after).
Proof.
  apply (X8_second_run_changes_nothing Demo.no_cosmics Demo.roomy "sci.fits" "bias.fits"
           "flat.fits" "dark.fits" "reduced_science.fits" Demo.night
           Demo.night_after Demo.reduced).
  - discriminate.
  - discriminate.
  - discriminate.
  - discriminate.
  - vm_compute. reflexivity.
Defined.

(** X9. No file but the four inputs is read: in two stores that hold the
    same files at the four input paths, and agree on whether the output path
    can be written, the call ends the same way, with the same image or the
    same exception. *)
Theorem X9_only_the_inputs_are_read
    (detect_cosmics : ndarray F4.f4 -> result (ndarray bool * ndarray F4.f4))
    (dev : device) sci_fn bias_fn flat_fn dark_fn out_fn w1 w2 :
  files w1 !! sci_fn = files w2 !! sci_fn ->
  files w1 !! bias_fn = files w2 !! bias_fn ->
  files w1 !! flat_fn = files w2 !! flat_fn ->
  files w1 !! dark_fn = files w2 !! dark_fn ->
  (out_fn ∈ locked w1 <-> out_fn ∈ locked w2) ->
  (reduce_science_frame detect_cosmics dev sci_fn bias_fn flat_fn dark_fn out_fn
     w1).1
  = (reduce_science_frame detect_cosmics dev sci_fn bias_fn flat_fn dark_fn out_fn
       w2).1.
Proof.
  intros Hs Hb Hf Hd Ho. rewrite !reduce_science_frame_run.
  pose proof (corrected_frame_agree sci_fn bias_fn flat_fn dark_fn w1 w2
                Hs Hb Hf Hd) as Hc.
  destruct (corrected_frame sci_fn bias_fn flat_fn dark_fn w1) as [r1 u1].
  destruct (corrected_frame sci_fn bias_fn flat_fn dark_fn w2) as [r2 u2].
  simpl in Hc. subst r2. destruct r1 as [e|[sci h]]; [done|].
  destruct (detect_cosmics sci) as [e|[mask img]]; [done|].
  destruct (output_hdul img mask h bias_fn flat_fn dark_fn) as [e|hdul];
    [done|].
  rewrite !writeto_run.
  destruct (decide (out_fn ∈ locked w1)) as [H1|H1],
    (decide (out_fn ∈ locked w2)) as [H2|H2].
  - done.
  - by apply Ho in H1.
  - by apply Ho in H2.
  - by destruct (dev out_fn hdul) as [[|[f|]]|].
Qed.

Lemma X9_witness :
  (reduce_science_frame Demo.no_cosmics Demo.roomy "sci.fits" "bias.fits" "flat.fits"
     "dark.fits" "out.fits" Demo.night).1
  = (reduce_science_frame Demo.no_cosmics Demo.roomy "sci.fits" "bias.fits" "flat.fits"
       "dark.fits" "out.fits" Archive.shelf).1.
Proof.
  apply (X9_only_the_inputs_are_read Demo.no_cosmics Demo.roomy "sci.fits" "bias.fits"
           "flat.fits" "dark.fits" "out.fits" Demo.night Archive.shelf).
  - vm_compute. reflexivity.
  - vm_compute. reflexivity.
  - vm_compute. reflexivity.
  - vm_compute. reflexivity.
  - split; intros H; vm_compute in H; discriminate H.
Defined.

(** X10. When the primary unit of the science file has no data, line 45
    takes the image of the first extension while line 46 still takes the
    header of the primary unit: the exposure time is looked up there, and
    the header of the extension is not read. *)
Theorem X10_header_of_the_primary_unit
    sci_fn bias_fn flat_fn dark_fn w hp he i rest b f d :
  files w !! sci_fn
    = Some (FitsFile (MkHDU hp None :: MkHDU he (Some i) :: rest)) ->
  image_ok i = true ->
  getdata bias_fn w = (inr b, w) ->
  getdata flat_fn w = (inr f, w) ->
  getdata dark_fn w = (inr d, w) ->
  getdata sci_fn w = (inr i, w) /\
  getheader sci_fn w = (inr hp, w) /\
  corrected_frame sci_fn bias_fn flat_fn dark_fn w
    = (arithmetic (Frames i b d f hp), w).
Proof.
  intros Hfile Hok Hb Hf Hd.
  assert (Hs : getdata sci_fn w = (inr i, w)).
  { unfold getdata, fits_open, mbind, M_bind. rewrite Hfile. cbn.
    unfold decoded. by rewrite Hok. }
  assert (Hh : getheader sci_fn w = (inr hp, w)).
  { unfold getheader, fits_open, mbind, M_bind. by rewrite Hfile. }
  split; [done|]. split; [done|].
  by apply corrected_frame_loaded.
Qed.

Lemma X10_witness :
  getdata "mef.fits" Archive.shelf = (inr Demo.sci_img, Archive.shelf) /\
  getheader "mef.fits" Archive.shelf = (inr Demo.noexp_header, Archive.shelf) /\
  corrected_frame "mef.fits" "bias.fits" "flat.fits" "dark.fits" Archive.shelf
    = (inl (KeyError "EXPTIME"), Archive.shelf).
Proof.
  apply (X10_header_of_the_primary_unit "mef.fits" "bias.fits" "flat.fits"
           "dark.fits" Archive.shelf Demo.noexp_header Archive.extension_header
           Demo.sci_img [] Demo.bias_img Demo.flat_img Demo.dark_img).
  - vm_compute. reflexivity.
  - reflexivity.
  - vm_compute. reflexivity.
  - vm_compute. reflexivity.
  - vm_compute. reflexivity.
Defined.

(** X11. The mask extension of the written file holds the detector's mask
    pixel by pixel, as 8-bit integers: 1 where the detector flagged the
    pixel, 0 elsewhere, in the shape of the mask. *)
Theorem X11_mask_pixels
    (detect_cosmics : ndarray F4.f4 -> result (ndarray bool * ndarray F4.f4))
    (dev : device) sci_fn bias_fn flat_fn dark_fn out_fn w w' img :
  reduce_science_frame detect_cosmics dev sci_fn bias_fn flat_fn dark_fn out_fn w
    = (inr img, w') ->
  exists sci h mask primary mask_unit a,
    corrected_frame sci_fn bias_fn flat_fn dark_fn w = (inr (sci, h), w) /\
    detect_cosmics sci = inr (mask, img) /\
    fits_open out_fn w' = (inr [primary; mask_unit], w') /\
    hdu_data mask_unit = Some (ImgInt UInt8 a) /\
    shape a = shape mask /\
    length (data a) = length (data mask) /\
    forall (i : nat) (flagged : bool),
      data mask !! i = Some flagged ->
      data a !! i = Some (if flagged then 1 else 0).
Proof.
  intros Hr.
  destruct (reduce_returns _ _ _ _ _ _ _ _ _ _ Hr)
    as (sci & h & mask & Hc & Hd & _ & _ & _ & ->).
  exists sci, h, mask. eexists _, _, _.
  split; [done|]. split; [done|].
  unfold fits_open. cbn [files]. rewrite lookup_insert_eq.
  cbn [mask_unit_of mask_uint8].
  split; [reflexivity|]. split; [reflexivity|].
  split; [reflexivity|]. cbn [astype data].
  split; [by rewrite length_map|].
  intros i flagged Hi.
  change (map ?g) with (fmap (M:=list) g).
  by rewrite list_lookup_fmap, Hi.
Qed.

Lemma X11_witness :
  exists sci h mask primary mask_unit a,
    corrected_frame "sci.fits" "bias.fits" "flat.fits" "dark.fits" Demo.night
      = (inr (sci, h), Demo.night) /\
    Archive.first_pixel sci = inr (mask, NdArray [2; 2]%nat
                                     (F4.zero :: map F4.of_Z [40; 60; 130])) /\
    fits_open "out.fits"
      (Store (<["out.fits" :=
                  FitsFile
                    [MkHDU (annotated Demo.sci_header "bias.fits" "flat.fits"
                              "dark.fits")
                       (Some (ImgF4 (NdArray [2; 2]%nat
                                       (F4.zero :: map F4.of_Z [40; 60; 130]))));
                     mask_unit_of
                       (NdArray [2; 2]%nat [true; false; false; false])]]> (files Demo.night)) ∅)
    = (inr [primary; mask_unit],
       Store (<["out.fits" :=
                  FitsFile
                    [MkHDU (annotated Demo.sci_header "bias.fits" "flat.fits"
                              "dark.fits")
                       (Some (ImgF4 (NdArray [2; 2]%nat
                                       (F4.zero :: map F4.of_Z [40; 60; 130]))));
                     mask_unit_of
                       (NdArray [2; 2]%nat [true; false; false; false])]]> (files Demo.night)) ∅) /\
    hdu_data mask_unit = Some (ImgInt UInt8 a) /\
    shape a = shape mask /\
    length (data a) = length (data mask) /\
    forall (i : nat) (flagged : bool),
      data mask !! i = Some flagged ->
      data a !! i = Some (if flagged then 1 else 0).
Proof.
  apply (X11_mask_pixels Archive.first_pixel Demo.roomy "sci.fits" "bias.fits" "flat.fits"
           "dark.fits" "out.fits" Demo.night).
  vm_compute. reflexivity.
Defined.

(** X12. For a science header of ordinary cards (no blank card, no
    structural keyword): the output header keeps every card of the science
    header whose keyword is none of the four provenance keywords, duplicates
    included, in the order they had; and its [COMMENT] cards are those of
    the science header, in their order, followed by the new one: earlier
    comments are never overwritten. *)
Theorem X12_cards_keep_their_order
    (detect_cosmics : ndarray F4.f4 -> result (ndarray bool * ndarray F4.f4))
    (dev : device) sci_fn bias_fn flat_fn dark_fn out_fn w w' img
    (h : list card) :
  reduce_science_frame detect_cosmics dev sci_fn bias_fn flat_fn dark_fn out_fn
    w = (inr img, w') ->
  getheader sci_fn w = (inr h, w) ->
  plain h = true ->
  exists H : list card,
    getheader out_fn w' = (inr H, w') /\
    filter (fun x => keyword x ∉ provenance_keys) H
      = filter (fun x => keyword x ∉ provenance_keys) h /\
    filter (fun x => keyword x = "COMMENT") H
      = filter (fun x => keyword x = "COMMENT") h ++ [comment_card].
Proof.
  intros Hr Hh _.
  destruct (reduce_returns _ _ _ _ _ _ _ _ _ _ Hr)
    as (sci & h' & mask & Hc & _ & _ & _ & _ & ->).
  destruct (corrected_frame_inv _ _ _ _ _ _ _ _ Hc)
    as (fr & (_ & _ & _ & _ & Hh') & _ & <-).
  rewrite Hh in Hh'. injection Hh' as ->.
  exists (annotated (f_header fr) bias_fn flat_fn dark_fn).
  split.
  { unfold getheader, fits_open, mbind, M_bind. cbn [files].
    by rewrite lookup_insert_eq. }
  apply annotated_order.
Qed.

Lemma X12_witness :
  exists H : list card,
    getheader "out.fits"
      (Store (<["out.fits" :=
                  FitsFile
                    [MkHDU (annotated Archive.logged_header "bias.fits"
                              "flat.fits" "dark.fits")
                       (Some (ImgF4 Demo.reduced));
                     mask_unit_of
                       (NdArray [2; 2]%nat [false; false; false; false])]]>
                (files Archive.shelf))
         (locked Archive.shelf))
    = (inr H,
       Store (<["out.fits" :=
                  FitsFile
                    [MkHDU (annotated Archive.logged_header "bias.fits"
                              "flat.fits" "dark.fits")
                       (Some (ImgF4 Demo.reduced));
                     mask_unit_of
                       (NdArray [2; 2]%nat [false; false; false; false])]]>
                (files Archive.shelf))
         (locked Archive.shelf)) /\
    filter (fun x => keyword x ∉ provenance_keys) H
      = filter (fun x => keyword x ∉ provenance_keys) Archive.logged_header /\
    filter (fun x => keyword x = "COMMENT") H
      = filter (fun x => keyword x = "COMMENT") Archive.logged_header
          ++ [comment_card].
Proof.
  apply (X12_cards_keep_their_order Demo.no_cosmics Demo.roomy "logged.fits"
           "bias.fits" "flat.fits" "dark.fits" "out.fits" Archive.shelf _
           Demo.reduced Archive.logged_header).
  - vm_compute. reflexivity.
  - vm_compute. reflexivity.
  - vm_compute. reflexivity.
Defined.

(** X13. An exposure time of one leaves the dark frame as it is: line 51
    gives back the dark frame bit for bit, and for frames of one shape the
    corrected pixel is [((s - b) - d) / f]. *)
Theorem X13_unit_exposure w sci_fn bias_fn flat_fn dark_fn fr v :
  loaded w sci_fn bias_fn flat_fn dark_fn fr ->
  image_shape (f_bias fr) = image_shape (f_sci fr) ->
  image_shape (f_dark fr) = image_shape (f_sci fr) ->
  image_shape (f_flat fr) = image_shape (f_sci fr) ->
  getitem (f_header fr) "EXPTIME" = Some v ->
  scalar_f4 v = inr F4.one ->
  dark_contribution fr = inr (astype_f4 (f_dark fr)) /\
  exists R,
    corrected_frame sci_fn bias_fn flat_fn dark_fn w = (inr (R, f_header fr), w) /\
    forall (i : nat) s b d f,
      data (astype_f4 (f_sci fr)) !! i = Some s ->
      data (astype_f4 (f_bias fr)) !! i = Some b ->
      data (astype_f4 (f_dark fr)) !! i = Some d ->
      data (astype_f4 (f_flat fr)) !! i = Some f ->
      data R !! i = Some (F4.div (F4.sub (F4.sub s b) d) f).
Proof.
  intros Hl Sb Sd Sf Hv Ht.
  destruct (loaded_well_formed _ _ _ _ _ _ Hl) as (Ws & Wb & Wd & Wf).
  assert (Hone : map (fun d => F4.mul d F4.one) (data (astype_f4 (f_dark fr)))
                 = data (astype_f4 (f_dark fr))).
  { rewrite <- (map_id (data (astype_f4 (f_dark fr)))) at 2.
    apply map_ext_in. intros d Hd. apply mul_one.
    destruct Hl as (_ & _ & Hdark & _).
    apply (getdata_valid _ _ _ _ _ Hdark). by apply list_elem_of_In. }
  split.
  - unfold dark_contribution, header_getitem, imul_value, inplace_scalar.
    rewrite Hv. cbn [mbind result_bind]. rewrite Ht.
    cbn [mbind result_bind mret result_ret]. rewrite Hone.
    by destruct (astype_f4 (f_dark fr)).
  - pose proof (corrected_frame_loaded _ _ _ _ _ _ Hl) as Hc.
    rewrite (arithmetic_same_shape fr v F4.one) in Hc by done.
    rewrite Hone in Hc.
    eexists. split; [exact Hc|].
    intros i s b d f Hs Hb Hd Hf. cbn [data].
    rewrite !lookup_zip_with, Hs, Hb. cbn. by rewrite Hd, Hf.
Qed.

Lemma X13_witness :
  dark_contribution
    (Frames Demo.sci_img Demo.bias_img Demo.dark_img Demo.flat_img
       Archive.onesec_header)
  = inr (astype_f4 Demo.dark_img) /\
  exists R,
    corrected_frame "onesec.fits" "bias.fits" "flat.fits" "dark.fits"
      Archive.shelf = (inr (R, Archive.onesec_header), Archive.shelf) /\
    forall (i : nat) s b d f,
      data (astype_f4 Demo.sci_img) !! i = Some s ->
      data (astype_f4 Demo.bias_img) !! i = Some b ->
      data (astype_f4 Demo.dark_img) !! i = Some d ->
      data (astype_f4 Demo.flat_img) !! i = Some f ->
      data R !! i = Some (F4.div (F4.sub (F4.sub s b) d) f).
Proof.
  apply (X13_unit_exposure Archive.shelf "onesec.fits" "bias.fits" "flat.fits"
           "dark.fits"
           (Frames Demo.sci_img Demo.bias_img Demo.dark_img Demo.flat_img
              Archive.onesec_header)
           (VInt 1)).
  - repeat split; vm_compute; reflexivity.
  - reflexivity.
  - reflexivity.
  - reflexivity.
  - reflexivity.
  - reflexivity.
Defined.

(** X14. A bias frame of one row is subtracted from every row: for a science
    frame of [m] rows of [n] pixels, a bias frame of shape [1; n] and dark
    and flat frames of the shape of the science frame, the pixel at position
    [i] of the row-major buffer is [((s - b) - d * t) / f] with [b] the bias
    pixel of its column, [i mod n]. *)
Theorem X14_one_row_bias w sci_fn bias_fn flat_fn dark_fn fr v t m n :
  loaded w sci_fn bias_fn flat_fn dark_fn fr ->
  image_shape (f_sci fr) = [m; n]%nat ->
  image_shape (f_bias fr) = [1; n]%nat ->
  image_shape (f_dark fr) = image_shape (f_sci fr) ->
  image_shape (f_flat fr) = image_shape (f_sci fr) ->
  getitem (f_header fr) "EXPTIME" = Some v ->
  scalar_f4 v = inr t ->
  exists R,
    corrected_frame sci_fn bias_fn flat_fn dark_fn w = (inr (R, f_header fr), w) /\
    shape R = [m; n]%nat /\
    forall (i : nat) s b d f,
      data (astype_f4 (f_sci fr)) !! i = Some s ->
      data (astype_f4 (f_bias fr)) !! (i mod n)%nat = Some b ->
      data (astype_f4 (f_dark fr)) !! i = Some d ->
      data (astype_f4 (f_flat fr)) !! i = Some f ->
      data R !! i = Some (F4.div (F4.sub (F4.sub s b) (F4.mul d t)) f).
Proof.
  intros Hl Ss Sb Sd Sf Hv Ht.
  destruct (loaded_well_formed _ _ _ _ _ _ Hl) as (Ws & Wb & Wd & Wf).
  apply well_formed_length in Ws, Wb, Wd, Wf.
  rewrite !astype_f4_shape in *.
  assert (Hb : all_broadcastable fr = true).
  { unfold all_broadcastable. rewrite Sd, Sf, Sb, Ss.
    by rewrite broadcastable_row, broadcastable_refl. }
  pose proof (corrected_frame_loaded _ _ _ _ _ _ Hl) as Hc.
  rewrite (arithmetic_stretched fr v t) in Hc by done.
  rewrite Sd, Sf in Hc. rewrite Sd in Wd. rewrite Sf in Wf.
  rewrite !expand_same_shape in Hc by done.
  rewrite Ss, Sb in Hc.
  assert (Hn : length (data (astype_f4 (f_bias fr))) = n).
  { rewrite Wb, Sb. simpl. lia. }
  rewrite (expand_row m n _ Hn) in Hc.
  eexists. split; [exact Hc|]. split; [done|].
  intros i s b d f Hs Hbi Hd Hf. cbn [data].
  apply formula_pixel; [done| |done..].
  rewrite (lookup_concat_replicate _ m n i Hn); [done|].
  apply lookup_lt_Some in Hs. rewrite Ws, Ss in Hs. simpl in Hs. lia.
Qed.

Lemma X14_witness :
  exists R,
    corrected_frame "sci.fits" "bias_row.fits" "flat.fits" "dark.fits" Demo.night
      = (inr (R, Demo.sci_header), Demo.night) /\
    shape R = [2; 2]%nat /\
    forall (i : nat) s b d f,
      data (astype_f4 Demo.sci_img) !! i = Some s ->
      data (astype_f4 Demo.bias_row_img) !! (i mod 2)%nat = Some b ->
      data (astype_f4 Demo.dark_img) !! i = Some d ->
      data (astype_f4 Demo.flat_img) !! i = Some f ->
      data R !! i = Some (F4.div (F4.sub (F4.sub s b) (F4.mul d (F4.of_Z 30))) f).
Proof.
  apply (X14_one_row_bias Demo.night "sci.fits" "bias_row.fits" "flat.fits"
           "dark.fits"
           (Frames Demo.sci_img Demo.bias_row_img Demo.dark_img Demo.flat_img
              Demo.sci_header)
           (VInt 30) (F4.of_Z 30) 2%nat 2%nat).
  - repeat split; vm_compute; reflexivity.
  - reflexivity.
  - reflexivity.
  - reflexivity.
  - reflexivity.
  - reflexivity.
  - reflexivity.
Defined.

(** X15. Integer frames are subtracted exactly: when the science and bias
    frames hold integers of magnitude below [2^23] (as 16-bit data do) and
    have one shape, the science array after line 49 is the conversion to
    binary32 of the integer differences: no rounding takes place. *)
Theorem X15_integer_frames_subtract_exactly
    w sci_fn bias_fn flat_fn dark_fn fr ds db sh (S B : list Z) :
  loaded w sci_fn bias_fn flat_fn dark_fn fr ->
  f_sci fr = ImgInt ds (NdArray sh S) ->
  f_bias fr = ImgInt db (NdArray sh B) ->
  (forall z, z ∈ S -> Z.abs z < 2 ^ 23) ->
  (forall z, z ∈ B -> Z.abs z < 2 ^ 23) ->
  isub (astype_f4 (f_sci fr)) (astype_f4 (f_bias fr))
  = inr (astype F4.of_Z (NdArray sh (zip_with Z.sub S B))).
Proof.
  intros Hl Es Eb HS HB.
  destruct (loaded_well_formed _ _ _ _ _ _ Hl) as (Ws & Wb & _ & _).
  rewrite Es, Eb in *. cbn [astype_f4] in *.
  unfold isub. rewrite inplace_same_shape by done.
  unfold astype. cbn [shape data]. by rewrite zip_sub_of_Z.
Qed.

Lemma X15_witness :
  isub (astype_f4 Demo.sci_img) (astype_f4 Demo.bias_img)
  = inr (astype F4.of_Z
           (NdArray [2; 2]%nat
              (zip_with Z.sub [110; 120; 130; 140] [10; 10; 10; 10]))).
Proof.
  apply (X15_integer_frames_subtract_exactly Demo.night "sci.fits" "bias.fits"
           "flat.fits" "dark.fits" Demo.night_frames Int16 Int16 [2; 2]%nat
           [110; 120; 130; 140] [10; 10; 10; 10]).
  - repeat split; vm_compute; reflexivity.
  - reflexivity.
  - reflexivity.
  - intros z Hz.
    repeat (apply elem_of_cons in Hz as [-> | Hz]; [reflexivity|]).
    by apply elem_of_nil in Hz.
  - intros z Hz.
    repeat (apply elem_of_cons in Hz as [-> | Hz]; [reflexivity|]).
    by apply elem_of_nil in Hz.
Defined.

(** X16. The conversion of lines 42 to 45 loses nothing on integers of
    magnitude below [2^24]: two integer images with such pixels that are
    converted to the same binary32 array hold the same integers. *)
Theorem X16_conversion_is_one_to_one d1 d2 (a1 a2 : ndarray Z) :
  (forall z, z ∈ data a1 -> Z.abs z < 2 ^ 24) ->
  (forall z, z ∈ data a2 -> Z.abs z < 2 ^ 24) ->
  astype_f4 (ImgInt d1 a1) = astype_f4 (ImgInt d2 a2) ->
  a1 = a2.
Proof.
  intros H1 H2 He. destruct a1 as [s1 l1], a2 as [s2 l2].
  unfold astype_f4, astype in He. cbn [shape data] in *. injection He as -> Hl.
  f_equal. by apply map_of_Z_inj.
Qed.

Lemma X16_witness :
  NdArray [2; 2]%nat [110; 120; 130; 140]
  = NdArray [2; 2]%nat [110; 120; 130; 140].
Proof.
  apply (X16_conversion_is_one_to_one Int16 Int32
           (NdArray [2; 2]%nat [110; 120; 130; 140])
           (NdArray [2; 2]%nat [110; 120; 130; 140])).
  - intros z Hz. cbn [data] in Hz.
    repeat (apply elem_of_cons in Hz as [-> | Hz]; [reflexivity|]).
    by apply elem_of_nil in Hz.
  - intros z Hz. cbn [data] in Hz.
    repeat (apply elem_of_cons in Hz as [-> | Hz]; [reflexivity|]).
    by apply elem_of_nil in Hz.
  - reflexivity.
Defined.
